(** * Variable inspector: a shallow embedding of
      [python/src/variable_inspector/inspector.py]

    The inspector receives arbitrary live Python objects and only ever
    observes them through a fixed set of operations: [type(obj).__name__],
    [type(obj).__module__], [isinstance] against built-in classes,
    [getattr], [len], [repr], [str], iteration, subscription, calls and
    truth testing.  An object is therefore modelled as the bundle of the
    outcomes of those operations.  Outcomes are deterministic: asking an
    object the same question twice gives the same answer.

    Every handler of the source catches [Exception] as a whole and never
    looks at the exception, so a failing operation is modelled by the single
    outcome [Raise] (an exception derived from [Exception]). *)

From Stdlib Require Import String Ascii List ZArith Lia Bool.
From Stdlib Require Import DecimalString.
Import ListNotations.
Open Scope string_scope.
Open Scope Z_scope.

Set Implicit Arguments.

(** ** Outcomes of fallible operations *)

Inductive outcome (A : Type) : Type :=
| Ok (a : A)
| Raise.
Arguments Ok {A} a.
Arguments Raise {A}.

Definition bind {A B} (m : outcome A) (k : A -> outcome B) : outcome B :=
  match m with
  | Ok a => k a
  | Raise => Raise
  end.

Notation "x <- m ;; k" := (bind m (fun x => k))
  (at level 61, m at next level, right associativity).

(** [try: m except Exception: d] *)
Definition try_except {A} (m : outcome A) (d : A) : A :=
  match m with
  | Ok a => a
  | Raise => d
  end.

(** [try: m except Exception: n = None] *)
Definition attempt {A} (m : outcome A) : option A :=
  match m with
  | Ok a => Some a
  | Raise => None
  end.

Fixpoint mapM {A B} (f : A -> outcome B) (l : list A) : outcome (list B) :=
  match l with
  | [] => Ok []
  | a :: l' => b <- f a ;; bs <- mapM f l' ;; Ok (b :: bs)
  end.

(** ** Objects *)

(** The built-in classes the source tests with [isinstance]
    ([BMapping] is [collections.abc.Mapping], which the source never tests). *)
Inductive builtin : Type :=
| BInt | BFloat | BComplex | BStr | BBytes | BBool | BNoneType
| BDict | BList | BTuple | BSet | BFrozenset
| BFunctionType | BBuiltinFunctionType | BType | BModuleType
| BMapping.

Definition builtin_eqb (a b : builtin) : bool :=
  match a, b with
  | BInt, BInt | BFloat, BFloat | BComplex, BComplex | BStr, BStr
  | BBytes, BBytes | BBool, BBool | BNoneType, BNoneType
  | BDict, BDict | BList, BList | BTuple, BTuple | BSet, BSet
  | BFrozenset, BFrozenset | BFunctionType, BFunctionType
  | BBuiltinFunctionType, BBuiltinFunctionType | BType, BType
  | BModuleType, BModuleType | BMapping, BMapping => true
  | _, _ => false
  end.

(** What an object is as a value: the [None] singleton, an integer, a
    string, or an opaque object known by its identity.  It also is the key
    under which a container finds the object in a subscription. *)
Inductive prim : Type :=
| PNone
| PInt (z : Z)
| PStr (s : string)
| PId (id : nat).

Definition prim_eqb (a b : prim) : bool :=
  match a, b with
  | PNone, PNone => true
  | PInt x, PInt y => Z.eqb x y
  | PStr x, PStr y => String.eqb x y
  | PId x, PId y => Nat.eqb x y
  | _, _ => false
  end.

#[warnings="-register-all"]
Inductive pyobj : Type := PyObj {
  cls_name : string;                         (* type(obj).__name__ *)
  cls_module : string;                       (* type(obj).__module__ *)
  mro : list builtin;                        (* built-in classes obj is an instance of *)
  payload : prim;
  hashable : bool;
  attrs : list (string * outcome pyobj);     (* getattr; absent: AttributeError *)
  dunder_len : option (outcome Z);           (* None: the class has no __len__ *)
  dunder_repr : outcome (option string);     (* Ok None: a non-string was returned *)
  dunder_str : outcome (option string);
  dunder_iter : option (list pyobj * bool);  (* items yielded, then raises or stops *)
  dunder_getitem : list (prim * outcome pyobj);
  dunder_call : option (outcome pyobj);      (* None: not callable *)
  dunder_bool : outcome bool
}.

(** ** The Python operations the inspector uses *)

Fixpoint assoc {A} (k : string) (l : list (string * A)) : option A :=
  match l with
  | [] => None
  | (k', v) :: l' => if String.eqb k k' then Some v else assoc k l'
  end.

Fixpoint assoc_prim {A} (k : prim) (l : list (prim * A)) : option A :=
  match l with
  | [] => None
  | (k', v) :: l' => if prim_eqb k k' then Some v else assoc_prim k l'
  end.

Definition isinstance (o : pyobj) (b : builtin) : bool :=
  existsb (builtin_eqb b) (mro o).

Definition isinstance_any (o : pyobj) (bs : list builtin) : bool :=
  existsb (isinstance o) bs.

Definition is_None (o : pyobj) : bool :=
  match payload o with
  | PNone => true
  | _ => false
  end.

Definition sys_maxsize : Z := 2 ^ 63 - 1.

(** [len(obj)]: [__len__] must exist and return an integer in
    [0 .. sys.maxsize]; anything else raises. *)
Definition py_len (o : pyobj) : outcome Z :=
  match dunder_len o with
  | Some (Ok n) => if (n <? 0) || (sys_maxsize <? n) then Raise else Ok n
  | _ => Raise
  end.

(** [repr(obj)]: raises [TypeError] when [__repr__] returns a non-string. *)
Definition py_repr (o : pyobj) : outcome string :=
  match dunder_repr o with
  | Ok (Some s) => Ok s
  | _ => Raise
  end.

Definition py_str (o : pyobj) : outcome string :=
  match dunder_str o with
  | Ok (Some s) => Ok s
  | _ => Raise
  end.

Definition py_getattr (o : pyobj) (name : string) : outcome pyobj :=
  match assoc name (attrs o) with
  | Some r => r
  | None => Raise
  end.

Definition py_call (f : pyobj) : outcome pyobj :=
  match dunder_call f with
  | Some r => r
  | None => Raise
  end.

(** [obj.m(...)] *)
Definition py_method (o : pyobj) (m : string) : outcome pyobj :=
  f <- py_getattr o m ;; py_call f.

(** [obj[k]] *)
Definition py_getitem (o k : pyobj) : outcome pyobj :=
  match assoc_prim (payload k) (dunder_getitem o) with
  | Some r => r
  | None => Raise
  end.

(** [int(x)], modelled for integer values (the numeric strings [int] also
    accepts are outside the model). *)
Definition py_int (o : pyobj) : outcome Z :=
  match payload o with
  | PInt z => Ok z
  | _ => Raise
  end.

(** [x > n] for an integer [n]; ordering is modelled for integer values. *)
Definition py_gt (o : pyobj) (n : Z) : outcome bool :=
  match payload o with
  | PInt z => Ok (n <? z)
  | _ => Raise
  end.

(** [list(x)], [tuple(x)] *)
Definition py_iter_all (o : pyobj) : outcome (list pyobj) :=
  match dunder_iter o with
  | Some (items, false) => Ok items
  | _ => Raise
  end.

(** [list(islice(x, n))]: [islice] refuses an [n] outside [0 .. sys.maxsize];
    at most [n] items are pulled, so a failure behind them is never reached. *)
Definition islice (o : pyobj) (n : Z) : outcome (list pyobj) :=
  if (n <? 0) || (sys_maxsize <? n) then Raise
  else match dunder_iter o with
       | None => Raise
       | Some (items, fails) =>
           if n <=? Z.of_nat (length items) then Ok (firstn (Z.to_nat n) items)
           else if fails then Raise else Ok items
       end.

(** [s[:k]] on a string *)
Definition str_slice_to (s : string) (k : Z) : string :=
  let n := Z.of_nat (String.length s) in
  let stop := if k <? 0 then Z.max 0 (n + k) else Z.min k n in
  substring 0 (Z.to_nat stop) s.

(** [l[:k]] on a list *)
Definition list_slice_to {A} (l : list A) (k : Z) : list A :=
  let n := Z.of_nat (length l) in
  let stop := if k <? 0 then Z.max 0 (n + k) else Z.min k n in
  firstn (Z.to_nat stop) l.

Definition str_len (s : string) : Z := Z.of_nat (String.length s).

(** [f"{n}"] for an integer *)
Definition dec (n : Z) : string := NilZero.string_of_int (Z.to_int n).

(** ** Safety primitives *)

Definition _safe_attr (obj : pyobj) (name : string) (default : pyobj) : pyobj :=
  match assoc name (attrs obj) with
  | Some (Ok v) => v
  | Some Raise => default
  | None => default
  end.

Definition _safe_len (obj : pyobj) : option Z :=
  attempt (py_len obj).

Definition _truncate_name (name : pyobj) (max_len : option Z) : outcome string :=
  match max_len with
  | None => py_str name
  | Some max_len =>
      s <- py_str name ;;
      Ok (if str_len s <=? max_len then s
          else str_slice_to s (max_len - 3) ++ "...")
  end.

Definition _type_name (obj : pyobj) : string := cls_name obj.

Definition _module (obj : pyobj) : string := cls_module obj.

Definition _safe_repr (obj : pyobj) (limit : Z) : string :=
  let native :=
    match py_repr obj with
    | Raise => "<" ++ cls_name obj ++ ">"
    | Ok r => if limit <? str_len r
              then str_slice_to r (limit - 3) ++ "..." else r
    end in
  if isinstance_any obj [BDict; BList; BTuple; BSet; BFrozenset] then
    match attempt (py_len obj) with
    | Some n =>
        if 20 <? n then "<" ++ cls_name obj ++ " with " ++ dec n ++ " items>"
        else native
    | None => native
    end
  else native.

(** ** Inspection records *)

(** The values an inspection record holds.  [RObj] is an inspected-side
    object stored by reference, [RMap] a dict built from such objects. *)
#[warnings="-register-all"]
Inductive rvalue : Type :=
| RNone
| RBool (b : bool)
| RInt (z : Z)
| RStr (s : string)
| RList (l : list rvalue)
| RDict (d : list (string * rvalue))
| RMap (d : list (rvalue * rvalue))
| RObj (o : pyobj).

Definition record : Type := list (string * rvalue).

(** [d[k] = v]: replaces the value of a present key, else appends. *)
Fixpoint rset (k : string) (v : rvalue) (d : record) : record :=
  match d with
  | [] => [(k, v)]
  | (k', v') :: d' =>
      if String.eqb k k' then (k', v) :: d' else (k', v') :: rset k v d'
  end.

Definition rget (k : string) (d : record) : option rvalue := assoc k d.

Definition has_key (k : string) (d : record) : bool :=
  match rget k d with
  | Some _ => true
  | None => false
  end.

(** An object of exactly the class [int], [bool], [str] or [NoneType] is
    shown as the value it is; every other object stays a reference. *)
Definition reify (o : pyobj) : rvalue :=
  match payload o with
  | PNone => RNone
  | PInt z =>
      if String.eqb (cls_module o) "builtins" then
        if String.eqb (cls_name o) "int" then RInt z
        else if String.eqb (cls_name o) "bool" then RBool (negb (z =? 0))
        else RObj o
      else RObj o
  | PStr s =>
      if String.eqb (cls_module o) "builtins" && String.eqb (cls_name o) "str"
      then RStr s else RObj o
  | PId _ => RObj o
  end.

Definition ropt (n : option Z) : rvalue :=
  match n with
  | Some z => RInt z
  | None => RNone
  end.

(** ** Built-in values *)

Definition join (sep : string) (l : list string) : string := String.concat sep l.

(** [repr] of a tuple, list and dict with the given elements *)
Definition repr_tuple (items : list pyobj) : outcome string :=
  rs <- mapM py_repr items ;;
  Ok (match rs with
      | [r] => "(" ++ r ++ ",)"
      | _ => "(" ++ join ", " rs ++ ")"
      end).

Definition repr_list (items : list pyobj) : outcome string :=
  rs <- mapM py_repr items ;; Ok ("[" ++ join ", " rs ++ "]").

Definition repr_dict (items : list (pyobj * pyobj)) : outcome string :=
  rs <- mapM (fun kv => k <- py_repr (fst kv) ;; v <- py_repr (snd kv) ;;
                        Ok (k ++ ": " ++ v)) items ;;
  Ok ("{" ++ join ", " rs ++ "}").

Definition squash (r : outcome string) : outcome (option string) :=
  match r with
  | Ok s => Ok (Some s)
  | Raise => Raise
  end.

Definition mk_none : pyobj :=
  {| cls_name := "NoneType"; cls_module := "builtins"; mro := [BNoneType];
     payload := PNone; hashable := true; attrs := []; dunder_len := None;
     dunder_repr := Ok (Some "None"); dunder_str := Ok (Some "None");
     dunder_iter := None; dunder_getitem := []; dunder_call := None;
     dunder_bool := Ok false |}.

Definition mk_int (z : Z) : pyobj :=
  {| cls_name := "int"; cls_module := "builtins"; mro := [BInt];
     payload := PInt z; hashable := true; attrs := []; dunder_len := None;
     dunder_repr := Ok (Some (dec z)); dunder_str := Ok (Some (dec z));
     dunder_iter := None; dunder_getitem := []; dunder_call := None;
     dunder_bool := Ok (negb (z =? 0)) |}.

Definition mk_char (c : ascii) : pyobj :=
  let s := String c "" in
  {| cls_name := "str"; cls_module := "builtins"; mro := [BStr];
     payload := PStr s; hashable := true; attrs := [];
     dunder_len := Some (Ok 1); dunder_repr := Ok (Some ("'" ++ s ++ "'"));
     dunder_str := Ok (Some s); dunder_iter := None; dunder_getitem := [];
     dunder_call := None; dunder_bool := Ok true |}.

(** A string; its [repr] is the one of a string free of quotes, backslashes
    and control characters, and the characters it yields are leaves. *)
Definition mk_str (s : string) : pyobj :=
  {| cls_name := "str"; cls_module := "builtins"; mro := [BStr];
     payload := PStr s; hashable := true; attrs := [];
     dunder_len := Some (Ok (str_len s));
     dunder_repr := Ok (Some ("'" ++ s ++ "'")); dunder_str := Ok (Some s);
     dunder_iter := Some (map mk_char (list_ascii_of_string s), false);
     dunder_getitem := []; dunder_call := None;
     dunder_bool := Ok (negb (String.eqb s "")) |}.

(** The subscription table of a sequence: indices [0 .. n-1] and [-n .. -1]. *)
Definition seq_index (items : list pyobj) : list (prim * outcome pyobj) :=
  let n := length items in
  let idx := seq 0 n in
  combine (map (fun i => PInt (Z.of_nat i)) idx) (map Ok items)
  ++ combine (map (fun i => PInt (Z.of_nat i - Z.of_nat n)) idx) (map Ok items).

Definition mk_seq (cls : string) (b : builtin) (hash : bool)
    (rp : outcome string) (items : list pyobj) : pyobj :=
  {| cls_name := cls; cls_module := "builtins"; mro := [b]; payload := PId 0;
     hashable := hash; attrs := [];
     dunder_len := Some (Ok (Z.of_nat (length items)));
     dunder_repr := squash rp; dunder_str := squash rp;
     dunder_iter := Some (items, false); dunder_getitem := seq_index items;
     dunder_call := None;
     dunder_bool := Ok (negb (Nat.eqb (length items) 0)) |}.

Definition mk_list (items : list pyobj) : pyobj :=
  mk_seq "list" BList false (repr_list items) items.

Definition mk_tuple (items : list pyobj) : pyobj :=
  mk_seq "tuple" BTuple (forallb hashable items) (repr_tuple items) items.

(** A bound method or view that, called, gives [r]. *)
Definition mk_method (r : outcome pyobj) : pyobj :=
  {| cls_name := "builtin_function_or_method"; cls_module := "builtins";
     mro := [BBuiltinFunctionType]; payload := PId 0; hashable := true;
     attrs := []; dunder_len := None;
     dunder_repr := Ok (Some "<built-in method>");
     dunder_str := Ok (Some "<built-in method>"); dunder_iter := None;
     dunder_getitem := []; dunder_call := Some r; dunder_bool := Ok true |}.

Definition mk_view (cls : string) (items : list pyobj) : pyobj :=
  {| cls_name := cls; cls_module := "builtins"; mro := []; payload := PId 0;
     hashable := false; attrs := [];
     dunder_len := Some (Ok (Z.of_nat (length items)));
     dunder_repr := Ok (Some ("<" ++ cls ++ ">"));
     dunder_str := Ok (Some ("<" ++ cls ++ ">"));
     dunder_iter := Some (items, false); dunder_getitem := [];
     dunder_call := None;
     dunder_bool := Ok (negb (Nat.eqb (length items) 0)) |}.

(** A dict with the given items, in insertion order (keys distinct). *)
Definition mk_dict (items : list (pyobj * pyobj)) : pyobj :=
  let ks := map fst items in
  {| cls_name := "dict"; cls_module := "builtins"; mro := [BDict; BMapping];
     payload := PId 0; hashable := false;
     attrs :=
       [("keys", Ok (mk_method (Ok (mk_view "dict_keys" ks))));
        ("items",
         Ok (mk_method (Ok (mk_view "dict_items"
               (map (fun kv => mk_tuple [fst kv; snd kv]) items)))))];
     dunder_len := Some (Ok (Z.of_nat (length items)));
     dunder_repr := squash (repr_dict items);
     dunder_str := squash (repr_dict items);
     dunder_iter := Some (ks, false);
     dunder_getitem := map (fun kv => (payload (fst kv), Ok (snd kv))) items;
     dunder_call := None;
     dunder_bool := Ok (negb (Nat.eqb (length items) 0)) |}.

(** ** Structured inspectors *)

(** The column loop of the two eager table inspectors:
    [dt = "?"], overwritten by [str(dtypes[c])] when that succeeds. *)
Definition column_entry (dtypes : pyobj) (max_name_length : option Z)
    (c : pyobj) : outcome rvalue :=
  let dt := if is_None dtypes then "?"
            else try_except (v <- py_getitem dtypes c ;; py_str v) "?" in
  nm <- _truncate_name c max_name_length ;;
  Ok (RDict [("name", RStr nm); ("dtype", RStr dt)]).

(** [shape[1] if len(shape) > 1 else len(cols)] *)
Definition total_columns (shape : pyobj) (cols : list pyobj) : outcome pyobj :=
  n <- py_len shape ;;
  if 1 <? n then py_getitem shape (mk_int 1)
  else Ok (mk_int (Z.of_nat (length cols))).

(** [if v: d[k] = x] on a record under construction *)
Definition rset_if (b : bool) (k : string) (v : rvalue) (d : record) : record :=
  if b then rset k v d else d.

(** [with suppress(Exception): d[k] = m] *)
Definition rset_try (k : string) (m : outcome rvalue) (d : record) : record :=
  match m with
  | Ok v => rset k v d
  | Raise => d
  end.

Definition index_info (idx : pyobj) (result : record) : outcome record :=
  if is_None idx then Ok result
  else
    dt <- py_str (_safe_attr idx "dtype" (mk_str "?")) ;;
    let result := rset "index_dtype" (RStr dt) result in
    if String.eqb (_type_name idx) "MultiIndex" then
      let result := rset "index_type" (RStr "MultiIndex") result in
      let result :=
        rset "index_nlevels" (reify (_safe_attr idx "nlevels" mk_none)) result in
      let names := _safe_attr idx "names" mk_none in
      if is_None names then Ok result
      else
        ns <- py_iter_all names ;;
        ss <- mapM (fun n => if is_None n then Ok RNone
                             else s <- py_str n ;; Ok (RStr s)) ns ;;
        Ok (rset "index_names" (RList ss) result)
    else Ok result.

Definition _inspect_pandas_dataframe (name : string) (obj : pyobj)
    (max_items : Z) (max_name_length : option Z) : outcome record :=
  let shape := _safe_attr obj "shape" (mk_tuple []) in
  cols <- islice (_safe_attr obj "columns" (mk_list [])) max_items ;;
  let dtypes := _safe_attr obj "dtypes" mk_none in
  col_info <- mapM (column_entry dtypes max_name_length) cols ;;
  total_cols <- total_columns shape cols ;;
  shape_l <- py_iter_all shape ;;
  let result := [("name", RStr name); ("type", RStr "DataFrame");
                 ("shape", RList (map reify shape_l));
                 ("columns", RList col_info)] in
  over <- py_gt total_cols max_items ;;
  let result := rset_if over "columns_truncated" (reify total_cols) result in
  result <- index_info (_safe_attr obj "index" mk_none) result ;;
  Ok (rset_try "memory_bytes"
        (m <- py_method obj "memory_usage" ;; s <- py_method m "sum" ;;
         z <- py_int s ;; Ok (RInt z))
        result).

Definition series_info (type : string) (name : string) (obj : pyobj)
    : outcome record :=
  shape_l <- py_iter_all (_safe_attr obj "shape" (mk_tuple [])) ;;
  dt <- py_str (_safe_attr obj "dtype" (mk_str "?")) ;;
  let result := [("name", RStr name); ("type", RStr type);
                 ("shape", RList (map reify shape_l)); ("dtype", RStr dt)] in
  let series_name := _safe_attr obj "name" mk_none in
  if is_None series_name then Ok result
  else s <- py_str series_name ;; Ok (rset "series_name" (RStr s) result).

Definition _inspect_pandas_series (name : string) (obj : pyobj) : outcome record :=
  result <- series_info "Series" name obj ;;
  Ok (rset_try "memory_bytes"
        (m <- py_method obj "memory_usage" ;; z <- py_int m ;; Ok (RInt z))
        result).

Definition _inspect_polars_dataframe (name : string) (obj : pyobj)
    (max_items : Z) (max_name_length : option Z) : outcome record :=
  let shape := _safe_attr obj "shape" (mk_tuple []) in
  cols <- islice (_safe_attr obj "columns" (mk_list [])) max_items ;;
  let schema := _safe_attr obj "schema" mk_none in
  col_info <- mapM (column_entry schema max_name_length) cols ;;
  total_cols <- total_columns shape cols ;;
  shape_l <- py_iter_all shape ;;
  let result := [("name", RStr name); ("type", RStr "polars.DataFrame");
                 ("shape", RList (map reify shape_l));
                 ("columns", RList col_info)] in
  over <- py_gt total_cols max_items ;;
  let result := rset_if over "columns_truncated" (reify total_cols) result in
  Ok (rset_try "estimated_size_bytes"
        (r <- py_method obj "estimated_size" ;; Ok (reify r))
        result).

(** The column loop of the lazy inspector: a column whose name or dtype
    cannot be rendered is left out. *)
Fixpoint lazy_columns (schema : pyobj) (max_name_length : option Z)
    (names : list pyobj) : list rvalue :=
  match names with
  | [] => []
  | n :: rest =>
      match (nm <- _truncate_name n max_name_length ;;
             v <- py_getitem schema n ;; dt <- py_str v ;;
             Ok (RDict [("name", RStr nm); ("dtype", RStr dt)])) with
      | Ok e => e :: lazy_columns schema max_name_length rest
      | Raise => lazy_columns schema max_name_length rest
      end
  end.

Definition _inspect_polars_lazyframe (name : string) (obj : pyobj)
    (max_items : Z) (max_name_length : option Z) : record :=
  try_except
    (schema <- py_method obj "collect_schema" ;;
     all_names <- py_method schema "names" ;;
     names <- islice all_names max_items ;;
     let col_info := lazy_columns schema max_name_length names in
     all_names' <- py_method schema "names" ;;
     total <- py_len all_names' ;;
     let result := [("name", RStr name); ("type", RStr "polars.LazyFrame");
                    ("columns", RList col_info); ("lazy", RBool true)] in
     Ok (rset_if (max_items <? total) "columns_truncated" (RInt total) result))
    [("name", RStr name); ("type", RStr "polars.LazyFrame"); ("lazy", RBool true)].

Definition _inspect_polars_series (name : string) (obj : pyobj) : outcome record :=
  series_info "polars.Series" name obj.

Definition _inspect_numpy (name : string) (obj : pyobj) : outcome record :=
  shape_l <- py_iter_all (_safe_attr obj "shape" (mk_tuple [])) ;;
  dt <- py_str (_safe_attr obj "dtype" (mk_str "?")) ;;
  Ok [("name", RStr name); ("type", RStr "ndarray");
      ("shape", RList (map reify shape_l)); ("dtype", RStr dt);
      ("ndim", reify (_safe_attr obj "ndim" mk_none));
      ("nbytes", reify (_safe_attr obj "nbytes" mk_none))].

(** [d[k] = v] on a dict keyed by objects *)
Fixpoint map_set (k v : pyobj) (d : list (pyobj * pyobj)) : list (pyobj * pyobj) :=
  match d with
  | [] => [(k, v)]
  | (k', v') :: d' =>
      if prim_eqb (payload k) (payload k') then (k', v) :: d'
      else (k', v') :: map_set k v d'
  end.

(** [dict(pairs)]: every element must unpack into a hashable key and a value. *)
Fixpoint dict_of_pairs (pairs : list pyobj) (acc : list (pyobj * pyobj))
    : outcome (list (pyobj * pyobj)) :=
  match pairs with
  | [] => Ok acc
  | p :: rest =>
      kv <- py_iter_all p ;;
      match kv with
      | [k; v] => if hashable k then dict_of_pairs rest (map_set k v acc) else Raise
      | _ => Raise
      end
  end.

(** [dict(islice(sizes.items(), max_items))] *)
Definition dims_of_sizes (sizes : pyobj) (max_items : Z) : outcome rvalue :=
  items <- py_method sizes "items" ;;
  pairs <- islice items max_items ;;
  d <- dict_of_pairs pairs [] ;;
  Ok (RMap (map (fun kv => (reify (fst kv), reify (snd kv))) d)).

(** The [data_vars] loop shared by the Dataset and DataTree inspectors. *)
Definition data_var_entry (data_vars : pyobj) (max_name_length : option Z)
    (var_name : pyobj) : outcome rvalue :=
  nm <- _truncate_name var_name max_name_length ;;
  let var_info := [("name", RStr nm)] in
  Ok (RDict
    (try_except
       (var_obj <- py_getitem data_vars var_name ;;
        let dtype := _safe_attr var_obj "dtype" mk_none in
        if is_None dtype then Ok var_info
        else s <- py_str dtype ;; Ok (rset "dtype" (RStr s) var_info))
       var_info)).

Definition data_var_list (data_vars : pyobj) (max_items : Z)
    (max_name_length : option Z) : outcome rvalue :=
  names <- islice data_vars max_items ;;
  var_list <- mapM (data_var_entry data_vars max_name_length) names ;;
  Ok (RList var_list).

(** [total is not None and total > max_items] *)
Definition exceeds (total : option Z) (max_items : Z) : bool :=
  match total with
  | Some t => max_items <? t
  | None => false
  end.

Definition _inspect_xarray_dataset (name : string) (obj : pyobj)
    (max_items : Z) (max_name_length : option Z) : outcome record :=
  let result := [("name", RStr name); ("type", RStr "xarray.Dataset")] in
  let sizes := _safe_attr obj "sizes" mk_none in
  result <- (if is_None sizes then Ok result
             else d <- dims_of_sizes sizes max_items ;; Ok (rset "dims" d result)) ;;
  let data_vars := _safe_attr obj "data_vars" mk_none in
  result <- (if is_None data_vars then Ok result
             else
               var_list <- data_var_list data_vars max_items max_name_length ;;
               let result := rset "data_vars" var_list result in
               let total := _safe_len data_vars in
               Ok (rset_if (exceeds total max_items) "data_vars_truncated"
                     (ropt total) result)) ;;
  let coords := _safe_attr obj "coords" mk_none in
  if is_None coords then Ok result
  else
    cs <- islice coords max_items ;;
    names <- mapM (fun c => _truncate_name c max_name_length) cs ;;
    Ok (rset "coords" (RList (map RStr names)) result).

(** [zip(dims, shape)] with the body [str(d): int(s)] run pair by pair. *)
Fixpoint zip_dims (l1 : list pyobj) (f1 : bool) (l2 : list pyobj) (f2 : bool)
    (acc : record) : outcome record :=
  match l1 with
  | [] => if f1 then Raise else Ok acc
  | d :: l1' =>
      match l2 with
      | [] => if f2 then Raise else Ok acc
      | s :: l2' =>
          k <- py_str d ;; v <- py_int s ;;
          zip_dims l1' f1 l2' f2 (rset k (RInt v) acc)
      end
  end.

Definition _inspect_xarray_dataarray (name : string) (obj : pyobj) : outcome record :=
  let result := [("name", RStr name); ("type", RStr "xarray.DataArray")] in
  let dims := _safe_attr obj "dims" mk_none in
  let shape := _safe_attr obj "shape" mk_none in
  result <- (if negb (is_None dims) && negb (is_None shape) then
               match dunder_iter dims, dunder_iter shape with
               | Some (l1, f1), Some (l2, f2) =>
                   d <- zip_dims l1 f1 l2 f2 [] ;; Ok (rset "dims" (RDict d) result)
               | _, _ => Raise
               end
             else Ok result) ;;
  let dtype := _safe_attr obj "dtype" mk_none in
  if is_None dtype then Ok result
  else s <- py_str dtype ;; Ok (rset "dtype" (RStr s) result).

(** [if x:] *)
Definition py_truth (o : pyobj) : outcome bool := dunder_bool o.

Definition _inspect_xarray_datatree (name : string) (obj : pyobj)
    (max_items : Z) (max_name_length : option Z) : outcome record :=
  let result := [("name", RStr name); ("type", RStr "xarray.DataTree")] in
  let children := _safe_attr obj "children" (mk_dict []) in
  nonempty <- py_truth children ;;
  result <- (if nonempty then
               ks <- py_method children "keys" ;;
               cs <- islice ks max_items ;;
               names <- mapM (fun c => _truncate_name c max_name_length) cs ;;
               let result := rset "children" (RList (map RStr names)) result in
               let total := _safe_len children in
               Ok (rset_if (exceeds total max_items) "children_truncated"
                     (ropt total) result)
             else Ok result) ;;
  let ds := _safe_attr obj "dataset" mk_none in
  result <- (if is_None ds then Ok result
             else
               let data_vars := _safe_attr ds "data_vars" mk_none in
               result <- (if is_None data_vars then Ok result
                          else
                            var_list <- data_var_list data_vars max_items
                                          max_name_length ;;
                            Ok (rset "data_vars" var_list result)) ;;
               let sizes := _safe_attr ds "sizes" mk_none in
               if is_None sizes then Ok result
               else d <- dims_of_sizes sizes max_items ;;
                    Ok (rset "dims" d result)) ;;
  Ok (rset_try "total_nodes"
        (s <- py_getattr obj "subtree" ;; l <- py_iter_all s ;;
         Ok (RInt (Z.of_nat (length l))))
        result).

(** One round of the [values_preview] loop of [_inspect_dict]: the key and
    the text stored under it, or nothing when the round is suppressed. *)
Definition preview_entry (obj k : pyobj) : option (string * string) :=
  attempt
    (v <- py_getitem obj k ;;
     let type_name := _type_name v in
     let shape := _safe_attr v "shape" mk_none in
     let by_repr :=
       (let text := type_name ++ ": " ++ _safe_repr v 80 in
        ks <- py_str k ;; Ok (ks, text)) in
     if is_None shape then by_repr
     else match (t <- py_iter_all shape ;; r <- repr_tuple t ;;
                 ks <- py_str k ;; Ok (ks, type_name ++ ": " ++ r)) with
          | Ok e => Ok e
          | Raise => by_repr
          end).

Definition values_preview (obj : pyobj) (keys : list pyobj) : record :=
  fold_left
    (fun acc k => match preview_entry obj k with
                  | Some (ks, text) => rset ks (RStr text) acc
                  | None => acc
                  end)
    (list_slice_to keys (Z.min 5 (Z.of_nat (length keys)))) [].

Definition _inspect_dict (name : string) (obj : pyobj)
    (max_items : Z) (max_name_length : option Z) : outcome record :=
  let n := _safe_len obj in
  ks <- py_method obj "keys" ;;
  keys <- islice ks max_items ;;
  let result := [("name", RStr name); ("type", RStr (_type_name obj));
                 ("length", ropt n)] in
  names <- mapM (fun k => _truncate_name k max_name_length) keys ;;
  let result := rset "keys" (RList (map RStr names)) result in
  let result := rset_if (exceeds n max_items) "keys_truncated" (ropt n) result in
  let preview := values_preview obj keys in
  Ok (match preview with
      | [] => result
      | _ :: _ => rset "values_preview" (RDict preview) result
      end).

Definition known_prefixes : list string :=
  ["pandas"; "polars"; "numpy"; "xarray"; "scipy"; "sklearn"; "torch"].

Definition _inspect_generic (name : string) (obj : pyobj) : outcome record :=
  let result := [("name", RStr name); ("type", RStr (_type_name obj))] in
  let mod_ := _module obj in
  let result :=
    match find (fun p => String.prefix p mod_) known_prefixes with
    | Some p => rset "type" (RStr (p ++ "." ++ _type_name obj)) result
    | None => result
    end in
  let shape := _safe_attr obj "shape" mk_none in
  let result :=
    if is_None shape then result
    else rset_try "shape"
           (l <- py_iter_all shape ;; Ok (RList (map reify l))) result in
  let dtype := _safe_attr obj "dtype" mk_none in
  result <- (if is_None dtype then Ok result
             else s <- py_str dtype ;; Ok (rset "dtype" (RStr s) result)) ;;
  let n := _safe_len obj in
  let result := match n with
                | Some z => rset "length" (RInt z) result
                | None => result
                end in
  Ok (rset "repr" (RStr (_safe_repr obj 200)) result).

(** ** Public API *)

Definition _SCALAR_TYPES : list builtin :=
  [BInt; BFloat; BComplex; BStr; BBytes; BBool; BNoneType].

Definition callable (o : pyobj) : bool :=
  match dunder_call o with
  | Some _ => true
  | None => false
  end.

(** [range(k)] *)
Definition py_range (k : Z) : list Z := map Z.of_nat (seq 0 (Z.to_nat k)).

(** Step 10 of the dispatch: list, tuple, set and frozenset. *)
Definition inspect_collection (name : string) (obj : pyobj) : outcome record :=
  let cls := _type_name obj in
  let n := _safe_len obj in
  let result := [("name", RStr name); ("type", RStr cls); ("length", ropt n)] in
  let small := Ok (rset "repr" (RStr (_safe_repr obj 200)) result) in
  match n with
  | None => small
  | Some n' =>
      if 20 <? n' then
        sample <-
          (if isinstance_any obj [BList; BTuple] then
             mapM (fun i => x <- py_getitem obj (mk_int i) ;; Ok (_type_name x))
                  (py_range (Z.min 5 n'))
           else
             xs <- islice obj 5 ;; Ok (map _type_name xs)) ;;
        Ok (rset "element_types" (RList (map RStr sample)) result)
      else small
  end.

Definition inspect_one (name : string) (obj : pyobj)
    (max_items : Z) (max_name_length : option Z) : outcome record :=
  let mod_ := _module obj in
  let cls := _type_name obj in
  if isinstance_any obj _SCALAR_TYPES then
    Ok [("name", RStr name); ("type", RStr cls);
        ("value", RStr (_safe_repr obj 200))]
  else if String.prefix "pandas" mod_ && String.eqb cls "DataFrame" then
    _inspect_pandas_dataframe name obj max_items max_name_length
  else if String.prefix "pandas" mod_ && String.eqb cls "Series" then
    _inspect_pandas_series name obj
  else if String.prefix "polars" mod_ && String.eqb cls "DataFrame" then
    _inspect_polars_dataframe name obj max_items max_name_length
  else if String.prefix "polars" mod_ && String.eqb cls "LazyFrame" then
    Ok (_inspect_polars_lazyframe name obj max_items max_name_length)
  else if String.prefix "polars" mod_ && String.eqb cls "Series" then
    _inspect_polars_series name obj
  else if String.prefix "numpy" mod_ && String.eqb cls "ndarray" then
    _inspect_numpy name obj
  else if String.prefix "xarray" mod_ && String.eqb cls "Dataset" then
    _inspect_xarray_dataset name obj max_items max_name_length
  else if String.prefix "xarray" mod_ && String.eqb cls "DataArray" then
    _inspect_xarray_dataarray name obj
  else if String.prefix "xarray" mod_ && String.eqb cls "DataTree" then
    _inspect_xarray_datatree name obj max_items max_name_length
  else if isinstance obj BDict then
    _inspect_dict name obj max_items max_name_length
  else if isinstance_any obj [BList; BTuple; BSet; BFrozenset] then
    inspect_collection name obj
  else if callable obj
          && isinstance_any obj [BFunctionType; BBuiltinFunctionType; BType] then
    Ok [("name", RStr name); ("type", RStr cls);
        ("callable_name", reify (_safe_attr obj "__name__" (mk_str "?")))]
  else _inspect_generic name obj.

(** ** Listing *)

Definition _ALWAYS_SKIP : list string :=
  ["In"; "Out"; "get_ipython"; "exit"; "quit"; "open"].

(** [str.lower] on one character.  The characters of the model are the code
    points below 256; there [str.lower] folds A-Z and the Latin-1 capitals
    U+00C0 to U+00DE, the multiplication sign U+00D7 apart, each onto the
    code point 32 above it. *)
Definition lower_char (c : ascii) : ascii :=
  let n := nat_of_ascii c in
  if ((Nat.leb 65 n && Nat.leb n 90)
      || (Nat.leb 192 n && Nat.leb n 222 && negb (Nat.eqb n 215)))%bool
  then ascii_of_nat (n + 32) else c.

Fixpoint lower (s : string) : string :=
  match s with
  | EmptyString => EmptyString
  | String c s' => String (lower_char c) (lower s')
  end.

(** [needle in hay] on strings *)
Fixpoint contains (needle hay : string) : bool :=
  String.prefix needle hay ||
  match hay with
  | EmptyString => false
  | String _ hay' => contains needle hay'
  end.

Inductive listing_entry : Type :=
| ERecord (r : record)
| ELine (s : string).

Section Listing.

(** [_format_summary] renders a record as one line; it prints byte counts
    through floating-point division, and is left as a parameter. *)
Variable _format_summary : record -> outcome string.

Definition summarize_one (name : string) (obj : pyobj)
    (max_items : Z) (max_name_length : option Z) : outcome string :=
  info <- inspect_one name obj max_items max_name_length ;;
  _format_summary info.

(** The filtering loop of [list_user_variables]. *)
Fixpoint collect_entries (items : list (string * pyobj))
    (filter_name : option string) (include_private : bool)
    : list (string * pyobj) :=
  match items with
  | [] => []
  | (vname, obj) :: rest =>
      let tail := collect_entries rest filter_name include_private in
      if String.prefix "_" vname && negb include_private then tail
      else if existsb (String.eqb vname) _ALWAYS_SKIP then tail
      else if isinstance obj BModuleType then tail
      else if match filter_name with
              | Some f => negb (String.eqb f "")
                          && negb (contains (lower f) (lower vname))
              | None => false
              end then tail
      else (vname, obj) :: tail
  end.

Definition list_user_variables (ns : list (string * pyobj)) (detail : string)
    (max_variables max_items : Z) (max_name_length : option Z)
    (filter_name : option string) (include_private : bool)
    : outcome (list listing_entry) :=
  let entries := collect_entries ns filter_name include_private in
  let entries := list_slice_to entries max_variables in
  if String.eqb detail "schema" then
    mapM (fun e => s <- summarize_one (fst e) (snd e) max_items max_name_length ;;
                   Ok (ELine s)) entries
  else if String.eqb detail "full" then
    mapM (fun e => r <- inspect_one (fst e) (snd e) max_items max_name_length ;;
                   Ok (ERecord r)) entries
  else
    Ok (map (fun e => ERecord [("name", RStr (fst e));
                               ("type", RStr (_type_name (snd e)));
                               ("repr", RStr (_safe_repr (snd e) 100))])
            entries).

End Listing.

(** ** One-line summaries *)

(** [_format_summary] reads the values of a record with the ordinary
    operations of Python: truth, [len], iteration, subscription, ordering
    against an integer, [str] and [repr].  They are given here for the
    values a record holds; a character is a code point below 256, and an
    object stored by reference answers through its own operations (its
    [str] also stands for [format]). *)

Definition backslash : ascii := ascii_of_nat 92.
Definition single_quote : ascii := ascii_of_nat 39.
Definition double_quote : ascii := ascii_of_nat 34.

Definition hex_digit (n : nat) : ascii :=
  match get n "0123456789abcdef" with
  | Some c => c
  | None => "0"%char
  end.

Definition has_char (c : ascii) (s : string) : bool :=
  existsb (Ascii.eqb c) (list_ascii_of_string s).

(** One character of the [repr] of a string quoted with [quote]. *)
Definition escape_char (quote c : ascii) : string :=
  let n := nat_of_ascii c in
  if Ascii.eqb c quote || Ascii.eqb c backslash then String backslash (String c "")
  else if Nat.eqb n 9 then String backslash "t"
  else if Nat.eqb n 10 then String backslash "n"
  else if Nat.eqb n 13 then String backslash "r"
  else if Nat.ltb n 32 || Nat.eqb n 127 || (Nat.leb 128 n && Nat.leb n 160)
          || Nat.eqb n 173
       then String backslash
              (String "x" (String (hex_digit (n / 16)) (String (hex_digit (n mod 16)) "")))
  else String c "".

(** [repr(s)] for a string: single quotes, unless the string has a single
    quote and no double quote. *)
Definition repr_str (s : string) : string :=
  let quote := if has_char single_quote s && negb (has_char double_quote s)
               then double_quote else single_quote in
  String quote
    (String.concat "" (map (escape_char quote) (list_ascii_of_string s))
     ++ String quote "").

Fixpoint rv_repr (v : rvalue) : outcome string :=
  match v with
  | RNone => Ok "None"
  | RBool b => Ok (if b then "True" else "False")
  | RInt z => Ok (dec z)
  | RStr s => Ok (repr_str s)
  | RList l =>
      rs <- (fix each (l : list rvalue) : outcome (list string) :=
               match l with
               | [] => Ok []
               | x :: l' => r <- rv_repr x ;; rs <- each l' ;; Ok (r :: rs)
               end) l ;;
      Ok ("[" ++ join ", " rs ++ "]")
  | RDict d =>
      rs <- (fix each (d : list (string * rvalue)) : outcome (list string) :=
               match d with
               | [] => Ok []
               | (k, x) :: d' =>
                   r <- rv_repr x ;; rs <- each d' ;;
                   Ok ((repr_str k ++ ": " ++ r) :: rs)
               end) d ;;
      Ok ("{" ++ join ", " rs ++ "}")
  | RMap d =>
      rs <- (fix each (d : list (rvalue * rvalue)) : outcome (list string) :=
               match d with
               | [] => Ok []
               | (k, x) :: d' =>
                   rk <- rv_repr k ;; r <- rv_repr x ;; rs <- each d' ;;
                   Ok ((rk ++ ": " ++ r) :: rs)
               end) d ;;
      Ok ("{" ++ join ", " rs ++ "}")
  | RObj o => py_repr o
  end.

(** [str(v)], which is also what [f"{v}"] prints. *)
Definition rv_str (v : rvalue) : outcome string :=
  match v with
  | RStr s => Ok s
  | RObj o => py_str o
  | _ => rv_repr v
  end.

(** [for x in v] *)
Definition rv_iter (v : rvalue) : outcome (list rvalue) :=
  match v with
  | RList l => Ok l
  | RStr s => Ok (map (fun c => RStr (String c "")) (list_ascii_of_string s))
  | RDict d => Ok (map (fun kv => RStr (fst kv)) d)
  | RMap d => Ok (map fst d)
  | RObj o => l <- py_iter_all o ;; Ok (map reify l)
  | _ => Raise
  end.

(** [f"{tuple(v)}"] *)
Definition rv_tuple_text (v : rvalue) : outcome string :=
  items <- rv_iter v ;;
  rs <- mapM rv_repr items ;;
  Ok (match rs with
      | [r] => "(" ++ r ++ ",)"
      | _ => "(" ++ join ", " rs ++ ")"
      end).

(** [if v:] *)
Definition rv_truth (v : rvalue) : outcome bool :=
  match v with
  | RNone => Ok false
  | RBool b => Ok b
  | RInt z => Ok (negb (z =? 0))
  | RStr s => Ok (negb (String.eqb s ""))
  | RList l => Ok (negb (Nat.eqb (length l) 0))
  | RDict d => Ok (negb (Nat.eqb (length d) 0))
  | RMap d => Ok (negb (Nat.eqb (length d) 0))
  | RObj o => py_truth o
  end.

(** [len(v)] *)
Definition rv_len (v : rvalue) : outcome Z :=
  match v with
  | RStr s => Ok (str_len s)
  | RList l => Ok (Z.of_nat (length l))
  | RDict d => Ok (Z.of_nat (length d))
  | RMap d => Ok (Z.of_nat (length d))
  | RObj o => py_len o
  | _ => Raise
  end.

(** The integer a value counts as in arithmetic and ordering, if any. *)
Definition rv_int (v : rvalue) : outcome Z :=
  match v with
  | RInt z => Ok z
  | RBool b => Ok (if b then 1 else 0)
  | RObj o => py_int o
  | _ => Raise
  end.

(** [v > n] *)
Definition rv_gt (v : rvalue) (n : Z) : outcome bool :=
  z <- rv_int v ;; Ok (n <? z).

(** The text of a value that is a string. *)
Definition rv_text (v : rvalue) : option string :=
  match v with
  | RStr s => Some s
  | RObj o => match payload o with
              | PStr s => if isinstance o BStr then Some s else None
              | _ => None
              end
  | _ => None
  end.

(** [v == s] for a string [s] *)
Definition rv_eq_str (v : rvalue) (s : string) : bool :=
  match rv_text v with
  | Some s' => String.eqb s' s
  | None => false
  end.

(** [s in v] for a string [s] *)
Definition rv_contains (s : string) (v : rvalue) : outcome bool :=
  match rv_text v with
  | Some s' => Ok (contains s s')
  | None => items <- rv_iter v ;; Ok (existsb (fun x => rv_eq_str x s) items)
  end.

(** [v[k]] for a string [k] *)
Definition rv_item (v : rvalue) (k : string) : outcome rvalue :=
  match v with
  | RDict d => match assoc k d with
               | Some x => Ok x
               | None => Raise
               end
  | RMap d => match find (fun kv => rv_eq_str (fst kv) k) d with
              | Some kv => Ok (snd kv)
              | None => Raise
              end
  | RObj o => x <- py_getitem o (mk_str k) ;; Ok (reify x)
  | _ => Raise
  end.

(** [v[i]] for an index [i >= 0] *)
Definition rv_index (v : rvalue) (i : nat) : outcome rvalue :=
  match v with
  | RList l => match nth_error l i with
               | Some x => Ok x
               | None => Raise
               end
  | RStr s => match get i s with
              | Some c => Ok (RStr (String c ""))
              | None => Raise
              end
  | RMap d => match find (fun kv => match rv_int (fst kv) with
                                    | Ok z => z =? Z.of_nat i
                                    | Raise => false
                                    end) d with
              | Some kv => Ok (snd kv)
              | None => Raise
              end
  | RObj o => x <- py_getitem o (mk_int (Z.of_nat i)) ;; Ok (reify x)
  | _ => Raise
  end.

(** [sep.join(v)]: every element must be a string. *)
Definition rv_join (sep : string) (v : rvalue) : outcome string :=
  items <- rv_iter v ;;
  texts <- mapM (fun x => match rv_text x with
                          | Some s => Ok s
                          | None => Raise
                          end) items ;;
  Ok (join sep texts).

(** [v.items()], listed *)
Definition rv_items (v : rvalue) : outcome (list (rvalue * rvalue)) :=
  match v with
  | RDict d => Ok (map (fun kv => (RStr (fst kv), snd kv)) d)
  | RMap d => Ok d
  | RObj o =>
      its <- py_method o "items" ;;
      l <- py_iter_all its ;;
      mapM (fun p => kv <- py_iter_all p ;;
                     match kv with
                     | [k; x] => Ok (reify k, reify x)
                     | _ => Raise
                     end) l
  | _ => Raise
  end.

(** [isinstance(v, dict)] *)
Definition rv_is_dict (v : rvalue) : bool :=
  match v with
  | RDict _ | RMap _ => true
  | RObj o => isinstance o BDict
  | _ => false
  end.

(** [f"{v[:k]}"] for a string or a list *)
Definition rv_slice_text (v : rvalue) (k : Z) : outcome string :=
  match v with
  | RStr s => Ok (str_slice_to s k)
  | RList l => rv_str (RList (list_slice_to l k))
  | _ => Raise
  end.

(** The integer nearest to [num / den], ties to even ([den > 0]). *)
Definition round_half_even (num den : Z) : Z :=
  let q := num / den in
  let r := num mod den in
  if 2 * r <? den then q
  else if den <? 2 * r then q + 1
  else if Z.even q then q else q + 1.

(** The float nearest to the positive integer [z], as an integer:
    53 significant bits, ties to even. *)
Definition nearest_float (z : Z) : Z :=
  let b := Z.log2 z in
  if b <=? 52 then z
  else round_half_even z (2 ^ (b - 52)) * 2 ^ (b - 52).

(** [f"{z / 2**k:.{p}f}"] for [z >= 2**k]: the quotient is a float, the
    nearest one to the exact quotient, printed to [p] decimals, ties to
    even; a quotient beyond the floats raises [OverflowError]. *)
Definition format_quotient (z k p : Z) : outcome string :=
  let f := nearest_float z in
  if 2 ^ (1024 + k) <=? f then Raise
  else
    let r := round_half_even (f * 10 ^ p) (2 ^ k) in
    let frac := dec (r mod 10 ^ p) in
    let pad := string_of_list_ascii
                 (repeat "0"%char (Z.to_nat p - String.length frac)) in
    Ok (dec (r / 10 ^ p) ++ "." ++ pad ++ frac).

Definition _format_mem (nbytes : rvalue) : outcome string :=
  z <- rv_int nbytes ;;
  if 1048576 <=? z then
    t <- format_quotient z 20 2 ;; Ok (" " ++ t ++ "MB")
  else if 1024 <=? z then
    t <- format_quotient z 10 1 ;; Ok (" " ++ t ++ "KB")
  else
    t <- rv_str nbytes ;; Ok (" " ++ t ++ "B").

(** [info[k]] and [info.get(k, default)] *)
Definition rsub (k : string) (info : record) : outcome rvalue :=
  match rget k info with
  | Some v => Ok v
  | None => Raise
  end.

Definition rget_or (k : string) (default : rvalue) (info : record) : rvalue :=
  match rget k info with
  | Some v => v
  | None => default
  end.

(** The multiplication sign, U+00D7. *)
Definition times_sign : string := String (ascii_of_nat 215) "".

(** [[f"{k}:{v}" for k, v in dims.items()]] *)
Definition dim_parts (dims : rvalue) : outcome (list string) :=
  its <- rv_items dims ;;
  mapM (fun kv => k <- rv_str (fst kv) ;; v <- rv_str (snd kv) ;;
                  Ok (k ++ ":" ++ v)) its.

Definition _format_summary (info : record) : outcome string :=
  name <- rsub "name" info ;;
  typ <- rsub "type" info ;;
  if has_key "columns" info then
    cols <- rsub "columns" info ;;
    items <- rv_iter cols ;;
    col_parts <- mapM (fun c => n <- rv_item c "name" ;; ns <- rv_str n ;;
                                d <- rv_item c "dtype" ;; ds <- rv_str d ;;
                                Ok (ns ++ ":" ++ ds)) items ;;
    let trunc := rget_or "columns_truncated" RNone info in
    t <- rv_truth trunc ;;
    over <- (if t then n <- rv_len cols ;; rv_gt trunc n else Ok false) ;;
    let suffix := if over then ", ..." else "" in
    let shape := rget_or "shape" RNone info in
    st <- rv_truth shape ;;
    two <- (if st then n <- rv_len shape ;; Ok (2 <=? n) else Ok false) ;;
    shape_str <- (if two then
                    a <- rv_index shape 0 ;; sa <- rv_str a ;;
                    b <- rv_index shape 1 ;; sb <- rv_str b ;;
                    Ok (" (" ++ sa ++ times_sign ++ sb ++ ")")
                  else Ok "") ;;
    ns <- rv_str name ;; ts <- rv_str typ ;;
    Ok (ns ++ ": " ++ ts ++ shape_str ++ " [" ++ join ", " col_parts
        ++ suffix ++ "]")
  else if rv_eq_str typ "ndarray" then
    let dtype := rget_or "dtype" (RStr "?") info in
    shape <- rv_tuple_text (rget_or "shape" (RList []) info) ;;
    let nbytes := rget_or "nbytes" RNone info in
    nb <- rv_truth nbytes ;;
    mem <- (if nb then _format_mem nbytes else Ok "") ;;
    ns <- rv_str name ;; ds <- rv_str dtype ;;
    Ok (ns ++ ": ndarray " ++ ds ++ " " ++ shape ++ mem)
  else if has_key "children" info then
    let total_nodes := rget_or "total_nodes" (RStr "?") info in
    children <- rsub "children" info ;;
    n_children <- rv_len children ;;
    ns <- rv_str name ;; ts <- rv_str typ ;; tn <- rv_str total_nodes ;;
    Ok (ns ++ ": " ++ ts ++ " (" ++ tn ++ " nodes, " ++ dec n_children
        ++ " children)")
  else if has_key "dims" info && has_key "data_vars" info then
    dims <- rsub "dims" info ;;
    data_vars <- rsub "data_vars" info ;;
    parts <- dim_parts dims ;;
    dv <- rv_truth data_vars ;;
    named_vars <- (if dv then first <- rv_index data_vars 0 ;;
                              Ok (rv_is_dict first)
                   else Ok false) ;;
    var_names <- (if named_vars : bool then
                    vs <- rv_iter data_vars ;;
                    ns <- mapM (fun v => rv_item v "name") vs ;;
                    Ok (RList ns)
                  else Ok data_vars) ;;
    vars <- rv_join ", " var_names ;;
    ns <- rv_str name ;; ts <- rv_str typ ;;
    Ok (ns ++ ": " ++ ts ++ " dims=(" ++ join ", " parts ++ ") vars=["
        ++ vars ++ "]")
  else if has_key "dims" info && has_key "dtype" info
          && negb (has_key "data_vars" info) then
    dims <- rsub "dims" info ;;
    parts <- dim_parts dims ;;
    dtype <- rsub "dtype" info ;;
    ns <- rv_str name ;; ts <- rv_str typ ;; ds <- rv_str dtype ;;
    Ok (ns ++ ": " ++ ts ++ " " ++ ds ++ " (" ++ join ", " parts ++ ")")
  else
    series <- rv_contains "Series" typ ;;
    if series : bool then
      shape <- rv_tuple_text (rget_or "shape" (RList []) info) ;;
      let dtype := rget_or "dtype" (RStr "?") info in
      ns <- rv_str name ;; ts <- rv_str typ ;; ds <- rv_str dtype ;;
      Ok (ns ++ ": " ++ ts ++ " " ++ shape ++ " " ++ ds)
    else if has_key "keys" info then
      let n := rget_or "length" (RStr "?") info in
      keys <- rsub "keys" info ;;
      let trunc := rget_or "keys_truncated" RNone info in
      t <- rv_truth trunc ;;
      let suffix := if t then ", ..." else "" in
      joined <- rv_join ", " keys ;;
      ns <- rv_str name ;; ts <- rv_str typ ;; n_text <- rv_str n ;;
      Ok (ns ++ ": " ++ ts ++ " (" ++ n_text ++ " keys) [" ++ joined
          ++ suffix ++ "]")
    else if has_key "value" info then
      value <- rsub "value" info ;;
      v <- rv_slice_text value 80 ;;
      ns <- rv_str name ;; ts <- rv_str typ ;;
      Ok (ns ++ ": " ++ ts ++ " = " ++ v)
    else
      let shape := rget_or "shape" RNone info in
      let length := rget_or "length" RNone info in
      st <- rv_truth shape ;;
      extra <- (if st then t <- rv_tuple_text shape ;; Ok (" shape=" ++ t)
                else match length with
                     | RNone => Ok ""
                     | _ => l <- rv_str length ;; Ok (" len=" ++ l)
                     end) ;;
      ns <- rv_str name ;; ts <- rv_str typ ;;
      Ok (ns ++ ": " ++ ts ++ extra).

(** * Vocabulary of the statements *)

(** The same object with another [__repr__]. *)
Definition with_repr (o : pyobj) (r : outcome (option string)) : pyobj :=
  {| cls_name := cls_name o; cls_module := cls_module o; mro := mro o;
     payload := payload o; hashable := hashable o; attrs := attrs o;
     dunder_len := dunder_len o; dunder_repr := r;
     dunder_str := dunder_str o; dunder_iter := dunder_iter o;
     dunder_getitem := dunder_getitem o; dunder_call := dunder_call o;
     dunder_bool := dunder_bool o |}.

Definition is_bulk (o : pyobj) : bool :=
  isinstance_any o [BDict; BList; BTuple; BSet; BFrozenset].

(** [obj] is a built-in container reporting more than 20 elements. *)
Definition large_container (o : pyobj) : Prop :=
  is_bulk o = true /\ exists n, py_len o = Ok n /\ 20 < n.

(** Every key of the record is one of [allowed]. *)
Definition keys_within (allowed : list string) (d : record) : bool :=
  forallb (fun kv => existsb (String.eqb (fst kv)) allowed) d.

(** The library steps of [inspect_one] (steps 2 to 8). *)
Definition library_family (o : pyobj) : bool :=
  let m := cls_module o in
  let c := cls_name o in
  (String.prefix "pandas" m && (String.eqb c "DataFrame" || String.eqb c "Series"))
  || (String.prefix "polars" m
      && (String.eqb c "DataFrame" || String.eqb c "LazyFrame" || String.eqb c "Series"))
  || (String.prefix "numpy" m && String.eqb c "ndarray")
  || (String.prefix "xarray" m
      && (String.eqb c "Dataset" || String.eqb c "DataArray" || String.eqb c "DataTree")).

(** The steps of [inspect_one] that come before the dict step. *)
Definition matched_before_dict (o : pyobj) : bool :=
  isinstance_any o _SCALAR_TYPES || library_family o.

Definition is_lazyframe (o : pyobj) : Prop :=
  isinstance_any o _SCALAR_TYPES = false /\
  String.prefix "polars" (cls_module o) = true /\
  cls_name o = "LazyFrame".

Definition is_eager_dataframe (o : pyobj) : Prop :=
  cls_name o = "DataFrame" /\
  (String.prefix "pandas" (cls_module o) = true \/
   String.prefix "polars" (cls_module o) = true).

Definition eager_keys : list string :=
  ["name"; "type"; "value"; "shape"; "columns"; "columns_truncated";
   "index_dtype"; "index_type"; "index_nlevels"; "index_names";
   "memory_bytes"; "estimated_size_bytes"].

(** [obj] gives access to the elements [items] the way the built-in
    containers do: by index for a list or tuple, by iteration for a set or
    frozenset. *)
Definition holds_elements (o : pyobj) (items : list pyobj) : Prop :=
  if isinstance_any o [BList; BTuple] then
    forall (i : nat) (x : pyobj),
      nth_error items i = Some x -> py_getitem o (mk_int (Z.of_nat i)) = Ok x
  else dunder_iter o = Some (items, false).

(** [obj] reaches step 10 of the dispatch. *)
Definition is_collection (o : pyobj) : Prop :=
  matched_before_dict o = false /\
  isinstance o BDict = false /\
  isinstance_any o [BList; BTuple; BSet; BFrozenset] = true.

(** The keys the scalar, library and callable steps can write. *)
Definition library_keys : list string :=
  eager_keys ++
  ["series_name"; "dtype"; "lazy"; "ndim"; "nbytes"; "dims"; "data_vars";
   "data_vars_truncated"; "coords"; "children"; "children_truncated";
   "total_nodes"; "callable_name"].

(** The test a binding passes to be listed. *)
Definition keeps (filter_name : option string) (include_private : bool)
    (e : string * pyobj) : bool :=
  negb (String.prefix "_" (fst e) && negb include_private)
  && negb (existsb (String.eqb (fst e)) _ALWAYS_SKIP)
  && negb (isinstance (snd e) BModuleType)
  && negb match filter_name with
          | Some f => negb (String.eqb f "")
                      && negb (contains (lower f) (lower (fst e)))
          | None => false
          end.

(** What C9 asks of a listed binding. *)
Definition admissible (filter_name : option string) (include_private : bool)
    (e : string * pyobj) : Prop :=
  (String.prefix "_" (fst e) = true -> include_private = true) /\
  ~ In (fst e) _ALWAYS_SKIP /\
  isinstance (snd e) BModuleType = false /\
  (forall f, filter_name = Some f -> contains (lower f) (lower (fst e)) = true).

(** The entry a binding is listed as, in each mode. *)
Definition renders (fs : record -> outcome string) (detail : string)
    (mi : Z) (mnl : option Z) (e : string * pyobj) (out : listing_entry) : Prop :=
  if String.eqb detail "schema" then
    exists s, summarize_one fs (fst e) (snd e) mi mnl = Ok s /\ out = ELine s
  else if String.eqb detail "full" then
    exists r, inspect_one (fst e) (snd e) mi mnl = Ok r /\ out = ERecord r
  else
    out = ERecord [("name", RStr (fst e)); ("type", RStr (cls_name (snd e)));
                   ("repr", RStr (_safe_repr (snd e) 100))].

(** The record says which variable it describes and what it is. *)
Definition named (name : string) (rec : record) : Prop :=
  rget "name" rec = Some (RStr name) /\ exists t, rget "type" rec = Some (RStr t).

(** The fields whose length [max_items] is meant to bound. *)
Definition bounded_keys : list string :=
  ["columns"; "keys"; "children"; "data_vars"; "coords"; "dims"].

(** The number of entries of a list or dict. *)
Definition entries (v : rvalue) : option Z :=
  match v with
  | RList l => Some (Z.of_nat (length l))
  | RDict d => Some (Z.of_nat (length d))
  | RMap d => Some (Z.of_nat (length d))
  | _ => None
  end.

(** What is stored under a bounded key is a list or dict of at most
    [max_items] entries. *)
Definition value_capped (max_items : Z) (k : string) (v : rvalue) : Prop :=
  existsb (String.eqb k) bounded_keys = true ->
  exists n, entries v = Some n /\ n <= max_items.

Definition capped (max_items : Z) (rec : record) : Prop :=
  forall k v, rget k rec = Some v -> value_capped max_items k v.

(** [obj] falls through to the last step of the dispatch. *)
Definition reaches_generic (o : pyobj) : Prop :=
  matched_before_dict o = false /\
  isinstance o BDict = false /\
  isinstance_any o [BList; BTuple; BSet; BFrozenset] = false /\
  callable o && isinstance_any o [BFunctionType; BBuiltinFunctionType; BType]
  = false.

(** What [_truncate_name] makes of a text. *)
Definition truncate_text (s : string) (max_len : option Z) : string :=
  match max_len with
  | None => s
  | Some m => if str_len s <=? m then s else str_slice_to s (m - 3) ++ "..."
  end.

(** The dict with the given string keys, in insertion order. *)
Definition str_keyed_dict (items : list (string * pyobj)) : pyobj :=
  mk_dict (map (fun kv => (mk_str (fst kv), snd kv)) items).

(** The keys the dict, collection and generic steps write besides
    [values_preview]. *)
Definition plain_keys : list string :=
  library_keys ++
  ["length"; "keys"; "keys_truncated"; "element_types"; "repr"].

(** Rendering column [n] of a lazy schema fails. *)
Definition column_fails (schema : pyobj) (n : pyobj) : Prop :=
  py_str n = Raise \/ py_getitem schema n = Raise \/
  exists v, py_getitem schema n = Ok v /\ py_str v = Raise.

Definition is_dataarray (o : pyobj) : Prop :=
  isinstance_any o _SCALAR_TYPES = false /\
  String.prefix "xarray" (cls_module o) = true /\
  cls_name o = "DataArray".

(** The fields [_format_summary] reads. *)
Definition summary_read_keys : list string :=
  ["name"; "type"; "columns"; "columns_truncated"; "shape"; "dtype";
   "nbytes"; "children"; "total_nodes"; "dims"; "data_vars"; "keys";
   "length"; "keys_truncated"; "value"].

Definition is_ndarray (o : pyobj) : Prop :=
  isinstance_any o _SCALAR_TYPES = false /\
  String.prefix "numpy" (cls_module o) = true /\
  cls_name o = "ndarray".

(** How Python prints a tuple of ints. *)
Definition tuple_text (shape : list Z) : string :=
  match shape with
  | [n] => "(" ++ dec n ++ ",)"
  | _ => "(" ++ join ", " (map dec shape) ++ ")"
  end.

(** What the lazy inspector learns of the schema before it builds the
    record: the schema, its first [max_items] column names and the number
    of its columns. *)
Definition schema_listing (o : pyobj) (max_items : Z)
    : outcome (pyobj * list pyobj * Z) :=
  schema <- py_method o "collect_schema" ;;
  all_names <- py_method schema "names" ;;
  names <- islice all_names max_items ;;
  total <- py_len all_names ;;
  Ok (schema, names, total).

(** The [name:dtype] texts of the columns a lazy record lists: a column
    whose name or dtype cannot be rendered is left out. *)
Fixpoint column_texts (schema : pyobj) (max_name_length : option Z)
    (names : list pyobj) : list string :=
  match names with
  | [] => []
  | n :: rest =>
      match (nm <- _truncate_name n max_name_length ;;
             v <- py_getitem schema n ;; dt <- py_str v ;;
             Ok (nm ++ ":" ++ dt)) with
      | Ok t => t :: column_texts schema max_name_length rest
      | Raise => column_texts schema max_name_length rest
      end
  end.

(** * Sample objects *)

(** [list(range(100))] *)
Definition range_100 : pyobj := mk_list (map mk_int (py_range 100)).



(** A LazyFrame whose [collect_schema()] raises. *)
Definition failing_lazyframe : pyobj :=
  {| cls_name := "LazyFrame"; cls_module := "polars.lazyframe.frame";
     mro := []; payload := PId 2; hashable := true;
     attrs := [("collect_schema", Ok (mk_method Raise))]; dunder_len := None;
     dunder_repr := Ok (Some "<LazyFrame>");
     dunder_str := Ok (Some "<LazyFrame>"); dunder_iter := None;
     dunder_getitem := []; dunder_call := None; dunder_bool := Ok true |}.

(** A dtype object, known by the text [str] gives for it. *)
Definition mk_dtype (id : nat) (text : string) : pyobj :=
  {| cls_name := "DataType"; cls_module := "polars.datatypes"; mro := [];
     payload := PId id; hashable := true; attrs := []; dunder_len := None;
     dunder_repr := Ok (Some text); dunder_str := Ok (Some text);
     dunder_iter := None; dunder_getitem := []; dunder_call := None;
     dunder_bool := Ok true |}.

(** A LazyFrame over the columns [id: Int64] and [score: Float64]. *)
Definition two_column_lazyframe : pyobj :=
  let names := mk_list [mk_str "id"; mk_str "score"] in
  let schema :=
    {| cls_name := "Schema"; cls_module := "polars.schema";
       mro := [BDict; BMapping]; payload := PId 3; hashable := false;
       attrs := [("names", Ok (mk_method (Ok names)))];
       dunder_len := Some (Ok 2); dunder_repr := Ok (Some "Schema(...)");
       dunder_str := Ok (Some "Schema(...)");
       dunder_iter := Some ([mk_str "id"; mk_str "score"], false);
       dunder_getitem := [(PStr "id", Ok (mk_dtype 4 "Int64"));
           (PStr "score", Ok (mk_dtype 5 "Float64"))];
       dunder_call := None; dunder_bool := Ok true |} in
  {| cls_name := "LazyFrame"; cls_module := "polars.lazyframe.frame";
     mro := []; payload := PId 6; hashable := true;
     attrs := [("collect_schema", Ok (mk_method (Ok schema)))];
     dunder_len := None; dunder_repr := Ok (Some "<LazyFrame>");
     dunder_str := Ok (Some "<LazyFrame>"); dunder_iter := None;
     dunder_getitem := []; dunder_call := None; dunder_bool := Ok true |}.

(** The dict of the spec scenario: [{"a": 1, "b": "hi", "c": [1, 2, 3]}]. *)
Definition abc_dict : pyobj :=
  mk_dict [(mk_str "a", mk_int 1); (mk_str "b", mk_str "hi");
           (mk_str "c", mk_list [mk_int 1; mk_int 2; mk_int 3])].

(** A read-only mapping: [types.MappingProxyType({"a": 1})].  It is a
    [collections.abc.Mapping] and not a [dict]. *)
Definition proxy_mapping : pyobj :=
  {| cls_name := "mappingproxy"; cls_module := "builtins"; mro := [BMapping];
     payload := PId 7; hashable := false;
     attrs := [("keys", Ok (mk_method (Ok (mk_view "dict_keys" [mk_str "a"]))));
         ("items", Ok (mk_method (Ok (mk_view "dict_items"
         [mk_tuple [mk_str "a"; mk_int 1]]))))];
     dunder_len := Some (Ok 1);
     dunder_repr := Ok (Some "mappingproxy({'a': 1})");
     dunder_str := Ok (Some "{'a': 1}");
     dunder_iter := Some ([mk_str "a"], false);
     dunder_getitem := [(PStr "a", Ok (mk_int 1))]; dunder_call := None;
     dunder_bool := Ok true |}.

(** [class NegativeLen: def __len__(self): return -1] *)
Definition negative_len_obj : pyobj :=
  {| cls_name := "NegativeLen"; cls_module := "__main__"; mro := [];
     payload := PId 8; hashable := true; attrs := [];
     dunder_len := Some (Ok (-1));
     dunder_repr := Ok (Some "<NegativeLen object>");
     dunder_str := Ok (Some "<NegativeLen object>"); dunder_iter := None;
     dunder_getitem := []; dunder_call := None; dunder_bool := Raise |}.

(** [class L(list): def __len__(self): return -1], empty. *)
Definition negative_len_list : pyobj :=
  {| cls_name := "L"; cls_module := "__main__"; mro := [BList];
     payload := PId 9; hashable := false; attrs := [];
     dunder_len := Some (Ok (-1)); dunder_repr := Ok (Some "[]");
     dunder_str := Ok (Some "[]"); dunder_iter := Some ([], false);
     dunder_getitem := []; dunder_call := None; dunder_bool := Raise |}.

(** A module object, such as [numpy] bound to [np]. *)
Definition mk_module (name : string) : pyobj :=
  {| cls_name := "module"; cls_module := "builtins"; mro := [BModuleType];
     payload := PId 11; hashable := true;
     attrs := [("__name__", Ok (mk_str name))]; dunder_len := None;
     dunder_repr := Ok (Some ("<module '" ++ name ++ "'>"));
     dunder_str := Ok (Some ("<module '" ++ name ++ "'>"));
     dunder_iter := None; dunder_getitem := []; dunder_call := None;
     dunder_bool := Ok true |}.

Definition sample_ns : list (string * pyobj) :=
  [("x", mk_int 1); ("_hidden", mk_str "secret"); ("np", mk_module "numpy");
   ("In", mk_list []); ("Data", mk_list [mk_int 1; mk_int 2]);
   ("y", mk_int 2); ("metadata", mk_str "m")].

(** An instance of [class K] whose [__str__] raises. *)
Definition unprintable_key : pyobj :=
  {| cls_name := "K"; cls_module := "__main__"; mro := []; payload := PId 10;
     hashable := true; attrs := []; dunder_len := None;
     dunder_repr := Ok (Some "<K object>"); dunder_str := Raise;
     dunder_iter := None; dunder_getitem := []; dunder_call := None;
     dunder_bool := Ok true |}.

(** The plain dict [{K(): 1}]. *)
Definition bad_key_dict : pyobj := mk_dict [(unprintable_key, mk_int 1)].

(** An instance of a dict subclass [D] whose [keys()] raises. *)
Definition broken_keys_dict : pyobj :=
  {| cls_name := "D"; cls_module := "__main__"; mro := [BDict; BMapping];
     payload := PId 12; hashable := false;
     attrs := [("keys", Ok (mk_method Raise))]; dunder_len := Some (Ok 0);
     dunder_repr := Ok (Some "{}"); dunder_str := Ok (Some "{}");
     dunder_iter := Some ([], false); dunder_getitem := [];
     dunder_call := None; dunder_bool := Ok false |}.

(** An xarray variable of dtype [float64]. *)
Definition mk_variable (id : nat) : pyobj :=
  {| cls_name := "DataArray"; cls_module := "xarray.core.dataarray"; mro := [];
     payload := PId id; hashable := false;
     attrs := [("dtype", Ok (mk_dtype 20 "float64"))];
     dunder_len := Some (Ok 3);
     dunder_repr := Ok (Some "<xarray.DataArray>");
     dunder_str := Ok (Some "<xarray.DataArray>"); dunder_iter := None;
     dunder_getitem := []; dunder_call := None; dunder_bool := Raise |}.

(** The [data_vars] mapping of a dataset with variables [a], [b], [c]. *)
Definition three_data_vars : pyobj :=
  {| cls_name := "DataVariables"; cls_module := "xarray.core.dataset";
     mro := [BMapping]; payload := PId 21; hashable := false; attrs := [];
     dunder_len := Some (Ok 3);
     dunder_repr := Ok (Some "Data variables: a, b, c");
     dunder_str := Ok (Some "Data variables: a, b, c");
     dunder_iter := Some ([mk_str "a"; mk_str "b"; mk_str "c"], false);
     dunder_getitem := [(PStr "a", Ok (mk_variable 22)); (PStr "b", Ok (mk_variable 23));
         (PStr "c", Ok (mk_variable 24))];
     dunder_call := None; dunder_bool := Ok true |}.

(** The [sizes] mapping [{"x": 3}] and an empty [coords] mapping. *)
Definition sizes_x3 : pyobj :=
  {| cls_name := "Frozen"; cls_module := "xarray.core.utils";
     mro := [BMapping]; payload := PId 28; hashable := false;
     attrs := [("items", Ok (mk_method (Ok (mk_view "dict_items"
         [mk_tuple [mk_str "x"; mk_int 3]]))))];
     dunder_len := Some (Ok 1);
     dunder_repr := Ok (Some "Frozen({'x': 3})");
     dunder_str := Ok (Some "Frozen({'x': 3})");
     dunder_iter := Some ([mk_str "x"], false);
     dunder_getitem := [(PStr "x", Ok (mk_int 3))]; dunder_call := None;
     dunder_bool := Ok true |}.

Definition no_coords : pyobj :=
  {| cls_name := "DatasetCoordinates"; cls_module := "xarray.core.coordinates";
     mro := [BMapping]; payload := PId 29; hashable := false; attrs := [];
     dunder_len := Some (Ok 0);
     dunder_repr := Ok (Some "Coordinates: *empty*");
     dunder_str := Ok (Some "Coordinates: *empty*");
     dunder_iter := Some ([], false); dunder_getitem := [];
     dunder_call := None; dunder_bool := Ok false |}.

(** A DataTree without children whose dataset holds those variables. *)
Definition wide_datatree : pyobj :=
  let ds :=
    {| cls_name := "DatasetView"; cls_module := "xarray.core.datatree";
       mro := [BMapping]; payload := PId 25; hashable := false;
       attrs := [("data_vars", Ok three_data_vars); ("sizes", Ok sizes_x3)];
       dunder_len := Some (Ok 3);
       dunder_repr := Ok (Some "<xarray.DatasetView>");
       dunder_str := Ok (Some "<xarray.DatasetView>");
       dunder_iter := Some ([mk_str "a"; mk_str "b"; mk_str "c"], false);
       dunder_getitem := []; dunder_call := None; dunder_bool := Ok true |} in
  {| cls_name := "DataTree"; cls_module := "xarray.core.datatree";
     mro := [BMapping]; payload := PId 26; hashable := false;
     attrs := [("children", Ok (mk_dict [])); ("dataset", Ok ds);
         ("subtree", Ok (mk_view "generator" [mk_none]))];
     dunder_len := Some (Ok 0);
     dunder_repr := Ok (Some "<xarray.DataTree>");
     dunder_str := Ok (Some "<xarray.DataTree>");
     dunder_iter := Some ([], false); dunder_getitem := [];
     dunder_call := None; dunder_bool := Ok true |}.

(** A Dataset holding the same variables. *)
Definition wide_dataset : pyobj :=
  {| cls_name := "Dataset"; cls_module := "xarray.core.dataset";
     mro := [BMapping]; payload := PId 27; hashable := false;
     attrs := [("sizes", Ok sizes_x3); ("data_vars", Ok three_data_vars);
         ("coords", Ok no_coords)];
     dunder_len := Some (Ok 3);
     dunder_repr := Ok (Some "<xarray.Dataset>");
     dunder_str := Ok (Some "<xarray.Dataset>");
     dunder_iter := Some ([mk_str "a"; mk_str "b"; mk_str "c"], false);
     dunder_getitem := []; dunder_call := None; dunder_bool := Ok true |}.

(** A scikit-learn estimator, [LinearRegression()]. *)
Definition sklearn_model : pyobj :=
  {| cls_name := "LinearRegression";
     cls_module := "sklearn.linear_model._base"; mro := []; payload := PId 30;
     hashable := true; attrs := []; dunder_len := None;
     dunder_repr := Ok (Some "LinearRegression()");
     dunder_str := Ok (Some "LinearRegression()"); dunder_iter := None;
     dunder_getitem := []; dunder_call := None; dunder_bool := Ok true |}.

(** A numpy masked array of shape [(2, 3)]: a subclass of [ndarray]. *)
Definition masked_array : pyobj :=
  {| cls_name := "MaskedArray"; cls_module := "numpy.ma.core"; mro := [];
     payload := PId 31; hashable := false;
     attrs := [("shape", Ok (mk_tuple [mk_int 2; mk_int 3]));
               ("dtype", Ok (mk_dtype 32 "float64"))];
     dunder_len := Some (Ok 2);
     dunder_repr := Ok (Some "masked_array(...)");
     dunder_str := Ok (Some "[[-- --]]");
     dunder_iter := Some ([], false); dunder_getitem := [];
     dunder_call := None; dunder_bool := Raise |}.

(** A LazyFrame over the columns [id] and [score] whose schema fails to
    give the dtype of [score]. *)
Definition bad_column_schema : pyobj :=
  {| cls_name := "Schema"; cls_module := "polars.schema";
     mro := [BDict; BMapping]; payload := PId 33; hashable := false;
     attrs := [("names",
                Ok (mk_method (Ok (mk_list [mk_str "id"; mk_str "score"]))))];
     dunder_len := Some (Ok 2); dunder_repr := Ok (Some "Schema(...)");
     dunder_str := Ok (Some "Schema(...)");
     dunder_iter := Some ([mk_str "id"; mk_str "score"], false);
     dunder_getitem := [(PStr "id", Ok (mk_dtype 4 "Int64"));
                        (PStr "score", Raise)];
     dunder_call := None; dunder_bool := Ok true |}.

Definition bad_column_lazyframe : pyobj :=
  {| cls_name := "LazyFrame"; cls_module := "polars.lazyframe.frame";
     mro := []; payload := PId 34; hashable := true;
     attrs := [("collect_schema", Ok (mk_method (Ok bad_column_schema)))];
     dunder_len := None; dunder_repr := Ok (Some "<LazyFrame>");
     dunder_str := Ok (Some "<LazyFrame>"); dunder_iter := None;
     dunder_getitem := []; dunder_call := None; dunder_bool := Ok true |}.

(** An xarray DataArray with dimensions [time: 3] and [x: 2]. *)
Definition small_dataarray : pyobj :=
  {| cls_name := "DataArray"; cls_module := "xarray.core.dataarray";
     mro := []; payload := PId 35; hashable := false;
     attrs := [("dims", Ok (mk_tuple [mk_str "time"; mk_str "x"]));
               ("shape", Ok (mk_tuple [mk_int 3; mk_int 2]));
               ("dtype", Ok (mk_dtype 36 "float64"))];
     dunder_len := Some (Ok 3);
     dunder_repr := Ok (Some "<xarray.DataArray (time: 3, x: 2)>");
     dunder_str := Ok (Some "<xarray.DataArray (time: 3, x: 2)>");
     dunder_iter := Some ([], false); dunder_getitem := [];
     dunder_call := None; dunder_bool := Raise |}.

(** A numpy array of 100 rows of 3 float64. *)
Definition float_array : pyobj :=
  {| cls_name := "ndarray"; cls_module := "numpy"; mro := [];
     payload := PId 37; hashable := false;
     attrs := [("shape", Ok (mk_tuple [mk_int 100; mk_int 3]));
               ("dtype", Ok (mk_dtype 38 "float64"));
               ("ndim", Ok (mk_int 2)); ("nbytes", Ok (mk_int 2400))];
     dunder_len := Some (Ok 100);
     dunder_repr := Ok (Some "array(...)");
     dunder_str := Ok (Some "[[0. 0. 0.] ...]");
     dunder_iter := Some ([], false); dunder_getitem := [];
     dunder_call := None; dunder_bool := Raise |}.

(** * Properties *)

(** ** Strings and slices *)

Lemma length_append (s1 s2 : string) :
  String.length (s1 ++ s2) = (String.length s1 + String.length s2)%nat.
Proof.
  induction s1 as [|c s1 IH]; simpl; [reflexivity | now rewrite IH].
Qed.

Lemma substring0_length (n : nat) (s : string) :
  String.length (substring 0 n s) = Nat.min n (String.length s).
Proof.
  revert n; induction s as [|c s IH]; intros [|n]; simpl; auto.
Qed.

Lemma substring0_prefix (n : nat) (s : string) :
  exists rest, s = substring 0 n s ++ rest.
Proof.
  revert n; induction s as [|c s IH]; intros [|n]; simpl.
  - now exists "".
  - now exists "".
  - now exists (String c s).
  - destruct (IH n) as [rest Hr]. exists rest. now rewrite <- Hr.
Qed.

Lemma str_len_append (s1 s2 : string) :
  str_len (s1 ++ s2) = str_len s1 + str_len s2.
Proof.
  unfold str_len. rewrite length_append. lia.
Qed.

Lemma str_slice_to_length (s : string) (k : Z) :
  0 <= k -> k <= str_len s -> str_len (str_slice_to s k) = k.
Proof.
  unfold str_len, str_slice_to. intros H0 Hk.
  destruct (k <? 0) eqn:E; [lia|].
  rewrite substring0_length. lia.
Qed.

Lemma str_slice_to_prefix (s : string) (k : Z) :
  exists rest, s = str_slice_to s k ++ rest.
Proof.
  unfold str_slice_to. apply substring0_prefix.
Qed.

(** The capped text [_safe_repr] and [_truncate_name] build from a string
    longer than the budget. *)
Lemma capped_length (r : string) (limit : Z) :
  3 <= limit -> limit < str_len r ->
  str_len (str_slice_to r (limit - 3) ++ "...") = limit.
Proof.
  intros H3 Hl. rewrite str_len_append, str_slice_to_length by lia.
  unfold str_len; simpl; lia.
Qed.

(** ** C8: name truncation *)

(** C8, as the code has it.  [_truncate_name] renders the name with [str]
    and returns it unchanged when there is no budget or when it fits; when
    it does not fit and the budget is at least 3, it returns a prefix of
    the name followed by ["..."], of exactly [max_len] characters. *)
Theorem truncate_name_budget (name : pyobj) (s : string) :
  py_str name = Ok s ->
  _truncate_name name None = Ok s /\
  forall max_len : Z,
    (str_len s <= max_len -> _truncate_name name (Some max_len) = Ok s) /\
    (3 <= max_len -> max_len < str_len s ->
     exists p rest,
       _truncate_name name (Some max_len) = Ok (p ++ "...") /\
       s = p ++ rest /\
       str_len (p ++ "...") = max_len).
Proof.
  intros Hs. unfold _truncate_name. rewrite Hs. simpl. split; [reflexivity|].
  intros m. split.
  - intros Hle. apply Z.leb_le in Hle. now rewrite Hle.
  - intros H3 Hlt.
    destruct (str_slice_to_prefix s (m - 3)) as [rest Hrest].
    exists (str_slice_to s (m - 3)), rest.
    assert (E : (str_len s <=? m) = false) by (apply Z.leb_gt; lia).
    rewrite E. repeat split; [exact Hrest | now apply capped_length].
Qed.

Lemma truncate_name_budget_witness :
  exists p rest,
    _truncate_name (mk_str "abcdefghij") (Some 5) = Ok (p ++ "...") /\
    "abcdefghij" = p ++ rest /\
    str_len (p ++ "...") = 5.
Proof.
  refine (proj2 (proj2 (truncate_name_budget (mk_str "abcdefghij")
                          (s := "abcdefghij") eq_refl) 5) _ _).
  - lia.
  - reflexivity.
Defined.

(** C8 as stated fails below a budget of 3: with [max_len = 2] the name
    ["abcdef"] comes back as ["abcde..."], 8 characters instead of 2. *)
Lemma truncate_name_small_budget :
  2 < str_len "abcdef" /\
  _truncate_name (mk_str "abcdef") (Some 2) = Ok "abcde..." /\
  str_len "abcde..." <> 2.
Proof.
  split; [reflexivity | split; [reflexivity | discriminate]].
Qed.

(** ** C6: placeholders of [_safe_repr] *)

(** Outside the large containers, [_safe_repr] answers from [repr]. *)
Lemma safe_repr_native (obj : pyobj) (limit : Z) :
  ~ large_container obj ->
  _safe_repr obj limit =
  match py_repr obj with
  | Raise => "<" ++ cls_name obj ++ ">"
  | Ok r => if limit <? str_len r
            then str_slice_to r (limit - 3) ++ "..." else r
  end.
Proof.
  intros Hn. unfold _safe_repr. fold (is_bulk obj).
  destruct (is_bulk obj) eqn:Eb; [|reflexivity].
  destruct (py_len obj) as [n|] eqn:El; simpl; [|reflexivity].
  destruct (20 <? n) eqn:E20; [|reflexivity].
  exfalso. apply Hn. split; [exact Eb|]. exists n. split; [exact El|].
  now apply Z.ltb_lt.
Qed.

(** C6.  A dict, list, tuple, set or frozenset instance with more than 20
    elements gets the placeholder, whatever its [__repr__] does; any other
    object whose [repr] fails, by raising or by returning a non-string,
    gets ["<TypeName>"]; and where [repr] succeeds it is what is used. *)
Theorem safe_repr_placeholders (obj : pyobj) (limit : Z) :
  (forall n, is_bulk obj = true -> py_len obj = Ok n -> 20 < n ->
     forall r, _safe_repr (with_repr obj r) limit
               = "<" ++ cls_name obj ++ " with " ++ dec n ++ " items>") /\
  (~ large_container obj ->
     (dunder_repr obj = Raise \/ dunder_repr obj = Ok None) ->
     _safe_repr obj limit = "<" ++ cls_name obj ++ ">") /\
  (~ large_container obj ->
     forall r, dunder_repr obj = Ok (Some r) ->
     _safe_repr obj limit
     = if limit <? str_len r then str_slice_to r (limit - 3) ++ "..." else r).
Proof.
  split; [|split].
  - intros n Hb Hl Hn r. unfold _safe_repr.
    change (isinstance_any (with_repr obj r) [BDict; BList; BTuple; BSet; BFrozenset])
      with (is_bulk obj).
    change (py_len (with_repr obj r)) with (py_len obj).
    rewrite Hb, Hl. simpl. apply Z.ltb_lt in Hn. now rewrite Hn.
  - intros Hn Hr. rewrite (safe_repr_native limit Hn). unfold py_repr.
    destruct Hr as [-> | ->]; reflexivity.
  - intros Hn r Hr. rewrite (safe_repr_native limit Hn). unfold py_repr.
    now rewrite Hr.
Qed.

Lemma safe_repr_placeholders_witness :
  _safe_repr (with_repr range_100 Raise) 200 = "<list with 100 items>".
Proof.
  exact (proj1 (safe_repr_placeholders range_100 200) 100
           eq_refl eq_refl eq_refl Raise).
Defined.

(** ** C3: the character cap of [_safe_repr] *)




(** ** Records and the outcome monad *)

Lemma bind_ok {A B} (m : outcome A) (k : A -> outcome B) (b : B) :
  bind m k = Ok b -> exists a, m = Ok a /\ k a = Ok b.
Proof.
  destruct m as [a|]; simpl; [|discriminate]. intros H. now exists a.
Qed.

(** Take apart a hypothesis saying that a computation returned. *)
Ltac ok_step :=
  match goal with
  | H : Ok _ = Ok _ |- _ => injection H as H; try subst
  | H : Raise = Ok _ |- _ => discriminate H
  | H : bind ?m _ = Ok _ |- _ =>
      let E := fresh "E" in
      destruct m eqn:E; cbn [bind] in H; [|discriminate H]
  | H : (if ?b then _ else _) = Ok _ |- _ => destruct b eqn:?
  | H : match ?x with _ => _ end = Ok _ |- _ => destruct x eqn:?
  end.

Ltac ok_inv := repeat ok_step.

Lemma rget_rset_same (k : string) (v : rvalue) (d : record) :
  rget k (rset k v d) = Some v.
Proof.
  unfold rget. induction d as [|[k' v'] d IH]; simpl.
  - now rewrite String.eqb_refl.
  - destruct (String.eqb k k') eqn:E; simpl; rewrite E; [reflexivity | exact IH].
Qed.

Lemma rget_rset_other (k k' : string) (v : rvalue) (d : record) :
  String.eqb k k' = false -> rget k (rset k' v d) = rget k d.
Proof.
  unfold rget. intros Hne. induction d as [|[k'' v''] d IH]; simpl.
  - now rewrite Hne.
  - destruct (String.eqb k' k'') eqn:E; simpl.
    + apply String.eqb_eq in E; subst k''. now rewrite Hne.
    + destruct (String.eqb k k''); [reflexivity | exact IH].
Qed.

Lemma rget_rset_if_other (b : bool) (k k' : string) (v : rvalue) (d : record) :
  String.eqb k k' = false -> rget k (rset_if b k' v d) = rget k d.
Proof.
  intros H. destruct b; simpl; [now apply rget_rset_other | reflexivity].
Qed.

Lemma rget_rset_try_other (k k' : string) (m : outcome rvalue) (d : record) :
  String.eqb k k' = false -> rget k (rset_try k' m d) = rget k d.
Proof.
  intros H. destruct m; simpl; [now apply rget_rset_other | reflexivity].
Qed.

(** Read a key of a record written as a chain of assignments. *)
Ltac rget_tac :=
  repeat first
    [ rewrite rget_rset_same
    | rewrite rget_rset_other by reflexivity
    | rewrite rget_rset_if_other by reflexivity
    | rewrite rget_rset_try_other by reflexivity ];
  try reflexivity.

Lemma keys_within_rset (A : list string) (k : string) (v : rvalue) (d : record) :
  existsb (String.eqb k) A = true ->
  keys_within A d = true -> keys_within A (rset k v d) = true.
Proof.
  intros Hk. unfold keys_within. induction d as [|[k' v'] d IH]; simpl.
  - now rewrite Hk.
  - intros H. apply andb_true_iff in H as [H1 H2].
    destruct (String.eqb k k'); simpl; rewrite H1; simpl; auto.
Qed.

Lemma keys_within_rset_if (A : list string) (b : bool) (k : string)
    (v : rvalue) (d : record) :
  existsb (String.eqb k) A = true ->
  keys_within A d = true -> keys_within A (rset_if b k v d) = true.
Proof.
  intros Hk H. destruct b; simpl; [now apply keys_within_rset | exact H].
Qed.

Lemma keys_within_rset_try (A : list string) (k : string)
    (m : outcome rvalue) (d : record) :
  existsb (String.eqb k) A = true ->
  keys_within A d = true -> keys_within A (rset_try k m d) = true.
Proof.
  intros Hk H. destruct m; simpl; [now apply keys_within_rset | exact H].
Qed.

Lemma keys_within_rget (A : list string) (k : string) (d : record) :
  keys_within A d = true -> existsb (String.eqb k) A = false -> rget k d = None.
Proof.
  unfold keys_within, rget. intros H Hk.
  induction d as [|[k' v'] d IH]; simpl in *; [reflexivity|].
  apply andb_true_iff in H as [H1 H2].
  destruct (String.eqb k k') eqn:E.
  - apply String.eqb_eq in E; subst k'. congruence.
  - now apply IH.
Qed.

Ltac keys_tac :=
  repeat first
    [ reflexivity
    | assumption
    | apply keys_within_rset; [reflexivity|]
    | apply keys_within_rset_if; [reflexivity|]
    | apply keys_within_rset_try; [reflexivity|]
    | match goal with
      | |- keys_within _ (if ?b then _ else _) = true => destruct b
      | |- keys_within _ (match ?x with _ => _ end) = true => destruct x
      end ].

(** ** Dispatch *)

Lemma inspect_one_past_libraries (name : string) (o : pyobj) (mi : Z)
    (mnl : option Z) :
  matched_before_dict o = false ->
  inspect_one name o mi mnl =
  if isinstance o BDict then _inspect_dict name o mi mnl
  else if isinstance_any o [BList; BTuple; BSet; BFrozenset]
       then inspect_collection name o
  else if callable o
          && isinstance_any o [BFunctionType; BBuiltinFunctionType; BType]
       then Ok [("name", RStr name); ("type", RStr (_type_name o));
                ("callable_name", reify (_safe_attr o "__name__" (mk_str "?")))]
  else _inspect_generic name o.
Proof.
  unfold matched_before_dict, library_family, inspect_one, _module, _type_name.
  intros H. apply orb_false_iff in H as [Hs H]. rewrite Hs.
  destruct (String.prefix "pandas" (cls_module o));
  destruct (String.prefix "polars" (cls_module o));
  destruct (String.prefix "numpy" (cls_module o));
  destruct (String.prefix "xarray" (cls_module o));
  destruct (String.eqb (cls_name o) "DataFrame");
  destruct (String.eqb (cls_name o) "Series");
  destruct (String.eqb (cls_name o) "LazyFrame");
  destruct (String.eqb (cls_name o) "ndarray");
  destruct (String.eqb (cls_name o) "Dataset");
  destruct (String.eqb (cls_name o) "DataArray");
  destruct (String.eqb (cls_name o) "DataTree");
  simpl in H; try discriminate H; reflexivity.
Qed.

Lemma polars_not_pandas (m : string) :
  String.prefix "polars" m = true -> String.prefix "pandas" m = false.
Proof.
  intros H. destruct (String.prefix "pandas" m) eqn:E; [|reflexivity].
  apply prefix_correct in H. apply prefix_correct in E.
  cbn [String.length] in H, E. rewrite H in E. discriminate E.
Qed.

(** ** C4: lazy frames *)

Lemma inspect_one_lazyframe (name : string) (o : pyobj) (mi : Z) (mnl : option Z) :
  is_lazyframe o ->
  inspect_one name o mi mnl = Ok (_inspect_polars_lazyframe name o mi mnl).
Proof.
  intros (Hs & Hp & Hc). unfold inspect_one, _module, _type_name.
  rewrite Hs, Hp, (polars_not_pandas _ Hp), Hc. reflexivity.
Qed.

Lemma lazyframe_record_lazy (name : string) (o : pyobj) (mi : Z) (mnl : option Z) :
  rget "lazy" (_inspect_polars_lazyframe name o mi mnl) = Some (RBool true).
Proof.
  unfold _inspect_polars_lazyframe.
  match goal with |- rget _ (try_except ?m _) = _ => destruct m as [r|] eqn:E end;
    simpl; [|reflexivity].
  ok_inv. rget_tac.
Qed.

Lemma index_info_keys (A : list string) (idx : pyobj) (r r' : record) :
  existsb (String.eqb "index_dtype") A = true ->
  existsb (String.eqb "index_type") A = true ->
  existsb (String.eqb "index_nlevels") A = true ->
  existsb (String.eqb "index_names") A = true ->
  index_info idx r = Ok r' ->
  keys_within A r = true -> keys_within A r' = true.
Proof.
  intros H1 H2 H3 H4 H Hr. unfold index_info in H. ok_inv;
    repeat first [ assumption | apply keys_within_rset; [assumption|] ].
Qed.

Lemma pandas_dataframe_keys (name : string) (o : pyobj) (mi : Z)
    (mnl : option Z) (rec : record) :
  _inspect_pandas_dataframe name o mi mnl = Ok rec ->
  keys_within eager_keys rec = true.
Proof.
  unfold _inspect_pandas_dataframe. intros H. ok_inv.
  apply keys_within_rset_try; [reflexivity|].
  eapply index_info_keys; try eassumption; try reflexivity.
  keys_tac.
Qed.

Lemma polars_dataframe_keys (name : string) (o : pyobj) (mi : Z)
    (mnl : option Z) (rec : record) :
  _inspect_polars_dataframe name o mi mnl = Ok rec ->
  keys_within eager_keys rec = true.
Proof.
  unfold _inspect_polars_dataframe. intros H. ok_inv. keys_tac.
Qed.

(** C4.  A LazyFrame whose [collect_schema()] raises is described by exactly
    [{name, type: "polars.LazyFrame", lazy: True}]; every LazyFrame gets a
    record, and it has [lazy] set to [True]; no record of a pandas or polars
    DataFrame has a [lazy] key at all. *)
Theorem lazyframe_lazy_flag (name : string) (mi : Z) (mnl : option Z) :
  (forall o, is_lazyframe o ->
     (py_method o "collect_schema" = Raise ->
      inspect_one name o mi mnl
      = Ok [("name", RStr name); ("type", RStr "polars.LazyFrame");
            ("lazy", RBool true)]) /\
     exists rec, inspect_one name o mi mnl = Ok rec
                 /\ rget "lazy" rec = Some (RBool true)) /\
  (forall o rec, is_eager_dataframe o ->
     inspect_one name o mi mnl = Ok rec -> rget "lazy" rec = None).
Proof.
  split.
  - intros o Hl. rewrite (inspect_one_lazyframe name mi mnl Hl). split.
    + intros Hraise. unfold _inspect_polars_lazyframe. now rewrite Hraise.
    + eexists. split; [reflexivity | apply lazyframe_record_lazy].
  - intros o rec [Hc Hm] H.
    apply keys_within_rget with (A := eager_keys); [|reflexivity].
    unfold inspect_one, _module, _type_name in H. rewrite Hc in H.
    destruct (isinstance_any o _SCALAR_TYPES).
    { ok_inv. reflexivity. }
    simpl in H. destruct Hm as [Hp | Hp].
    + rewrite Hp in H. simpl in H. now apply pandas_dataframe_keys in H.
    + rewrite Hp, (polars_not_pandas _ Hp) in H. simpl in H.
      now apply polars_dataframe_keys in H.
Qed.

Lemma lazyframe_lazy_flag_witness :
  inspect_one "lf" failing_lazyframe 20 (Some 60)
  = Ok [("name", RStr "lf"); ("type", RStr "polars.LazyFrame");
        ("lazy", RBool true)].
Proof.
  apply (proj1 (lazyframe_lazy_flag "lf" 20 (Some 60)) failing_lazyframe).
  - split; [reflexivity | split; reflexivity].
  - reflexivity.
Defined.

Example two_column_lazyframe_record :
  inspect_one "lf" two_column_lazyframe 1 (Some 60)
  = Ok [("name", RStr "lf"); ("type", RStr "polars.LazyFrame");
        ("columns", RList [RDict [("name", RStr "id"); ("dtype", RStr "Int64")]]);
        ("lazy", RBool true); ("columns_truncated", RInt 2)].
Proof. reflexivity. Qed.

(** ** The fields each step writes *)

Lemma keys_within_weaken (A B : list string) (d : record) :
  keys_within A d = true -> keys_within (A ++ B) d = true.
Proof.
  unfold keys_within. intros H. apply forallb_forall. intros kv Hin.
  rewrite forallb_forall in H. specialize (H kv Hin).
  rewrite existsb_app, H. reflexivity.
Qed.

Lemma series_info_keys (type name : string) (o : pyobj) (rec : record) :
  series_info type name o = Ok rec -> keys_within library_keys rec = true.
Proof.
  unfold series_info. intros H. ok_inv; keys_tac.
Qed.

Lemma lazyframe_keys (name : string) (o : pyobj) (mi : Z) (mnl : option Z) :
  keys_within library_keys (_inspect_polars_lazyframe name o mi mnl) = true.
Proof.
  unfold _inspect_polars_lazyframe.
  match goal with |- keys_within _ (try_except ?m _) = _ => destruct m as [r|] eqn:E end;
    simpl try_except; [|reflexivity].
  ok_inv. keys_tac.
Qed.

Lemma dataset_keys (name : string) (o : pyobj) (mi : Z) (mnl : option Z)
    (rec : record) :
  _inspect_xarray_dataset name o mi mnl = Ok rec ->
  keys_within library_keys rec = true.
Proof.
  unfold _inspect_xarray_dataset. intros H. ok_inv; keys_tac.
Qed.

Lemma dataarray_keys (name : string) (o : pyobj) (rec : record) :
  _inspect_xarray_dataarray name o = Ok rec ->
  keys_within library_keys rec = true.
Proof.
  unfold _inspect_xarray_dataarray. intros H. ok_inv; keys_tac.
Qed.

Lemma datatree_keys (name : string) (o : pyobj) (mi : Z) (mnl : option Z)
    (rec : record) :
  _inspect_xarray_datatree name o mi mnl = Ok rec ->
  keys_within library_keys rec = true.
Proof.
  unfold _inspect_xarray_datatree. intros H. ok_inv; keys_tac.
Qed.

Lemma library_record_keys (name : string) (o : pyobj) (mi : Z)
    (mnl : option Z) (rec : record) :
  matched_before_dict o = true ->
  inspect_one name o mi mnl = Ok rec -> keys_within library_keys rec = true.
Proof.
  intros Hm H.
  unfold matched_before_dict, library_family in Hm.
  unfold inspect_one, _module, _type_name in H.
  destruct (isinstance_any o _SCALAR_TYPES); [ok_inv; reflexivity|].
  destruct (String.prefix "pandas" (cls_module o));
  destruct (String.prefix "polars" (cls_module o));
  destruct (String.prefix "numpy" (cls_module o));
  destruct (String.prefix "xarray" (cls_module o));
  destruct (String.eqb (cls_name o) "DataFrame");
  destruct (String.eqb (cls_name o) "Series");
  destruct (String.eqb (cls_name o) "LazyFrame");
  destruct (String.eqb (cls_name o) "ndarray");
  destruct (String.eqb (cls_name o) "Dataset");
  destruct (String.eqb (cls_name o) "DataArray");
  destruct (String.eqb (cls_name o) "DataTree");
  cbn [andb orb] in Hm, H; try discriminate Hm;
  first
    [ apply keys_within_weaken; now apply pandas_dataframe_keys in H
    | apply keys_within_weaken; now apply polars_dataframe_keys in H
    | now apply dataset_keys in H
    | now apply dataarray_keys in H
    | now apply datatree_keys in H
    | now apply series_info_keys in H
    | (injection H as <-; apply lazyframe_keys)
    | (unfold _inspect_pandas_series in H; ok_inv;
       apply keys_within_rset_try; [reflexivity|];
       eapply series_info_keys; eassumption)
    | (unfold _inspect_numpy in H; ok_inv; reflexivity) ].
Qed.


Lemma not_dict_has_no_keys (name : string) (o : pyobj) (mi : Z)
    (mnl : option Z) (rec : record) :
  isinstance o BDict = false ->
  inspect_one name o mi mnl = Ok rec ->
  rget "keys" rec = None /\ rget "keys_truncated" rec = None /\
  rget "values_preview" rec = None.
Proof.
  intros Hd H. destruct (matched_before_dict o) eqn:Hm.
  - pose proof (library_record_keys name o mi mnl Hm H) as Hk.
    repeat split; apply keys_within_rget with (A := library_keys);
      solve [exact Hk | reflexivity].
  - rewrite inspect_one_past_libraries in H by exact Hm. rewrite Hd in H.
    assert (Hk : keys_within ["name"; "type"; "length"; "element_types";
                              "repr"; "callable_name"; "shape"; "dtype"] rec
                 = true).
    { destruct (isinstance_any o [BList; BTuple; BSet; BFrozenset]).
      - unfold inspect_collection in H. ok_inv; keys_tac.
      - destruct (callable o
                  && isinstance_any o [BFunctionType; BBuiltinFunctionType; BType]).
        + ok_inv. reflexivity.
        + unfold _inspect_generic in H. ok_inv; keys_tac. }
    repeat split;
      apply keys_within_rget
        with (A := ["name"; "type"; "length"; "element_types"; "repr";
                    "callable_name"; "shape"; "dtype"]);
      solve [exact Hk | reflexivity].
Qed.

(** ** C5: the dict step *)

Lemma inspect_dict_fields (name : string) (o : pyobj) (mi : Z)
    (mnl : option Z) (rec : record) :
  _inspect_dict name o mi mnl = Ok rec ->
  rget "length" rec = Some (ropt (_safe_len o)) /\
  rget "type" rec = Some (RStr (cls_name o)) /\
  exists ks keys names,
    py_method o "keys" = Ok ks /\ islice ks mi = Ok keys /\
    mapM (fun k => _truncate_name k mnl) keys = Ok names /\
    rget "keys" rec = Some (RList (map RStr names)).
Proof.
  unfold _inspect_dict. intros H. ok_inv.
  match goal with
  | |- context [match ?p with [] => _ | _ :: _ => _ end] => destruct p
  end;
    (split; [rget_tac | split; [rget_tac |]]);
    do 3 eexists; (repeat split; try eassumption); rget_tac.
Qed.

Lemma inspect_dict_returns (name : string) (o : pyobj) (mi : Z)
    (mnl : option Z) (ks : pyobj) (keys : list pyobj) (names : list string) :
  py_method o "keys" = Ok ks -> islice ks mi = Ok keys ->
  mapM (fun k => _truncate_name k mnl) keys = Ok names ->
  exists rec, _inspect_dict name o mi mnl = Ok rec.
Proof.
  intros H1 H2 H3. unfold _inspect_dict. rewrite H1. cbn [bind].
  rewrite H2. cbn [bind]. rewrite H3. cbn [bind]. eexists. reflexivity.
Qed.

(** C5, as the code has it.  The dict step tests [isinstance(obj, dict)].
    An instance of [dict] or of a subclass that no earlier step takes is
    handed to [_inspect_dict]; the record it returns has [keys] and
    [length]; and it does return one when [obj.keys()] can be listed up to
    [max_items] and every listed key can be rendered with [str].  An object
    that is not an instance of [dict], a mapping or not, is never handed to
    [_inspect_dict]: past the earlier steps it goes to the collection step,
    the callable step or the generic inspector, and whichever step takes it,
    its record has none of [keys], [keys_truncated] and [values_preview]. *)
Theorem dict_routed_to_inspect_dict (name : string) (mi : Z) (mnl : option Z) :
  (forall o,
     isinstance o BDict = true ->
     matched_before_dict o = false ->
     inspect_one name o mi mnl = _inspect_dict name o mi mnl /\
     (forall rec, inspect_one name o mi mnl = Ok rec ->
        rget "length" rec = Some (ropt (_safe_len o)) /\
        exists names, rget "keys" rec = Some (RList (map RStr names))) /\
     (forall ks keys names,
        py_method o "keys" = Ok ks -> islice ks mi = Ok keys ->
        mapM (fun k => _truncate_name k mnl) keys = Ok names ->
        exists rec, inspect_one name o mi mnl = Ok rec)) /\
  (forall o,
     isinstance o BDict = false ->
     (matched_before_dict o = false ->
      inspect_one name o mi mnl
      = if isinstance_any o [BList; BTuple; BSet; BFrozenset]
        then inspect_collection name o
        else if callable o
                && isinstance_any o [BFunctionType; BBuiltinFunctionType; BType]
        then Ok [("name", RStr name); ("type", RStr (_type_name o));
                 ("callable_name", reify (_safe_attr o "__name__" (mk_str "?")))]
        else _inspect_generic name o) /\
     (forall rec, inspect_one name o mi mnl = Ok rec ->
        rget "keys" rec = None /\ rget "keys_truncated" rec = None /\
        rget "values_preview" rec = None)).
Proof.
  split.
  - intros o Hd Hm.
    assert (E : inspect_one name o mi mnl = _inspect_dict name o mi mnl).
    { rewrite inspect_one_past_libraries by exact Hm. now rewrite Hd. }
    rewrite E. split; [reflexivity|]. split.
    + intros rec H. destruct (inspect_dict_fields _ _ _ _ H)
        as (Hl & _ & ks & keys & names & _ & _ & _ & Hk).
      split; [exact Hl | now exists names].
    + intros ks keys names. apply inspect_dict_returns.
  - intros o Hd. split.
    + intros Hm. rewrite inspect_one_past_libraries by exact Hm.
      now rewrite Hd.
    + intros rec H. exact (not_dict_has_no_keys name o mi mnl Hd H).
Qed.

Lemma dict_routed_to_inspect_dict_witness :
  (inspect_one "d" abc_dict 20 (Some 60) = _inspect_dict "d" abc_dict 20 (Some 60)
   /\ exists rec, inspect_one "d" abc_dict 20 (Some 60) = Ok rec) /\
  inspect_one "m" proxy_mapping 20 (Some 60)
  = _inspect_generic "m" proxy_mapping.
Proof.
  destruct (@dict_routed_to_inspect_dict "d" 20 (Some 60)) as [Hpos _].
  destruct (@dict_routed_to_inspect_dict "m" 20 (Some 60)) as [_ Hneg].
  destruct (Hpos abc_dict eq_refl eq_refl) as (H1 & _ & H3).
  split.
  - split; [exact H1|].
    apply (H3 (mk_view "dict_keys" [mk_str "a"; mk_str "b"; mk_str "c"])
              [mk_str "a"; mk_str "b"; mk_str "c"] ["a"; "b"; "c"]);
      reflexivity.
  - exact (proj1 (Hneg proxy_mapping eq_refl) eq_refl).
Defined.

Example abc_dict_record :
  inspect_one "d" abc_dict 20 (Some 60)
  = Ok [("name", RStr "d"); ("type", RStr "dict"); ("length", RInt 3);
        ("keys", RList [RStr "a"; RStr "b"; RStr "c"]);
        ("values_preview",
         RDict [("a", RStr "int: 1"); ("b", RStr "str: 'hi'");
                ("c", RStr "list: [1, 2, 3]")])].
Proof. reflexivity. Qed.

(** C5 as stated fails: a mapping that is not a [dict] is not taken by the
    dict step; it falls to the generic inspector, whose record has no
    [keys] field. *)
Lemma mapping_outside_dict_is_generic :
  isinstance proxy_mapping BMapping = true /\
  matched_before_dict proxy_mapping = false /\
  inspect_one "m" proxy_mapping 20 (Some 60)
  = Ok [("name", RStr "m"); ("type", RStr "mappingproxy"); ("length", RInt 1);
        ("repr", RStr "mappingproxy({'a': 1})")] /\
  forall rec, inspect_one "m" proxy_mapping 20 (Some 60) = Ok rec ->
              rget "keys" rec = None.
Proof.
  split; [reflexivity|]. split; [reflexivity|]. split; [reflexivity|].
  intros rec H. vm_compute in H. injection H as <-. reflexivity.
Qed.

(** ** C7: lists, tuples, sets and frozensets *)

Lemma inspect_one_collection (name : string) (o : pyobj) (mi : Z) (mnl : option Z) :
  is_collection o -> inspect_one name o mi mnl = inspect_collection name o.
Proof.
  intros (Hm & Hd & Hc). rewrite inspect_one_past_libraries by exact Hm.
  now rewrite Hd, Hc.
Qed.

Lemma sample_by_index (o : pyobj) (items : list pyobj) (n : Z) :
  (forall (i : nat) (x : pyobj),
      nth_error items i = Some x -> py_getitem o (mk_int (Z.of_nat i)) = Ok x) ->
  n = Z.of_nat (length items) -> 20 < n ->
  mapM (fun i => x <- py_getitem o (mk_int i) ;; Ok (_type_name x))
       (py_range (Z.min 5 n))
  = Ok (map cls_name (firstn 5 items)).
Proof.
  intros Hg Hn H20. rewrite Z.min_l by lia.
  destruct items as [|a [|b [|c [|d [|e rest]]]]]; simpl in Hn; try lia.
  pose proof (Hg 0%nat a eq_refl) as G0.
  pose proof (Hg 1%nat b eq_refl) as G1.
  pose proof (Hg 2%nat c eq_refl) as G2.
  pose proof (Hg 3%nat d eq_refl) as G3.
  pose proof (Hg 4%nat e eq_refl) as G4.
  change (py_range 5) with [0; 1; 2; 3; 4].
  change (Z.of_nat 0) with 0 in G0. change (Z.of_nat 1) with 1 in G1.
  change (Z.of_nat 2) with 2 in G2. change (Z.of_nat 3) with 3 in G3.
  change (Z.of_nat 4) with 4 in G4.
  cbn [mapM bind]. rewrite G0, G1, G2, G3, G4. reflexivity.
Qed.

Lemma sample_by_iteration (o : pyobj) (items : list pyobj) :
  dunder_iter o = Some (items, false) -> 20 < Z.of_nat (length items) ->
  islice o 5 = Ok (firstn 5 items).
Proof.
  intros Hi H20. unfold islice. rewrite Hi.
  change ((5 <? 0) || (sys_maxsize <? 5)) with false. cbv iota.
  assert (E : (5 <=? Z.of_nat (length items)) = true) by (apply Z.leb_le; lia).
  rewrite E. reflexivity.
Qed.

(** C7.  For a list, tuple, set or frozenset holding [items]: with more
    than 20 elements the record is exactly [name], [type], [length] (the
    true length) and [element_types] (the type names of the first 5
    elements), so it has no [repr]; with at most 20 elements it is [name],
    [type], [length] and [repr], the capped repr.  And
    [inspect_one("lst", list(range(100)))] gives type [list], length 100
    and five element types [int]. *)
Theorem collection_record :
  (forall (name : string) (o : pyobj) (items : list pyobj) (mi : Z)
          (mnl : option Z),
     is_collection o ->
     py_len o = Ok (Z.of_nat (length items)) ->
     holds_elements o items ->
     (20 < Z.of_nat (length items) ->
      inspect_one name o mi mnl
      = Ok [("name", RStr name); ("type", RStr (cls_name o));
            ("length", RInt (Z.of_nat (length items)));
            ("element_types",
             RList (map RStr (map cls_name (firstn 5 items))))]) /\
     (Z.of_nat (length items) <= 20 ->
      inspect_one name o mi mnl
      = Ok [("name", RStr name); ("type", RStr (cls_name o));
            ("length", RInt (Z.of_nat (length items)));
            ("repr", RStr (_safe_repr o 200))])) /\
  inspect_one "lst" range_100 20 (Some 60)
  = Ok [("name", RStr "lst"); ("type", RStr "list"); ("length", RInt 100);
        ("element_types",
         RList [RStr "int"; RStr "int"; RStr "int"; RStr "int"; RStr "int"])].
Proof.
  split; [|reflexivity].
  intros name o items mi mnl Hc Hl He.
  rewrite inspect_one_collection by exact Hc.
  unfold inspect_collection, _safe_len. rewrite Hl. cbn [attempt].
  split; intros Hn.
  - assert (E : (20 <? Z.of_nat (length items)) = true) by (apply Z.ltb_lt; lia).
    rewrite E. unfold holds_elements in He.
    destruct (isinstance_any o [BList; BTuple]).
    + rewrite (sample_by_index o items He eq_refl Hn). reflexivity.
    + rewrite (sample_by_iteration o He Hn). reflexivity.
  - assert (E : (20 <? Z.of_nat (length items)) = false) by (apply Z.ltb_ge; lia).
    rewrite E. reflexivity.
Qed.

Lemma mk_list_holds_elements (items : list pyobj) (i : nat) (x : pyobj) :
  nth_error items i = Some x ->
  assoc_prim (PInt (Z.of_nat i)) (seq_index items) = Some (Ok x).
Proof.
  unfold seq_index. generalize (length items) at 3 as n.
  intros n. generalize (fun i => PInt (Z.of_nat i - Z.of_nat n)) as g. intros g.
  cut (forall (l : list pyobj) (k j : nat) (y : pyobj) (tl : list (prim * outcome pyobj)),
         nth_error l j = Some y ->
         assoc_prim (PInt (Z.of_nat (k + j)))
           (combine (map (fun i => PInt (Z.of_nat i)) (seq k (length l))) (map Ok l) ++ tl)
         = Some (Ok y)).
  { intros C H. exact (C items 0%nat i x _ H). }
  induction l as [|a l IH]; intros k j y tl H.
  - destruct j; discriminate H.
  - destruct j as [|j]; simpl in *.
    + injection H as ->. rewrite Nat.add_0_r, Z.eqb_refl. reflexivity.
    + assert (E : (Z.of_nat (k + S j) =? Z.of_nat k) = false)
        by (apply Z.eqb_neq; lia).
      rewrite E. replace (k + S j)%nat with (S k + j)%nat by lia.
      now apply IH.
Qed.

(** Every built-in list reaches step 10 and holds its elements. *)
Lemma mk_list_is_honest (items : list pyobj) :
  Z.of_nat (length items) <= sys_maxsize ->
  is_collection (mk_list items) /\
  py_len (mk_list items) = Ok (Z.of_nat (length items)) /\
  holds_elements (mk_list items) items.
Proof.
  intros Hmax. split; [|split].
  - split; [reflexivity | split; reflexivity].
  - unfold py_len. cbn [dunder_len mk_list mk_seq].
    assert (E1 : (Z.of_nat (length items) <? 0) = false) by (apply Z.ltb_ge; lia).
    assert (E2 : (sys_maxsize <? Z.of_nat (length items)) = false)
      by (apply Z.ltb_ge; lia).
    now rewrite E1, E2.
  - intros i x H. unfold py_getitem.
    cbn [payload mk_int dunder_getitem mk_list mk_seq].
    now rewrite (mk_list_holds_elements _ _ H).
Qed.

Lemma collection_record_witness :
  inspect_one "lst" range_100 20 (Some 60)
  = Ok [("name", RStr "lst"); ("type", RStr (cls_name range_100));
        ("length", RInt (Z.of_nat (length (map mk_int (py_range 100)))));
        ("element_types",
         RList (map RStr (map cls_name (firstn 5 (map mk_int (py_range 100))))))].
Proof.
  destruct (@mk_list_is_honest (map mk_int (py_range 100))) as (Hc & Hl & He).
  - vm_compute. discriminate.
  - exact (proj1 (proj1 collection_record "lst" range_100
                    (map mk_int (py_range 100)) 20 (Some 60) Hc Hl He)
             ltac:(vm_compute; reflexivity)).
Defined.

(** ** C10: a negative [__len__] *)

Lemma generic_without_length (name : string) (o : pyobj) (rec : record) :
  _safe_len o = None ->
  _inspect_generic name o = Ok rec -> rget "length" rec = None.
Proof.
  intros Hl H. unfold _inspect_generic in H. rewrite Hl in H.
  apply keys_within_rget with (A := ["name"; "type"; "shape"; "dtype"; "repr"]);
    [|reflexivity].
  ok_inv; keys_tac.
Qed.

Lemma collection_length_none (name : string) (o : pyobj) (rec : record) :
  _safe_len o = None ->
  inspect_collection name o = Ok rec -> rget "length" rec = Some RNone.
Proof.
  intros Hl H. unfold inspect_collection in H. rewrite Hl in H.
  ok_inv. reflexivity.
Qed.

Lemma library_record_without_length (name : string) (o : pyobj) (mi : Z)
    (mnl : option Z) (rec : record) :
  matched_before_dict o = true ->
  inspect_one name o mi mnl = Ok rec -> rget "length" rec = None.
Proof.
  intros Hm H.
  apply keys_within_rget with (A := library_keys); [|reflexivity].
  exact (library_record_keys name o mi mnl Hm H).
Qed.

(** C10, as the code has it.  When [__len__] returns a negative integer,
    [len] fails and [_safe_len] gives [None]; no record then carries an
    integer [length].  The dict step and the list/tuple/set step still
    write the key, as [length: None]; every other step leaves it out. *)
Theorem negative_len_is_none (o : pyobj) (z : Z) :
  dunder_len o = Some (Ok z) -> z < 0 ->
  _safe_len o = None /\
  forall (name : string) (mi : Z) (mnl : option Z) (rec : record),
    inspect_one name o mi mnl = Ok rec ->
    (forall n, rget "length" rec <> Some (RInt n)) /\
    rget "length" rec =
      if matched_before_dict o then None
      else if isinstance o BDict
              || isinstance_any o [BList; BTuple; BSet; BFrozenset]
           then Some RNone
      else None.
Proof.
  intros Hd Hz.
  assert (Hl : _safe_len o = None).
  { unfold _safe_len, py_len. rewrite Hd.
    assert (E : (z <? 0) = true) by (apply Z.ltb_lt; lia).
    rewrite E. reflexivity. }
  split; [exact Hl|]. intros name mi mnl rec H.
  assert (Hr : rget "length" rec =
               if matched_before_dict o then None
               else if isinstance o BDict
                       || isinstance_any o [BList; BTuple; BSet; BFrozenset]
                    then Some RNone
               else None).
  { destruct (matched_before_dict o) eqn:Hm.
    - now apply library_record_without_length in H.
    - rewrite inspect_one_past_libraries in H by exact Hm.
      destruct (isinstance o BDict).
      + apply inspect_dict_fields in H as [H _]. now rewrite Hl in H.
      + destruct (isinstance_any o [BList; BTuple; BSet; BFrozenset]).
        * now apply collection_length_none in H.
        * cbn [orb].
          destruct (callable o
                    && isinstance_any o [BFunctionType; BBuiltinFunctionType; BType]).
          -- ok_inv. reflexivity.
          -- now apply generic_without_length in H. }
  split; [|exact Hr].
  intros n. rewrite Hr.
  destruct (matched_before_dict o); [discriminate|].
  destruct (isinstance o BDict || isinstance_any o [BList; BTuple; BSet; BFrozenset]);
    discriminate.
Qed.

Lemma negative_len_is_none_witness :
  _safe_len negative_len_obj = None /\
  forall (name : string) (mi : Z) (mnl : option Z) (rec : record),
    inspect_one name negative_len_obj mi mnl = Ok rec ->
    (forall n, rget "length" rec <> Some (RInt n)) /\
    rget "length" rec = None.
Proof.
  apply (@negative_len_is_none negative_len_obj (-1)).
  - reflexivity.
  - lia.
Defined.

(** C10 as stated fails: a list subclass whose [__len__] returns -1 is
    described with a [length] field, holding [None]. *)
Lemma negative_len_list_has_length :
  dunder_len negative_len_list = Some (Ok (-1)) /\
  inspect_one "x" negative_len_list 20 (Some 60)
  = Ok [("name", RStr "x"); ("type", RStr "L"); ("length", RNone);
        ("repr", RStr "[]")] /\
  forall rec, inspect_one "x" negative_len_list 20 (Some 60) = Ok rec ->
              has_key "length" rec = true.
Proof.
  split; [reflexivity|]. split; [reflexivity|].
  intros rec H. vm_compute in H. injection H as <-. reflexivity.
Qed.

(** ** C9: the namespace listing *)

Lemma collect_entries_filter (ns : list (string * pyobj))
    (fn : option string) (ip : bool) :
  collect_entries ns fn ip = filter (keeps fn ip) ns.
Proof.
  induction ns as [|[vname obj] ns IH]; [reflexivity|].
  cbn [collect_entries filter]. rewrite IH.
  assert (K : keeps fn ip (vname, obj) =
              negb (String.prefix "_" vname && negb ip)
              && negb (existsb (String.eqb vname) _ALWAYS_SKIP)
              && negb (isinstance obj BModuleType)
              && negb match fn with
                      | Some f => negb (String.eqb f "")
                                  && negb (contains (lower f) (lower vname))
                      | None => false
                      end) by reflexivity.
  rewrite K.
  destruct (String.prefix "_" vname && negb ip); [reflexivity|].
  destruct (existsb (String.eqb vname) _ALWAYS_SKIP); [reflexivity|].
  destruct (isinstance obj BModuleType); [reflexivity|].
  destruct fn as [f|]; [|reflexivity].
  destruct (negb (String.eqb f "") && negb (contains (lower f) (lower vname)));
    reflexivity.
Qed.

Lemma contains_empty (s : string) : contains "" s = true.
Proof.
  destruct s; reflexivity.
Qed.

Lemma keeps_admissible (fn : option string) (ip : bool) (e : string * pyobj) :
  keeps fn ip e = true -> admissible fn ip e.
Proof.
  unfold keeps, admissible. intros H.
  repeat (apply andb_true_iff in H as [H ?]).
  repeat split.
  - intros Hp. rewrite Hp in H. destruct ip; [reflexivity | discriminate H].
  - intros Hin.
    assert (E : existsb (String.eqb (fst e)) _ALWAYS_SKIP = true).
    { apply existsb_exists. exists (fst e). split; [exact Hin | apply String.eqb_refl]. }
    rewrite E in *. discriminate.
  - now apply negb_true_iff.
  - intros f ->.
    destruct (String.eqb f "") eqn:Ef.
    + apply String.eqb_eq in Ef; subst f. apply contains_empty.
    + destruct (contains (lower f) (lower (fst e))); [reflexivity | discriminate].
Qed.

Lemma in_firstn {A} (n : nat) (l : list A) (x : A) :
  In x (firstn n l) -> In x l.
Proof.
  intros H. rewrite <- (firstn_skipn n l). apply in_or_app. now left.
Qed.

Lemma mapM_Forall2 {A B} (f : A -> outcome B) (l : list A) (out : list B) :
  mapM f l = Ok out -> Forall2 (fun a b => f a = Ok b) l out.
Proof.
  revert out; induction l as [|a l IH]; intros out H; cbn [mapM] in H.
  - injection H as <-. constructor.
  - ok_inv. constructor; [assumption | now apply IH].
Qed.

(** C9, as the code has it.  With [max_variables >= 0], the listed bindings
    are the first [max_variables] bindings of the namespace, in its order,
    that pass the filters: none starts with an underscore unless
    [include_private], none is in the deny-list, none is a module, each
    contains [filter_name] case-insensitively when it is set; there are at
    most [max_variables] of them; the result has one entry for each, in the
    same order; and the basic mode always returns. *)
Theorem listing_filters_and_caps (fs : record -> outcome string)
    (ns : list (string * pyobj)) (detail : string) (max_variables mi : Z)
    (mnl : option Z) (fn : option string) (ip : bool) :
  0 <= max_variables ->
  let es := firstn (Z.to_nat max_variables) (filter (keeps fn ip) ns) in
  Forall (admissible fn ip) es /\
  Z.of_nat (length es) <= max_variables /\
  (forall out,
     list_user_variables fs ns detail max_variables mi mnl fn ip = Ok out ->
     Forall2 (renders fs detail mi mnl) es out) /\
  (String.eqb detail "schema" = false -> String.eqb detail "full" = false ->
   exists out, list_user_variables fs ns detail max_variables mi mnl fn ip = Ok out).
Proof.
  intros Hmv es.
  assert (Hsel : list_slice_to (collect_entries ns fn ip) max_variables = es).
  { rewrite collect_entries_filter. unfold list_slice_to, es.
    assert (E : (max_variables <? 0) = false) by (apply Z.ltb_ge; lia).
    rewrite E.
    destruct (Z.min_spec max_variables
                (Z.of_nat (length (filter (keeps fn ip) ns)))) as [[_ ->]|[Hge ->]];
      [reflexivity|].
    rewrite Nat2Z.id, firstn_all. symmetry. apply firstn_all2. lia. }
  split; [|split; [|split]].
  - apply Forall_forall. intros e Hin. apply keeps_admissible.
    apply in_firstn in Hin. now apply filter_In in Hin.
  - unfold es. rewrite length_firstn. lia.
  - intros out H. unfold list_user_variables in H. rewrite Hsel in H.
    unfold renders. destruct (String.eqb detail "schema").
    + apply mapM_Forall2 in H.
      eapply Forall2_impl; [|exact H]. cbv beta. intros e o Ho.
      ok_inv. now eexists.
    + destruct (String.eqb detail "full").
      * apply mapM_Forall2 in H.
        eapply Forall2_impl; [|exact H]. cbv beta. intros e o Ho.
        ok_inv. now eexists.
      * injection H as <-. clear Hsel. induction es; constructor; auto.
  - intros H1 H2. unfold list_user_variables. rewrite H1, H2. eexists. reflexivity.
Qed.

Lemma listing_filters_and_caps_witness :
  Forall (admissible (Some "DATA") false) [("Data", mk_list [mk_int 1; mk_int 2])] /\
  exists out,
    list_user_variables (fun _ => Raise) sample_ns "basic" 1 20 (Some 60)
      (Some "DATA") false = Ok out.
Proof.
  destruct (@listing_filters_and_caps (fun _ => Raise) sample_ns "basic" 1 20
              (Some 60) (Some "DATA") false ltac:(lia)) as (H1 & _ & _ & H4).
  split; [exact H1 | apply H4; reflexivity].
Defined.

Example sample_listing :
  list_user_variables (fun _ => Raise) sample_ns "basic" 50 20 (Some 60) None false
  = Ok [ERecord [("name", RStr "x"); ("type", RStr "int"); ("repr", RStr "1")];
        ERecord [("name", RStr "Data"); ("type", RStr "list");
                 ("repr", RStr "[1, 2]")];
        ERecord [("name", RStr "y"); ("type", RStr "int"); ("repr", RStr "2")];
        ERecord [("name", RStr "metadata"); ("type", RStr "str");
                 ("repr", RStr "'m'")]].
Proof. reflexivity. Qed.

(** The filter folds Latin-1 capitals as [str.lower] does: the filter U+00C9
    (E with acute accent) lists the name that starts with U+00E9, its
    lowercase form. *)
Example latin1_filter_listing :
  list_user_variables (fun _ => Raise)
    [(String (ascii_of_nat 233) "data", mk_int 1); ("other", mk_int 2)]
    "basic" 50 20 (Some 60) (Some (String (ascii_of_nat 201) "")) false
  = Ok [ERecord [("name", RStr (String (ascii_of_nat 233) "data"));
                 ("type", RStr "int"); ("repr", RStr "1")]].
Proof. vm_compute. reflexivity. Qed.

(** C9 as stated fails for a negative [max_variables]: [entries[:-1]] drops
    the last binding only, so three bindings give two entries, more than -1. *)
Lemma negative_cap_keeps_entries :
  exists out,
    list_user_variables (fun _ => Raise)
      [("a", mk_int 1); ("b", mk_int 2); ("c", mk_int 3)]
      "basic" (-1) 20 (Some 60) None false = Ok out /\
    length out = 2%nat /\ ~ Z.of_nat (length out) <= -1.
Proof.
  eexists. split; [reflexivity|]. split; [reflexivity|].
  cbn [length]. lia.
Qed.

(** ** C1: inputs on which [inspect_one] raises *)

(** C1 does not hold of the code: [_inspect_dict] calls [obj.keys()] and
    [str(key)] outside any handler, so [inspect_one] raises on a dict with
    a key that cannot be rendered and on a dict whose [keys()] raises. *)
Theorem inspect_one_raises_on_dicts :
  inspect_one "d" bad_key_dict 20 (Some 60) = Raise /\
  inspect_one "d" broken_keys_dict 20 (Some 60) = Raise.
Proof.
  split; reflexivity.
Qed.

(** ** C2: truncation markers *)

(** C2 does not hold of the code: with [max_items = 2] the DataTree record
    lists two of the three data variables and has no [data_vars_truncated];
    the Dataset inspector, on the same variables, does report 3. *)
Theorem datatree_omits_data_vars_truncated :
  py_len three_data_vars = Ok 3 /\
  inspect_one "dt" wide_datatree 2 (Some 60)
  = Ok [("name", RStr "dt"); ("type", RStr "xarray.DataTree");
        ("data_vars",
         RList [RDict [("name", RStr "a"); ("dtype", RStr "float64")];
                RDict [("name", RStr "b"); ("dtype", RStr "float64")]]);
        ("dims", RMap [(RStr "x", RInt 3)]); ("total_nodes", RInt 1)] /\
  inspect_one "ds" wide_dataset 2 (Some 60)
  = Ok [("name", RStr "ds"); ("type", RStr "xarray.Dataset");
        ("dims", RMap [(RStr "x", RInt 3)]);
        ("data_vars",
         RList [RDict [("name", RStr "a"); ("dtype", RStr "float64")];
                RDict [("name", RStr "b"); ("dtype", RStr "float64")]]);
        ("data_vars_truncated", RInt 3); ("coords", RList [])].
Proof.
  split; [reflexivity | split; reflexivity].
Qed.

(** ** What every record holds *)

(** [inspect_one] is one of its fourteen steps. *)
Lemma inspect_one_cases (name : string) (o : pyobj) (mi : Z) (mnl : option Z)
    (P : outcome record -> Prop) :
  P (Ok [("name", RStr name); ("type", RStr (cls_name o));
         ("value", RStr (_safe_repr o 200))]) ->
  P (_inspect_pandas_dataframe name o mi mnl) ->
  P (_inspect_pandas_series name o) ->
  P (_inspect_polars_dataframe name o mi mnl) ->
  P (Ok (_inspect_polars_lazyframe name o mi mnl)) ->
  P (_inspect_polars_series name o) ->
  P (_inspect_numpy name o) ->
  P (_inspect_xarray_dataset name o mi mnl) ->
  P (_inspect_xarray_dataarray name o) ->
  P (_inspect_xarray_datatree name o mi mnl) ->
  P (_inspect_dict name o mi mnl) ->
  P (inspect_collection name o) ->
  P (Ok [("name", RStr name); ("type", RStr (cls_name o));
         ("callable_name", reify (_safe_attr o "__name__" (mk_str "?")))]) ->
  P (_inspect_generic name o) ->
  P (inspect_one name o mi mnl).
Proof.
  intros. unfold inspect_one, _module, _type_name.
  repeat match goal with
         | |- P (if ?c then _ else _) => destruct c
         end; assumption.
Qed.

Lemma named_rset_other (n k : string) (v : rvalue) (rec : record) :
  String.eqb "name" k = false -> String.eqb "type" k = false ->
  named n rec -> named n (rset k v rec).
Proof.
  intros H1 H2 [Hn [t Ht]]. split.
  - now rewrite rget_rset_other.
  - exists t. now rewrite rget_rset_other.
Qed.

Lemma named_rset_type (n t : string) (rec : record) :
  named n rec -> named n (rset "type" (RStr t) rec).
Proof.
  intros [Hn _]. split.
  - now rewrite rget_rset_other.
  - exists t. apply rget_rset_same.
Qed.

Lemma named_rset_if (n : string) (b : bool) (k : string) (v : rvalue)
    (rec : record) :
  String.eqb "name" k = false -> String.eqb "type" k = false ->
  named n rec -> named n (rset_if b k v rec).
Proof.
  intros H1 H2 H. destruct b; simpl; [now apply named_rset_other | exact H].
Qed.

Lemma named_rset_try (n k : string) (m : outcome rvalue) (rec : record) :
  String.eqb "name" k = false -> String.eqb "type" k = false ->
  named n rec -> named n (rset_try k m rec).
Proof.
  intros H1 H2 H. destruct m; simpl; [now apply named_rset_other | exact H].
Qed.

Ltac named_tac :=
  repeat first
    [ assumption
    | apply named_rset_other; [reflexivity | reflexivity |]
    | apply named_rset_if; [reflexivity | reflexivity |]
    | apply named_rset_try; [reflexivity | reflexivity |]
    | apply named_rset_type
    | match goal with
      | |- named _ (if ?b then _ else _) => destruct b
      | |- named _ (match ?x with _ => _ end) => destruct x
      | |- named _ (_ :: _) => split; [reflexivity | eexists; reflexivity]
      end ].

Lemma index_info_named (n : string) (idx : pyobj) (r r' : record) :
  index_info idx r = Ok r' -> named n r -> named n r'.
Proof.
  unfold index_info. intros H Hn. ok_inv; named_tac.
Qed.

Lemma series_info_named (type n : string) (o : pyobj) (rec : record) :
  series_info type n o = Ok rec -> named n rec.
Proof.
  unfold series_info. intros H. ok_inv; named_tac.
Qed.

Lemma inspect_one_named (name : string) (o : pyobj) (mi : Z)
    (mnl : option Z) (rec : record) :
  inspect_one name o mi mnl = Ok rec -> named name rec.
Proof.
  revert rec. apply inspect_one_cases; intros rec H.
  - ok_inv. named_tac.
  - unfold _inspect_pandas_dataframe in H. ok_inv.
    apply named_rset_try; [reflexivity | reflexivity |].
    eapply index_info_named; [eassumption|]. named_tac.
  - unfold _inspect_pandas_series in H. ok_inv.
    apply named_rset_try; [reflexivity | reflexivity |].
    eapply series_info_named; eassumption.
  - unfold _inspect_polars_dataframe in H. ok_inv. named_tac.
  - ok_inv. unfold _inspect_polars_lazyframe.
    match goal with |- named _ (try_except ?m _) => destruct m as [r|] eqn:E end;
      simpl try_except; [ok_inv|]; named_tac.
  - eapply series_info_named; eassumption.
  - unfold _inspect_numpy in H. ok_inv. named_tac.
  - unfold _inspect_xarray_dataset in H. ok_inv; named_tac.
  - unfold _inspect_xarray_dataarray in H. ok_inv; named_tac.
  - unfold _inspect_xarray_datatree in H. ok_inv; named_tac.
  - unfold _inspect_dict in H. ok_inv. named_tac.
  - unfold inspect_collection in H. ok_inv; named_tac.
  - ok_inv. named_tac.
  - unfold _inspect_generic in H. ok_inv; named_tac.
Qed.

(** X1.  Whenever [inspect_one] returns, the record carries the given name
    under [name] and a text under [type]. *)
Theorem record_has_name_and_type (name : string) (o : pyobj) (mi : Z)
    (mnl : option Z) (rec : record) :
  inspect_one name o mi mnl = Ok rec ->
  rget "name" rec = Some (RStr name) /\
  exists t, rget "type" rec = Some (RStr t).
Proof.
  apply inspect_one_named.
Qed.

Lemma record_has_name_and_type_witness : named "d"
  [("name", RStr "d"); ("type", RStr "dict"); ("length", RInt 3);
   ("keys", RList [RStr "a"; RStr "b"; RStr "c"]);
   ("values_preview",
    RDict [("a", RStr "int: 1"); ("b", RStr "str: 'hi'");
           ("c", RStr "list: [1, 2, 3]")])].
Proof.
  apply (@record_has_name_and_type "d" abc_dict 20 (Some 60)). reflexivity.
Defined.

(** ** Bounded fields *)

Lemma islice_bound (o : pyobj) (n : Z) (l : list pyobj) :
  islice o n = Ok l -> 0 <= n /\ Z.of_nat (length l) <= n.
Proof.
  unfold islice. intros H.
  destruct ((n <? 0) || (sys_maxsize <? n)) eqn:E; [discriminate|].
  apply orb_false_iff in E as [E _]. apply Z.ltb_ge in E.
  destruct (dunder_iter o) as [[items fails]|]; [|discriminate].
  destruct (n <=? Z.of_nat (length items)) eqn:El.
  - injection H as <-. rewrite length_firstn. apply Z.leb_le in El. lia.
  - apply Z.leb_gt in El. destruct fails; [discriminate|].
    injection H as <-. lia.
Qed.

Lemma mapM_length {A B} (f : A -> outcome B) (l : list A) (l' : list B) :
  mapM f l = Ok l' -> length l' = length l.
Proof.
  revert l'; induction l as [|a l IH]; intros l' H; cbn [mapM] in H.
  - now injection H as <-.
  - ok_inv. cbn [length]. f_equal. now apply IH.
Qed.

Lemma lazy_columns_length (schema : pyobj) (mnl : option Z) (names : list pyobj) :
  (length (lazy_columns schema mnl names) <= length names)%nat.
Proof.
  induction names as [|n names IH]; cbn [lazy_columns length]; [lia|].
  match goal with |- context [match ?m with Ok _ => _ | Raise => _ end] =>
    destruct m end; cbn [length]; lia.
Qed.

Lemma map_set_length (k v : pyobj) (d : list (pyobj * pyobj)) :
  (length (map_set k v d) <= S (length d))%nat.
Proof.
  induction d as [|[k' v'] d IH]; cbn [map_set length]; [lia|].
  destruct (prim_eqb (payload k) (payload k')); cbn [length]; lia.
Qed.

Lemma dict_of_pairs_length (pairs : list pyobj) (acc d : list (pyobj * pyobj)) :
  dict_of_pairs pairs acc = Ok d ->
  (length d <= length pairs + length acc)%nat.
Proof.
  revert acc; induction pairs as [|p pairs IH]; intros acc H;
    cbn [dict_of_pairs] in H.
  - injection H as <-. cbn [length]. lia.
  - ok_inv. match goal with H : dict_of_pairs _ _ = Ok _ |- _ => apply IH in H;
      pose proof (map_set_length p0 p1 acc) end. cbn [length]. lia.
Qed.

Lemma value_capped_other (mi : Z) (k : string) (v : rvalue) :
  existsb (String.eqb k) bounded_keys = false -> value_capped mi k v.
Proof.
  intros H H'. congruence.
Qed.

Lemma dims_of_sizes_capped (sizes : pyobj) (mi : Z) (v : rvalue) :
  dims_of_sizes sizes mi = Ok v -> value_capped mi "dims" v.
Proof.
  unfold dims_of_sizes. intros H _. ok_inv.
  match goal with H : islice _ _ = Ok _ |- _ => apply islice_bound in H end.
  match goal with H : dict_of_pairs _ _ = Ok _ |- _ =>
    apply dict_of_pairs_length in H; cbn [length] in H end.
  eexists. split; [reflexivity|]. rewrite length_map. lia.
Qed.

Lemma data_var_list_capped (dv : pyobj) (mi : Z) (mnl : option Z) (v : rvalue) :
  data_var_list dv mi mnl = Ok v -> value_capped mi "data_vars" v.
Proof.
  unfold data_var_list. intros H _. ok_inv.
  match goal with H : islice _ _ = Ok _ |- _ => apply islice_bound in H end.
  match goal with H : mapM _ _ = Ok _ |- _ => apply mapM_length in H end.
  eexists. split; [reflexivity|]. lia.
Qed.

Lemma capped_nil (mi : Z) : capped mi [].
Proof.
  intros k v H. discriminate H.
Qed.

Lemma capped_cons (mi : Z) (k : string) (v : rvalue) (rec : record) :
  value_capped mi k v -> capped mi rec -> capped mi ((k, v) :: rec).
Proof.
  intros Hv Hr k' v' H. unfold rget in H. cbn [assoc] in H.
  destruct (String.eqb k' k) eqn:E.
  - apply String.eqb_eq in E; subst k'. now injection H as <-.
  - now apply Hr.
Qed.

Lemma capped_rset (mi : Z) (k : string) (v : rvalue) (rec : record) :
  value_capped mi k v -> capped mi rec -> capped mi (rset k v rec).
Proof.
  intros Hv Hr k' v' H. destruct (String.eqb k' k) eqn:E.
  - apply String.eqb_eq in E; subst k'. rewrite rget_rset_same in H.
    now injection H as <-.
  - rewrite rget_rset_other in H by exact E. now apply Hr.
Qed.

Lemma capped_rset_if (mi : Z) (b : bool) (k : string) (v : rvalue) (rec : record) :
  value_capped mi k v -> capped mi rec -> capped mi (rset_if b k v rec).
Proof.
  intros Hv Hr. destruct b; simpl; [now apply capped_rset | exact Hr].
Qed.

Lemma capped_rset_try (mi : Z) (k : string) (m : outcome rvalue) (rec : record) :
  existsb (String.eqb k) bounded_keys = false ->
  capped mi rec -> capped mi (rset_try k m rec).
Proof.
  intros Hk Hr. destruct m; simpl; [|exact Hr].
  apply capped_rset; [now apply value_capped_other | exact Hr].
Qed.

(** Turn what is known of the listings into bounds on their lengths. *)
Ltac length_facts :=
  repeat match goal with
         | H : islice _ _ = Ok _ |- _ => apply islice_bound in H
         | H : mapM _ _ = Ok _ |- _ => apply mapM_length in H
         end.

Ltac value_tac :=
  first
    [ apply value_capped_other; reflexivity
    | eapply dims_of_sizes_capped; eassumption
    | eapply data_var_list_capped; eassumption
    | intros _; eexists; (split; [reflexivity|]);
      match goal with
      | |- context [lazy_columns ?s ?m ?l] =>
          pose proof (lazy_columns_length s m l)
      end; lia
    | intros _; eexists; (split; [reflexivity|]); rewrite ?length_map; lia ].

Ltac capped_tac :=
  repeat first
    [ assumption
    | apply capped_nil
    | apply capped_cons; [value_tac|]
    | apply capped_rset; [value_tac|]
    | apply capped_rset_if; [value_tac|]
    | apply capped_rset_try; [reflexivity|]
    | match goal with
      | |- capped _ (if ?b then _ else _) => destruct b
      | |- capped _ (match ?x with _ => _ end) => destruct x
      end ].

Lemma index_info_capped (mi : Z) (idx : pyobj) (r r' : record) :
  index_info idx r = Ok r' -> capped mi r -> capped mi r'.
Proof.
  unfold index_info. intros H Hr. ok_inv; capped_tac.
Qed.

Lemma series_info_capped (mi : Z) (type n : string) (o : pyobj) (rec : record) :
  series_info type n o = Ok rec -> capped mi rec.
Proof.
  unfold series_info. intros H. ok_inv; capped_tac.
Qed.

Lemma inspect_one_cases_strict (name : string) (o : pyobj) (mi : Z)
    (mnl : option Z) (P : outcome record -> Prop) :
  P (Ok [("name", RStr name); ("type", RStr (cls_name o));
         ("value", RStr (_safe_repr o 200))]) ->
  P (_inspect_pandas_dataframe name o mi mnl) ->
  P (_inspect_pandas_series name o) ->
  P (_inspect_polars_dataframe name o mi mnl) ->
  P (Ok (_inspect_polars_lazyframe name o mi mnl)) ->
  P (_inspect_polars_series name o) ->
  P (_inspect_numpy name o) ->
  P (_inspect_xarray_dataset name o mi mnl) ->
  (is_dataarray o -> P (_inspect_xarray_dataarray name o)) ->
  P (_inspect_xarray_datatree name o mi mnl) ->
  P (_inspect_dict name o mi mnl) ->
  P (inspect_collection name o) ->
  P (Ok [("name", RStr name); ("type", RStr (cls_name o));
         ("callable_name", reify (_safe_attr o "__name__" (mk_str "?")))]) ->
  P (_inspect_generic name o) ->
  P (inspect_one name o mi mnl).
Proof.
  intros H1 H2 H3 H4 H5 H6 H7 H8 Hda H10 H11 H12 H13 H14.
  unfold inspect_one, _module, _type_name.
  repeat match goal with
         | |- P (if ?c then _ else _) => destruct c eqn:?
         end; try assumption.
  apply Hda.
  match goal with
  | H : String.prefix "xarray" _ && String.eqb _ "DataArray" = true |- _ =>
      apply andb_prop in H as [Hp Hc]; apply String.eqb_eq in Hc
  end.
  split; [assumption | split; assumption].
Qed.

Lemma dataarray_fields (name : string) (o : pyobj) (rec : record) :
  _inspect_xarray_dataarray name o = Ok rec ->
  keys_within ["name"; "type"; "dims"; "dtype"] rec = true.
Proof.
  unfold _inspect_xarray_dataarray. intros H. ok_inv; keys_tac.
Qed.

Lemma inspect_one_capped (name : string) (o : pyobj) (mi : Z)
    (mnl : option Z) (rec : record) :
  inspect_one name o mi mnl = Ok rec ->
  forall k v, ~ (k = "dims" /\ is_dataarray o) ->
    rget k rec = Some v -> value_capped mi k v.
Proof.
  revert rec.
  apply inspect_one_cases_strict;
    [ | | | | | | | | intros Hda rec H k v Hn Hr Hb | | | | | ];
    try (intros rec H k v _; revert k v; change (capped mi rec)).
  - ok_inv. capped_tac.
  - unfold _inspect_pandas_dataframe in H. ok_inv. length_facts.
    apply capped_rset_try; [reflexivity|].
    eapply index_info_capped; [eassumption|]. capped_tac.
  - unfold _inspect_pandas_series in H. ok_inv.
    apply capped_rset_try; [reflexivity|].
    eapply series_info_capped; eassumption.
  - unfold _inspect_polars_dataframe in H. ok_inv. length_facts. capped_tac.
  - ok_inv. unfold _inspect_polars_lazyframe.
    match goal with |- capped _ (try_except ?m _) => destruct m as [r|] eqn:E end;
      simpl try_except; [ok_inv; length_facts|]; capped_tac.
  - eapply series_info_capped; eassumption.
  - unfold _inspect_numpy in H. ok_inv. capped_tac.
  - unfold _inspect_xarray_dataset in H. ok_inv; length_facts; capped_tac.
  - exfalso. apply dataarray_fields in H.
    assert (Hk : forall k', k = k' ->
              existsb (String.eqb k') ["name"; "type"; "dims"; "dtype"] = false ->
              False).
    { intros k' -> E.
      rewrite (keys_within_rget ["name"; "type"; "dims"; "dtype"] k' rec H E)
        in Hr. discriminate Hr. }
    unfold bounded_keys in Hb. cbn [existsb] in Hb.
    repeat match type of Hb with
           | (String.eqb k ?s || _)%bool = true =>
               destruct (String.eqb k s) eqn:?; [|cbn [orb] in Hb]
           end; try discriminate Hb;
      match goal with
      | E : String.eqb k _ = true |- _ => apply String.eqb_eq in E
      end;
      first [ apply Hn; split; assumption
            | eapply Hk; [eassumption | reflexivity] ].
  - unfold _inspect_xarray_datatree in H. ok_inv; length_facts; capped_tac.
  - unfold _inspect_dict in H. ok_inv. length_facts. capped_tac.
  - unfold inspect_collection in H. ok_inv; capped_tac.
  - ok_inv. capped_tac.
  - unfold _inspect_generic in H. ok_inv; capped_tac.
Qed.

(** X2.  Whenever [inspect_one] returns, what it stores under [columns],
    [keys], [children], [data_vars] and [coords] is a list or dict of at
    most [max_items] entries, and so is what it stores under [dims], except
    on a DataArray: [_inspect_xarray_dataarray] takes no [max_items] and
    stores every dimension. *)
Theorem bounded_fields_within_max_items (name : string) (o : pyobj) (mi : Z)
    (mnl : option Z) (rec : record) :
  inspect_one name o mi mnl = Ok rec ->
  forall k v, In k bounded_keys -> ~ (k = "dims" /\ is_dataarray o) ->
    rget k rec = Some v ->
    exists n, entries v = Some n /\ n <= mi.
Proof.
  intros H k v Hk Hn Hr.
  eapply inspect_one_capped; [exact H | exact Hn | exact Hr |].
  apply existsb_exists. exists k. split; [exact Hk | apply String.eqb_refl].
Qed.

(** The exception is real: with [max_items = 1] the two dimensions of a
    DataArray are both stored. *)
Example dataarray_dims_are_not_capped :
  exists rec d,
    inspect_one "da" small_dataarray 1 (Some 60) = Ok rec /\
    rget "dims" rec = Some (RDict d) /\ length d = 2%nat.
Proof.
  eexists. eexists. split; [reflexivity|]. split; reflexivity.
Qed.

Lemma bounded_fields_within_max_items_witness :
  exists n, entries (RList [RStr "a"; RStr "b"]) = Some n /\ n <= 2.
Proof.
  refine (@bounded_fields_within_max_items "d" abc_dict 2 (Some 60) _ _
            "keys" (RList [RStr "a"; RStr "b"]) _ _ _).
  - reflexivity.
  - simpl. tauto.
  - intros [E _]. discriminate E.
  - reflexivity.
Defined.

(** ** The generic fallback *)


Lemma inspect_one_generic (name : string) (o : pyobj) (mi : Z) (mnl : option Z) :
  reaches_generic o -> inspect_one name o mi mnl = _inspect_generic name o.
Proof.
  intros (Hm & Hd & Hc & Hf). rewrite inspect_one_past_libraries by exact Hm.
  now rewrite Hd, Hc, Hf.
Qed.


Lemma known_prefix_unique (p q m : string) :
  In p known_prefixes -> In q known_prefixes ->
  String.prefix p m = true -> String.prefix q m = true -> p = q.
Proof.
  intros Hp Hq H1 H2. apply prefix_correct in H1. apply prefix_correct in H2.
  destruct m as [|a [|b m]];
    unfold known_prefixes in Hp, Hq; cbn [In] in Hp, Hq;
    repeat match goal with
           | H : _ \/ _ |- _ => destruct H
           | H : False |- _ => destruct H
           end; subst; try reflexivity;
    cbn [String.length substring] in H1, H2; congruence.
Qed.

(** X4.  The type label of the generic fallback is the class name,
    qualified by the known library prefix (pandas, polars, numpy, xarray,
    scipy, sklearn, torch) the class's module starts with, if any. *)
Theorem fallback_type_label (name : string) (o : pyobj) (mi : Z)
    (mnl : option Z) (rec : record) :
  reaches_generic o ->
  inspect_one name o mi mnl = Ok rec ->
  (forall p, In p known_prefixes -> String.prefix p (cls_module o) = true ->
     rget "type" rec = Some (RStr (p ++ "." ++ cls_name o))) /\
  ((forall p, In p known_prefixes -> String.prefix p (cls_module o) = false) ->
     rget "type" rec = Some (RStr (cls_name o))).
Proof.
  intros Hg H. rewrite inspect_one_generic in H by exact Hg.
  unfold _inspect_generic, _module, _type_name in H. cbv zeta in H.
  destruct (find (fun p => String.prefix p (cls_module o)) known_prefixes)
    as [p0|] eqn:Ef.
  - assert (Ht : rget "type" rec = Some (RStr (p0 ++ "." ++ cls_name o))).
    { ok_inv;
        repeat match goal with
               | |- context [match ?x with Some _ => _ | None => _ end] => destruct x
               | |- context [if ?b then _ else _] => destruct b
               end; rget_tac. }
    rewrite Ht. apply find_some in Ef as [Hin Hp0]. split.
    + intros p Hp Hpre.
      assert (p = p0) by (eapply known_prefix_unique; eassumption).
      now subst p.
    + intros Hnone. rewrite (Hnone p0 Hin) in Hp0. discriminate.
  - assert (Ht : rget "type" rec = Some (RStr (cls_name o))).
    { ok_inv;
        repeat match goal with
               | |- context [match ?x with Some _ => _ | None => _ end] => destruct x
               | |- context [if ?b then _ else _] => destruct b
               end; rget_tac. }
    rewrite Ht. split; [|reflexivity].
    intros p Hp Hpre. rewrite (find_none _ _ Ef p Hp) in Hpre. discriminate.
Qed.


Lemma fallback_type_label_witness :
  rget "type" [("name", RStr "m"); ("type", RStr "sklearn.LinearRegression");
               ("repr", RStr "LinearRegression()")]
  = Some (RStr ("sklearn" ++ "." ++ cls_name sklearn_model)).
Proof.
  refine (proj1 (@fallback_type_label "m" sklearn_model 20 (Some 60) _ _ _)
            "sklearn" _ _).
  - split; [reflexivity | split; [reflexivity | split; reflexivity]].
  - reflexivity.
  - simpl. tauto.
  - reflexivity.
Defined.

(** ** Plain dicts *)

Lemma islice_honest (o : pyobj) (items : list pyobj) (n : Z) :
  dunder_iter o = Some (items, false) -> 0 <= n <= sys_maxsize ->
  islice o n = Ok (firstn (Z.to_nat n) items).
Proof.
  intros Hi Hn. unfold islice. rewrite Hi.
  assert (E : (n <? 0) || (sys_maxsize <? n) = false).
  { apply orb_false_iff. split; apply Z.ltb_ge; lia. }
  rewrite E. destruct (n <=? Z.of_nat (length items)) eqn:El; [reflexivity|].
  apply Z.leb_gt in El. rewrite firstn_all2 by lia. reflexivity.
Qed.

Lemma truncate_name_text (s : string) (mnl : option Z) :
  _truncate_name (mk_str s) mnl = Ok (truncate_text s mnl).
Proof.
  destruct mnl; reflexivity.
Qed.

Lemma mapM_pure {A B} (f : A -> outcome B) (g : A -> B) (l : list A) :
  (forall a, In a l -> f a = Ok (g a)) -> mapM f l = Ok (map g l).
Proof.
  induction l as [|a l IH]; intros H; cbn [mapM map]; [reflexivity|].
  rewrite (H a (or_introl eq_refl)). cbn [bind].
  rewrite IH by (intros b Hb; apply H; now right). reflexivity.
Qed.

Lemma plain_dict_inspect (name : string) (items : list (string * pyobj))
    (mi : Z) (mnl : option Z) :
  0 <= mi <= sys_maxsize ->
  Z.of_nat (length items) <= sys_maxsize ->
  exists preview,
    inspect_one name (str_keyed_dict items) mi mnl
    = Ok (let n := Z.of_nat (length items) in
          let base :=
            rset_if (mi <? n) "keys_truncated" (RInt n)
              [("name", RStr name); ("type", RStr "dict"); ("length", RInt n);
               ("keys",
                RList (map RStr (map (fun kv => truncate_text (fst kv) mnl)
                                     (firstn (Z.to_nat mi) items))))] in
          match preview with
          | [] => base
          | _ :: _ => rset "values_preview" (RDict preview) base
          end).
Proof.
  intros Hmi Hlen. set (d := str_keyed_dict items).
  set (ks := map fst (map (fun kv => (mk_str (fst kv), snd kv)) items)).
  assert (Hl : _safe_len d = Some (Z.of_nat (length items))).
  { unfold _safe_len, py_len, d, str_keyed_dict, mk_dict.
    cbn [dunder_len]. rewrite length_map.
    assert (E : (Z.of_nat (length items) <? 0)
                || (sys_maxsize <? Z.of_nat (length items)) = false).
    { apply orb_false_iff. split; apply Z.ltb_ge; lia. }
    now rewrite E. }
  assert (Hk : py_method d "keys" = Ok (mk_view "dict_keys" ks)) by reflexivity.
  assert (Hs : islice (mk_view "dict_keys" ks) mi = Ok (firstn (Z.to_nat mi) ks)).
  { apply islice_honest; [reflexivity | exact Hmi]. }
  assert (Hn : mapM (fun k => _truncate_name k mnl) (firstn (Z.to_nat mi) ks)
               = Ok (map (fun kv => truncate_text (fst kv) mnl)
                         (firstn (Z.to_nat mi) items))).
  { unfold ks. rewrite map_map. cbn [fst]. rewrite firstn_map.
    rewrite (mapM_pure (fun k => _truncate_name k mnl)
               (fun k => match payload k with
                         | PStr s => truncate_text s mnl
                         | _ => ""
                         end)).
    - rewrite map_map. reflexivity.
    - intros k Hin. apply in_map_iff in Hin as (kv & <- & _).
      apply truncate_name_text. }
  assert (E : inspect_one name d mi mnl = _inspect_dict name d mi mnl).
  { rewrite inspect_one_past_libraries by reflexivity. reflexivity. }
  exists (values_preview d (firstn (Z.to_nat mi) ks)).
  rewrite E. unfold _inspect_dict. rewrite Hl, Hk. cbn [bind].
  rewrite Hs. cbn [bind]. rewrite Hn. cbn [bind]. reflexivity.
Qed.

(** X5.  A plain dict with string keys always gets a record: [type] is
    [dict], [length] the number of items, [keys] the first [max_items] keys
    in insertion order, each truncated to the name budget, and
    [keys_truncated] is present, holding the number of items, exactly when
    there are more than [max_items] of them. *)
Theorem plain_dict_record (name : string) (items : list (string * pyobj))
    (mi : Z) (mnl : option Z) :
  0 <= mi <= sys_maxsize ->
  Z.of_nat (length items) <= sys_maxsize ->
  exists rec,
    inspect_one name (str_keyed_dict items) mi mnl = Ok rec /\
    rget "type" rec = Some (RStr "dict") /\
    rget "length" rec = Some (RInt (Z.of_nat (length items))) /\
    rget "keys" rec
    = Some (RList (map (fun kv => RStr (truncate_text (fst kv) mnl))
                       (firstn (Z.to_nat mi) items))) /\
    rget "keys_truncated" rec
    = if mi <? Z.of_nat (length items)
      then Some (RInt (Z.of_nat (length items))) else None.
Proof.
  intros Hmi Hlen.
  destruct (plain_dict_inspect name items mnl Hmi Hlen) as [preview H].
  eexists. split; [exact H|]. cbv zeta.
  destruct preview; destruct (mi <? Z.of_nat (length items));
    cbn [rset_if]; rewrite ?map_map; repeat split; rget_tac.
Qed.

Lemma plain_dict_record_witness :
  exists rec,
    inspect_one "d"
      (str_keyed_dict [("a", mk_int 1); ("b", mk_str "hi"); ("c", mk_none)])
      2 (Some 60) = Ok rec /\
    rget "type" rec = Some (RStr "dict") /\
    rget "length" rec = Some (RInt 3) /\
    rget "keys" rec = Some (RList [RStr "a"; RStr "b"]) /\
    rget "keys_truncated" rec = Some (RInt 3).
Proof.
  apply (@plain_dict_record "d"
           [("a", mk_int 1); ("b", mk_str "hi"); ("c", mk_none)] 2 (Some 60)).
  - unfold sys_maxsize. lia.
  - unfold sys_maxsize. cbn [length]. lia.
Defined.

(** ** More on the listing *)

Lemma list_slice_to_firstn {A} (l : list A) (k : Z) :
  0 <= k -> list_slice_to l k = firstn (Z.to_nat k) l.
Proof.
  intros Hk. unfold list_slice_to.
  assert (E : (k <? 0) = false) by (apply Z.ltb_ge; lia). rewrite E.
  destruct (Z.min_spec k (Z.of_nat (length l))) as [[_ ->]|[Hge ->]];
    [reflexivity|].
  rewrite Nat2Z.id, firstn_all. symmetry. apply firstn_all2. lia.
Qed.

Lemma mapM_firstn {A B} (f : A -> outcome B) (l : list A) (out : list B) (n : nat) :
  mapM f l = Ok out -> mapM f (firstn n l) = Ok (firstn n out).
Proof.
  revert out n; induction l as [|a l IH]; intros out n H; cbn [mapM] in H.
  - injection H as <-. now rewrite !firstn_nil.
  - ok_inv. destruct n as [|n]; [reflexivity|].
    cbn [firstn mapM]. rewrite E. cbn [bind].
    rewrite (IH _ n eq_refl). reflexivity.
Qed.

(** X6.  Lowering [max_variables] only drops entries from the end: if the
    listing returns with a cap [m2], then with any cap [0 <= m1 <= m2] it
    returns the first [m1] entries of that result. *)
Theorem listing_prefix_of_larger_cap (fs : record -> outcome string)
    (ns : list (string * pyobj)) (detail : string) (m1 m2 mi : Z)
    (mnl : option Z) (fn : option string) (ip : bool)
    (out : list listing_entry) :
  0 <= m1 <= m2 ->
  list_user_variables fs ns detail m2 mi mnl fn ip = Ok out ->
  list_user_variables fs ns detail m1 mi mnl fn ip
  = Ok (firstn (Z.to_nat m1) out).
Proof.
  intros Hm H. unfold list_user_variables in *.
  rewrite list_slice_to_firstn in * by lia.
  set (es := collect_entries ns fn ip) in *.
  assert (Hes : firstn (Z.to_nat m1) es
                = firstn (Z.to_nat m1) (firstn (Z.to_nat m2) es)).
  { rewrite firstn_firstn. f_equal. lia. }
  rewrite Hes.
  destruct (String.eqb detail "schema").
  - now apply mapM_firstn.
  - destruct (String.eqb detail "full").
    + now apply mapM_firstn.
    + injection H as <-. now rewrite firstn_map.
Qed.

Lemma listing_prefix_of_larger_cap_witness :
  list_user_variables (fun _ => Raise) sample_ns "basic" 1 20 (Some 60) None false
  = Ok (firstn (Z.to_nat 1)
          [ERecord [("name", RStr "x"); ("type", RStr "int"); ("repr", RStr "1")];
           ERecord [("name", RStr "Data"); ("type", RStr "list");
                    ("repr", RStr "[1, 2]")];
           ERecord [("name", RStr "y"); ("type", RStr "int"); ("repr", RStr "2")];
           ERecord [("name", RStr "metadata"); ("type", RStr "str");
                    ("repr", RStr "'m'")]]).
Proof.
  apply (@listing_prefix_of_larger_cap (fun _ => Raise) sample_ns "basic" 1 50).
  - lia.
  - reflexivity.
Defined.

Lemma lower_char_idempotent (c : ascii) : lower_char (lower_char c) = lower_char c.
Proof.
  destruct c as [[] [] [] [] [] [] [] []]; reflexivity.
Qed.

Lemma lower_idempotent (s : string) : lower (lower s) = lower s.
Proof.
  induction s as [|c s IH]; cbn [lower]; [reflexivity|].
  now rewrite lower_char_idempotent, IH.
Qed.

Lemma lower_empty (s : string) : String.eqb (lower s) "" = String.eqb s "".
Proof.
  destruct s; reflexivity.
Qed.

(** X7.  The name filter ignores the case of [filter_name]: two filters
    with the same lowercase form give the same listing. *)
Theorem listing_filter_ignores_case (fs : record -> outcome string)
    (ns : list (string * pyobj)) (detail : string) (mv mi : Z)
    (mnl : option Z) (f1 f2 : string) (ip : bool) :
  lower f1 = lower f2 ->
  list_user_variables fs ns detail mv mi mnl (Some f1) ip
  = list_user_variables fs ns detail mv mi mnl (Some f2) ip.
Proof.
  intros Hf. unfold list_user_variables.
  replace (collect_entries ns (Some f1) ip)
    with (collect_entries ns (Some f2) ip); [reflexivity|].
  assert (He : String.eqb f1 "" = String.eqb f2 "")
    by (rewrite <- (lower_empty f1), <- (lower_empty f2), Hf; reflexivity).
  induction ns as [|[vname obj] ns IH]; [reflexivity|].
  cbn [collect_entries]. rewrite IH, Hf, He. reflexivity.
Qed.

Lemma listing_filter_ignores_case_witness :
  list_user_variables (fun _ => Raise) sample_ns "basic" 50 20 (Some 60)
    (Some "DATA") false
  = list_user_variables (fun _ => Raise) sample_ns "basic" 50 20 (Some 60)
      (Some "data") false.
Proof.
  apply (@listing_filter_ignores_case (fun _ => Raise) sample_ns "basic" 50 20
           (Some 60) "DATA" "data" false).
  reflexivity.
Defined.

(** X8.  Without [include_private] the filtering loop keeps exactly the
    bindings it keeps with [include_private] whose name does not start with
    an underscore, in the same order. *)
Theorem private_names_are_the_only_difference (ns : list (string * pyobj))
    (fn : option string) :
  collect_entries ns fn false
  = filter (fun e => negb (String.prefix "_" (fst e)))
           (collect_entries ns fn true).
Proof.
  induction ns as [|[vname obj] ns IH]; [reflexivity|].
  cbn [collect_entries]. rewrite IH.
  destruct (String.prefix "_" vname) eqn:Ep; cbn [andb negb].
  - destruct (existsb (String.eqb vname) _ALWAYS_SKIP); [reflexivity|].
    destruct (isinstance obj BModuleType); [reflexivity|].
    match goal with |- context [if ?c then _ else _] => destruct c end;
      [reflexivity|]. cbn [filter fst]. now rewrite Ep.
  - destruct (existsb (String.eqb vname) _ALWAYS_SKIP); [reflexivity|].
    destruct (isinstance obj BModuleType); [reflexivity|].
    match goal with |- context [if ?c then _ else _] => destruct c end;
      [reflexivity|]. cbn [filter fst]. now rewrite Ep.
Qed.

(** ** The value preview of a dict *)

Lemma rset_length (k : string) (v : rvalue) (d : record) :
  (length (rset k v d) <= S (length d))%nat.
Proof.
  induction d as [|[k' v'] d IH]; cbn [rset length]; [lia|].
  destruct (String.eqb k k'); cbn [length]; lia.
Qed.

Lemma values_preview_length (o : pyobj) (keys : list pyobj) :
  (length (values_preview o keys) <= 5)%nat.
Proof.
  unfold values_preview.
  set (step := fun acc k => match preview_entry o k with
                            | Some (ks, text) => rset ks (RStr text) acc
                            | None => acc
                            end).
  assert (Hfold : forall l acc,
             (length (fold_left step l acc) <= length l + length acc)%nat).
  { induction l as [|k l IH]; intros acc; cbn [fold_left length]; [lia|].
    specialize (IH (step acc k)).
    assert (length (step acc k) <= S (length acc))%nat.
    { unfold step. destruct (preview_entry o k) as [[ks text]|];
        [apply rset_length | lia]. }
    lia. }
  rewrite list_slice_to_firstn by lia.
  specialize (Hfold (firstn (Z.to_nat (Z.min 5 (Z.of_nat (length keys)))) keys) []).
  rewrite length_firstn in Hfold. cbn [length] in Hfold. lia.
Qed.

Lemma keys_within_plain (A : list string) (d : record) :
  keys_within A d = true -> keys_within (A ++ ["length"; "keys"; "keys_truncated";
                                               "element_types"; "repr"]) d = true.
Proof.
  apply keys_within_weaken.
Qed.

Lemma no_preview_outside_dict (name : string) (o : pyobj) (mi : Z)
    (mnl : option Z) (rec : record) :
  isinstance o BDict = false \/ matched_before_dict o = true ->
  inspect_one name o mi mnl = Ok rec -> keys_within plain_keys rec = true.
Proof.
  intros Hd H. destruct (matched_before_dict o) eqn:Hm.
  - unfold plain_keys. apply keys_within_weaken.
    exact (library_record_keys name o mi mnl Hm H).
  - destruct Hd as [Hd | Hd]; [|discriminate Hd].
    rewrite inspect_one_past_libraries in H by exact Hm. rewrite Hd in H.
    destruct (isinstance_any o [BList; BTuple; BSet; BFrozenset]).
    + unfold inspect_collection in H. ok_inv; keys_tac.
    + destruct (callable o
                && isinstance_any o [BFunctionType; BBuiltinFunctionType; BType]).
      * ok_inv. reflexivity.
      * unfold _inspect_generic in H. ok_inv; keys_tac.
Qed.

(** X10.  Only a dict gets a [values_preview], and it is a dict of at least
    one and at most five entries. *)
Theorem values_preview_at_most_five (name : string) (o : pyobj) (mi : Z)
    (mnl : option Z) (rec : record) (v : rvalue) :
  inspect_one name o mi mnl = Ok rec ->
  rget "values_preview" rec = Some v ->
  isinstance o BDict = true /\
  exists p, v = RDict p /\ (1 <= length p <= 5)%nat.
Proof.
  intros H Hv.
  destruct (isinstance o BDict) eqn:Hd; destruct (matched_before_dict o) eqn:Hm;
    try (assert (Hnone : rget "values_preview" rec = None)
           by (apply keys_within_rget with (A := plain_keys);
               [eapply no_preview_outside_dict; [|eassumption]; auto
               | reflexivity]);
         congruence).
  split; [reflexivity|].
  rewrite inspect_one_past_libraries in H by exact Hm. rewrite Hd in H.
  unfold _inspect_dict in H. ok_inv.
  match type of Hv with
  | context [values_preview ?x ?l] =>
      pose proof (values_preview_length x l) as Hlen;
      destruct (values_preview x l) as [|e p] eqn:Ep
  end.
  - rewrite rget_rset_if_other in Hv by reflexivity. discriminate Hv.
  - rewrite rget_rset_same in Hv. injection Hv as <-.
    exists (e :: p). split; [reflexivity|]. cbn [length] in *. lia.
Qed.

Lemma values_preview_at_most_five_witness :
  isinstance abc_dict BDict = true /\
  exists p,
    RDict [("a", RStr "int: 1"); ("b", RStr "str: 'hi'");
           ("c", RStr "list: [1, 2, 3]")] = RDict p
    /\ (1 <= length p <= 5)%nat.
Proof.
  apply (@values_preview_at_most_five "d" abc_dict 20 (Some 60) _ _ eq_refl).
  reflexivity.
Defined.

(** ** Name truncation, again *)

(** X11.  With a budget of at least 3, a truncated name fits the budget,
    and truncating it again changes nothing. *)
Theorem truncate_name_idempotent (name : pyobj) (r : string) (max_len : Z) :
  3 <= max_len ->
  _truncate_name name (Some max_len) = Ok r ->
  str_len r <= max_len /\
  _truncate_name (mk_str r) (Some max_len) = Ok r.
Proof.
  intros H3 H. unfold _truncate_name in H.
  destruct (py_str name) as [s0|]; [|discriminate H].
  cbn [bind] in H. injection H as <-.
  assert (Hle : str_len (if str_len s0 <=? max_len then s0
                         else str_slice_to s0 (max_len - 3) ++ "...") <= max_len).
  { destruct (str_len s0 <=? max_len) eqn:El.
    - now apply Z.leb_le.
    - apply Z.leb_gt in El. rewrite capped_length by lia. lia. }
  split; [exact Hle|].
  unfold _truncate_name. cbn [py_str mk_str dunder_str bind].
  apply Z.leb_le in Hle. now rewrite Hle.
Qed.

Lemma truncate_name_idempotent_witness :
  str_len "ab..." <= 5 /\ _truncate_name (mk_str "ab...") (Some 5) = Ok "ab...".
Proof.
  apply (@truncate_name_idempotent (mk_str "abcdefghij") "ab..." 5).
  - lia.
  - reflexivity.
Defined.

(** ** Optional fields of the generic fallback *)

(** X12.  In the record of the generic fallback, [shape], [dtype] and
    [length] are present exactly when the probe behind them succeeds:
    [shape] when the attribute is not [None] and can be listed, [dtype]
    when the attribute is not [None], [length] when [len] works. *)
Theorem fallback_optional_fields (name : string) (o : pyobj) (mi : Z)
    (mnl : option Z) (rec : record) :
  reaches_generic o ->
  inspect_one name o mi mnl = Ok rec ->
  rget "shape" rec
  = (if is_None (_safe_attr o "shape" mk_none) then None
     else match py_iter_all (_safe_attr o "shape" mk_none) with
          | Ok l => Some (RList (map reify l))
          | Raise => None
          end) /\
  rget "dtype" rec
  = (if is_None (_safe_attr o "dtype" mk_none) then None
     else match py_str (_safe_attr o "dtype" mk_none) with
          | Ok s => Some (RStr s)
          | Raise => None
          end) /\
  rget "length" rec
  = match py_len o with
    | Ok n => Some (RInt n)
    | Raise => None
    end.
Proof.
  intros Hg H. rewrite inspect_one_generic in H by exact Hg.
  unfold _inspect_generic, _safe_len in H. cbv zeta in H.
  destruct (find (fun p => String.prefix p (_module o)) known_prefixes);
    destruct (is_None (_safe_attr o "shape" mk_none));
    destruct (py_iter_all (_safe_attr o "shape" mk_none));
    destruct (is_None (_safe_attr o "dtype" mk_none));
    destruct (py_str (_safe_attr o "dtype" mk_none));
    destruct (py_len o);
    cbn [bind attempt rset_try] in H; try discriminate H;
    injection H as <-; repeat split; rget_tac.
Qed.

Lemma fallback_optional_fields_witness :
  rget "shape" [("name", RStr "m"); ("type", RStr "numpy.MaskedArray");
                ("shape", RList [RInt 2; RInt 3]); ("dtype", RStr "float64");
                ("length", RInt 2); ("repr", RStr "masked_array(...)")]
  = Some (RList [RInt 2; RInt 3]) /\
  rget "dtype" [("name", RStr "m"); ("type", RStr "numpy.MaskedArray");
                ("shape", RList [RInt 2; RInt 3]); ("dtype", RStr "float64");
                ("length", RInt 2); ("repr", RStr "masked_array(...)")]
  = Some (RStr "float64") /\
  rget "length" [("name", RStr "m"); ("type", RStr "numpy.MaskedArray");
                 ("shape", RList [RInt 2; RInt 3]); ("dtype", RStr "float64");
                 ("length", RInt 2); ("repr", RStr "masked_array(...)")]
  = Some (RInt 2).
Proof.
  refine (@fallback_optional_fields "m" masked_array 20 (Some 60) _ _ _).
  - split; [reflexivity | split; [reflexivity | split; reflexivity]].
  - reflexivity.
Defined.

(** ** Columns of a lazy frame *)

Lemma lazy_columns_app (schema : pyobj) (mnl : option Z) (l1 l2 : list pyobj) :
  lazy_columns schema mnl (l1 ++ l2)%list
  = (lazy_columns schema mnl l1 ++ lazy_columns schema mnl l2)%list.
Proof.
  induction l1 as [|n l1 IH]; [reflexivity|].
  cbn [app lazy_columns]. rewrite IH.
  match goal with |- context [match ?m with Ok _ => _ | Raise => _ end] =>
    destruct m end; reflexivity.
Qed.

Lemma lazy_columns_bad (schema : pyobj) (mnl : option Z) (n : pyobj)
    (l : list pyobj) :
  column_fails schema n ->
  lazy_columns schema mnl (n :: l) = lazy_columns schema mnl l.
Proof.
  intros Hf. cbn [lazy_columns]. unfold _truncate_name.
  destruct Hf as [Hs | [Hg | (v & Hg & Hv)]].
  - rewrite Hs. now destruct mnl.
  - rewrite Hg. destruct mnl; destruct (py_str n); reflexivity.
  - rewrite Hg. cbn [bind]. rewrite Hv.
    destruct mnl; destruct (py_str n); reflexivity.
Qed.

(** X13.  One column that cannot be rendered does not cost a LazyFrame its
    record: the column is left out and the columns before and after it are
    listed as they would be without it. *)
Theorem lazyframe_skips_bad_column (name : string) (o schema all n : pyobj)
    (l1 l2 : list pyobj) (total mi : Z) (mnl : option Z) :
  is_lazyframe o ->
  py_method o "collect_schema" = Ok schema ->
  py_method schema "names" = Ok all ->
  islice all mi = Ok (l1 ++ n :: l2)%list ->
  py_len all = Ok total ->
  column_fails schema n ->
  exists rec,
    inspect_one name o mi mnl = Ok rec /\
    rget "columns" rec
    = Some (RList (lazy_columns schema mnl l1
                   ++ lazy_columns schema mnl l2)%list).
Proof.
  intros Hl Hs Hn Hi Ht Hf.
  rewrite (inspect_one_lazyframe name mi mnl Hl).
  eexists. split; [reflexivity|].
  unfold _inspect_polars_lazyframe. rewrite Hs. cbn [bind].
  rewrite Hn. cbn [bind]. rewrite Hi. cbn [bind]. rewrite Ht.
  cbn [bind try_except].
  rewrite lazy_columns_app, (lazy_columns_bad mnl l2 Hf).
  destruct (mi <? total); reflexivity.
Qed.

Lemma lazyframe_skips_bad_column_witness :
  exists rec,
    inspect_one "lf" bad_column_lazyframe 20 (Some 60) = Ok rec /\
    rget "columns" rec
    = Some (RList (lazy_columns bad_column_schema (Some 60) [mk_str "id"]
                   ++ lazy_columns bad_column_schema (Some 60) [])%list).
Proof.
  apply (@lazyframe_skips_bad_column "lf" bad_column_lazyframe bad_column_schema
           (mk_list [mk_str "id"; mk_str "score"]) (mk_str "score")
           [mk_str "id"] [] 2 20 (Some 60)).
  - split; [reflexivity | split; reflexivity].
  - reflexivity.
  - reflexivity.
  - reflexivity.
  - reflexivity.
  - right. left. reflexivity.
Defined.

(** ** Dimensions of a DataArray *)

Lemma not_other_library (m p q : string) :
  In p known_prefixes -> In q known_prefixes -> p <> q ->
  String.prefix p m = true -> String.prefix q m = false.
Proof.
  intros Hp Hq Hne H. destruct (String.prefix q m) eqn:E; [|reflexivity].
  exfalso. apply Hne. eapply known_prefix_unique; eassumption.
Qed.

Lemma inspect_one_dataarray (name : string) (o : pyobj) (mi : Z) (mnl : option Z) :
  is_dataarray o ->
  inspect_one name o mi mnl = _inspect_xarray_dataarray name o.
Proof.
  intros (Hs & Hp & Hc). unfold inspect_one, _module, _type_name.
  rewrite Hs, Hp, Hc.
  rewrite (not_other_library (cls_module o) (p := "xarray") (q := "pandas"));
    [| simpl; tauto | simpl; tauto | discriminate | exact Hp].
  rewrite (not_other_library (cls_module o) (p := "xarray") (q := "polars"));
    [| simpl; tauto | simpl; tauto | discriminate | exact Hp].
  rewrite (not_other_library (cls_module o) (p := "xarray") (q := "numpy"));
    [| simpl; tauto | simpl; tauto | discriminate | exact Hp].
  reflexivity.
Qed.

Lemma rset_fresh (k : string) (v : rvalue) (d : record) :
  rget k d = None -> rset k v d = (d ++ [(k, v)])%list.
Proof.
  unfold rget. induction d as [|[k' v'] d IH]; cbn [assoc rset app];
    [reflexivity|].
  destruct (String.eqb k k'); [discriminate|]. intros H. now rewrite IH.
Qed.

Lemma rget_app_fresh (k k' : string) (v : rvalue) (d : record) :
  k <> k' -> rget k d = None -> rget k (d ++ [(k', v)])%list = None.
Proof.
  unfold rget. intros Hne. induction d as [|[k'' v''] d IH]; cbn [assoc app].
  - intros _. apply String.eqb_neq in Hne. now rewrite Hne.
  - destruct (String.eqb k k''); [discriminate | exact IH].
Qed.

Lemma zip_dims_honest (ds ss : list pyobj) (names : list string)
    (sizes : list Z) (acc : record) :
  mapM py_str ds = Ok names -> mapM py_int ss = Ok sizes ->
  length ds = length ss -> NoDup names ->
  (forall k, In k names -> rget k acc = None) ->
  zip_dims ds false ss false acc
  = Ok (acc ++ combine names (map RInt sizes))%list.
Proof.
  revert ss names sizes acc.
  induction ds as [|d ds IH]; intros ss names sizes acc Hn Hs Hlen Hnd Hfresh.
  - cbn [mapM] in Hn. injection Hn as <-. cbn [zip_dims combine].
    now rewrite app_nil_r.
  - destruct ss as [|s ss]; [discriminate Hlen|].
    cbn [mapM] in Hn, Hs.
    destruct (py_str d) as [k|] eqn:Ek; [|discriminate Hn]. cbn [bind] in Hn.
    destruct (mapM py_str ds) as [ks|] eqn:Eks; [|discriminate Hn].
    injection Hn as <-.
    destruct (py_int s) as [z|] eqn:Ez; [|discriminate Hs]. cbn [bind] in Hs.
    destruct (mapM py_int ss) as [zs|] eqn:Ezs; [|discriminate Hs].
    injection Hs as <-.
    cbn [zip_dims]. rewrite Ek. cbn [bind]. rewrite Ez. cbn [bind].
    inversion Hnd as [|k' ks' Hnotin Hnd']; subst.
    rewrite rset_fresh by (apply Hfresh; now left).
    rewrite (IH ss ks zs); try reflexivity; try assumption.
    + cbn [map combine]. now rewrite <- app_assoc.
    + now injection Hlen.
    + intros k' Hin. apply rget_app_fresh.
      * intros ->. contradiction.
      * apply Hfresh. now right.
Qed.

(** X14.  For a DataArray whose [dims] lists distinct dimension names and
    whose [shape] lists as many integer sizes, the record's [dims] pairs
    each name with its size, in order. *)
Theorem dataarray_dims_pair_names_with_sizes (name : string) (o : pyobj)
    (ds ss : list pyobj) (names : list string) (sizes : list Z)
    (mi : Z) (mnl : option Z) (rec : record) :
  is_dataarray o ->
  is_None (_safe_attr o "dims" mk_none) = false ->
  is_None (_safe_attr o "shape" mk_none) = false ->
  dunder_iter (_safe_attr o "dims" mk_none) = Some (ds, false) ->
  dunder_iter (_safe_attr o "shape" mk_none) = Some (ss, false) ->
  mapM py_str ds = Ok names -> mapM py_int ss = Ok sizes ->
  length ds = length ss -> NoDup names ->
  inspect_one name o mi mnl = Ok rec ->
  rget "dims" rec = Some (RDict (combine names (map RInt sizes))).
Proof.
  intros Ha Hd Hs Hdi Hsi Hn Hz Hlen Hnd H.
  rewrite inspect_one_dataarray in H by exact Ha.
  unfold _inspect_xarray_dataarray in H. rewrite Hd, Hs, Hdi, Hsi in H.
  rewrite (@zip_dims_honest ds ss names sizes [] Hn Hz Hlen Hnd) in H
    by (intros; reflexivity).
  cbn [bind negb andb app] in H. ok_inv; rget_tac.
Qed.

Lemma dataarray_dims_pair_names_with_sizes_witness :
  rget "dims" [("name", RStr "da"); ("type", RStr "xarray.DataArray");
               ("dims", RDict [("time", RInt 3); ("x", RInt 2)]);
               ("dtype", RStr "float64")]
  = Some (RDict (combine ["time"; "x"] (map RInt [3; 2]))).
Proof.
  apply (@dataarray_dims_pair_names_with_sizes "da" small_dataarray
           [mk_str "time"; mk_str "x"] [mk_int 3; mk_int 2]
           ["time"; "x"] [3; 2] 20 (Some 60));
    try reflexivity.
  - split; [reflexivity | split; reflexivity].
  - repeat constructor; simpl; intuition discriminate.
Defined.

(** ** Summaries *)

Lemma summary_prefix (info : record) (n t s : string) :
  rget "name" info = Some (RStr n) ->
  rget "type" info = Some (RStr t) ->
  _format_summary info = Ok s ->
  exists rest, s = n ++ ": " ++ t ++ rest.
Proof.
  intros Hn Ht H. unfold _format_summary, rsub in H.
  rewrite Hn, Ht in H. cbn [bind rv_str] in H.
  destruct (has_key "columns" info); [ok_inv; eexists; reflexivity|].
  destruct (rv_eq_str (RStr t) "ndarray") eqn:En.
  { apply String.eqb_eq in En. subst t. ok_inv; eexists; reflexivity. }
  ok_inv; eexists; reflexivity.
Qed.

(** X15.  Whenever [summarize_one] returns, the line starts with the
    variable's name, a colon and a space, and the type label of its
    record. *)
Theorem summary_starts_with_name_and_type (name : string) (o : pyobj)
    (mi : Z) (mnl : option Z) (s : string) :
  summarize_one _format_summary name o mi mnl = Ok s ->
  exists info t rest,
    inspect_one name o mi mnl = Ok info /\
    rget "type" info = Some (RStr t) /\
    s = name ++ ": " ++ t ++ rest.
Proof.
  unfold summarize_one. intros H.
  destruct (inspect_one name o mi mnl) as [info|] eqn:Ei; [|discriminate H].
  cbn [bind] in H.
  destruct (inspect_one_named _ _ _ _ Ei) as [Hn [t Ht]].
  destruct (summary_prefix info Hn Ht H) as [rest Hs].
  now exists info, t, rest.
Qed.

Lemma summary_starts_with_name_and_type_witness :
  exists info t rest,
    inspect_one "n" (mk_int 42) 20 (Some 60) = Ok info /\
    rget "type" info = Some (RStr t) /\
    "n: int = 42" = "n" ++ ": " ++ t ++ rest.
Proof.
  apply (@summary_starts_with_name_and_type "n" (mk_int 42) 20 (Some 60)).
  reflexivity.
Defined.



Lemma summary_ignores_rset (k : string) (v : rvalue) (info : record) :
  existsb (String.eqb k) summary_read_keys = false ->
  _format_summary (rset k v info) = _format_summary info.
Proof.
  intros Hk.
  assert (Hne : forall x, In x summary_read_keys -> String.eqb x k = false).
  { intros x Hx. rewrite String.eqb_sym.
    destruct (String.eqb k x) eqn:E; [|reflexivity].
    assert (existsb (String.eqb k) summary_read_keys = true)
      by (apply existsb_exists; now exists x).
    congruence. }
  unfold _format_summary, rsub, rget_or, has_key.
  rewrite !rget_rset_other by (apply Hne; simpl; tauto).
  reflexivity.
Qed.

(** X17.  The summary depends on the fields it prints only: setting any
    field other than [name], [type], [columns], [columns_truncated],
    [shape], [dtype], [nbytes], [children], [total_nodes], [dims],
    [data_vars], [keys], [length], [keys_truncated] and [value] leaves it
    unchanged. *)
Theorem summary_ignores_other_fields (k : string) (v : rvalue) (info : record) :
  ~ In k summary_read_keys ->
  _format_summary (rset k v info) = _format_summary info.
Proof.
  intros Hn. apply summary_ignores_rset.
  destruct (existsb (String.eqb k) summary_read_keys) eqn:E; [|reflexivity].
  apply existsb_exists in E as (x & Hx & Heq).
  apply String.eqb_eq in Heq. subst x. contradiction.
Qed.

Lemma summary_ignores_other_fields_witness :
  _format_summary
    (rset "repr" (RStr "[0, 1, 2, 3]")
       [("name", RStr "lst"); ("type", RStr "list"); ("length", RInt 4)])
  = _format_summary
      [("name", RStr "lst"); ("type", RStr "list"); ("length", RInt 4)].
Proof.
  apply summary_ignores_other_fields. simpl. intros H.
  repeat match goal with
         | H : _ \/ _ |- _ => destruct H as [H | H]; [discriminate H|]
         end.
  exact H.
Defined.

Lemma rv_join_texts (sep : string) (l : list string) :
  rv_join sep (RList (map RStr l)) = Ok (join sep l).
Proof.
  unfold rv_join. cbn [rv_iter bind].
  rewrite (mapM_pure _ (fun x => match rv_text x with
                                 | Some s => s
                                 | None => ""
                                 end)).
  - cbn [bind]. rewrite map_map. cbn [rv_text]. now rewrite map_id.
  - intros x Hx. apply in_map_iff in Hx as (s & <- & _). reflexivity.
Qed.

(** X18.  A plain dict with string keys is always summarised, as its name,
    [dict], the number of items, and the listed keys, followed by [", ..."]
    exactly when there are more than [max_items] items. *)
Theorem plain_dict_summary (name : string) (items : list (string * pyobj))
    (mi : Z) (mnl : option Z) :
  0 <= mi <= sys_maxsize ->
  Z.of_nat (length items) <= sys_maxsize ->
  summarize_one _format_summary name (str_keyed_dict items) mi mnl
  = Ok (name ++ ": dict (" ++ dec (Z.of_nat (length items)) ++ " keys) ["
        ++ join ", " (map (fun kv => truncate_text (fst kv) mnl)
                          (firstn (Z.to_nat mi) items))
        ++ (if mi <? Z.of_nat (length items) then ", ..." else "") ++ "]").
Proof.
  intros Hmi Hlen. unfold summarize_one.
  destruct (plain_dict_inspect name items mnl Hmi Hlen) as [preview ->].
  cbn [bind]. cbv zeta.
  assert (Hbase :
    forall base, _format_summary
      match preview with
      | [] => base
      | _ :: _ => rset "values_preview" (RDict preview) base
      end = _format_summary base).
  { intros base. destruct preview; [reflexivity|].
    apply summary_ignores_rset. reflexivity. }
  rewrite Hbase.
  destruct (mi <? Z.of_nat (length items)) eqn:E; cbn [rset_if].
  - apply Z.ltb_lt in E.
    assert (Hnz : (Z.of_nat (length items) =? 0) = false)
      by (apply Z.eqb_neq; lia).
    unfold _format_summary, rsub, rget_or, rv_contains.
    cbn [rset rget assoc String.eqb Ascii.eqb Bool.eqb has_key bind
         rv_eq_str rv_text rv_str rv_repr rv_truth contains String.prefix].
    rewrite rv_join_texts, Hnz. reflexivity.
  - unfold _format_summary, rsub, rget_or, rv_contains.
    cbn [rset rget assoc String.eqb Ascii.eqb Bool.eqb has_key bind
         rv_eq_str rv_text rv_str rv_repr rv_truth contains String.prefix].
    rewrite rv_join_texts. reflexivity.
Qed.

Lemma plain_dict_summary_witness :
  summarize_one _format_summary "cfg"
    (str_keyed_dict [("host", mk_str "localhost"); ("port", mk_int 8080);
                     ("debug", mk_none)]) 2 (Some 60)
  = Ok "cfg: dict (3 keys) [host, port, ...]".
Proof.
  apply (@plain_dict_summary "cfg"
           [("host", mk_str "localhost"); ("port", mk_int 8080);
            ("debug", mk_none)] 2 (Some 60)).
  - unfold sys_maxsize. lia.
  - unfold sys_maxsize. cbn [length]. lia.
Defined.

Lemma collection_base_summary (name cls : string) (n : option Z) :
  cls <> "ndarray" ->
  contains "Series" cls = false ->
  _format_summary [("name", RStr name); ("type", RStr cls); ("length", ropt n)]
  = Ok (name ++ ": " ++ cls
        ++ match n with
           | Some z => " len=" ++ dec z
           | None => ""
           end).
Proof.
  intros Hn Hc. unfold _format_summary, rsub, rget_or, rv_eq_str, rv_contains.
  cbn [rget assoc String.eqb Ascii.eqb Bool.eqb has_key bind rv_text rv_str].
  apply String.eqb_neq in Hn. rewrite Hn, Hc.
  destruct n; reflexivity.
Qed.

(** X19.  A list, tuple, set or frozenset whose class name is not [ndarray]
    and does not contain [Series] is summarised as its name, its class and
    [len=] its length, whatever its size; without a usable length the line
    stops after the class.  The summary raises only when the inspection
    does. *)
Theorem collection_summary (name : string) (o : pyobj) (mi : Z)
    (mnl : option Z) :
  is_collection o ->
  cls_name o <> "ndarray" ->
  contains "Series" (cls_name o) = false ->
  summarize_one _format_summary name o mi mnl
  = (_ <- inspect_one name o mi mnl ;;
     Ok (name ++ ": " ++ cls_name o
         ++ match _safe_len o with
            | Some z => " len=" ++ dec z
            | None => ""
            end)).
Proof.
  intros Hcol Hn Hc. unfold summarize_one.
  rewrite inspect_one_collection by exact Hcol.
  pose proof (collection_base_summary name (_safe_len o) Hn Hc) as Hb.
  unfold inspect_collection, _type_name.
  destruct (_safe_len o) as [n|].
  - destruct (20 <? n).
    + match goal with
      | |- context [bind ?m _] =>
          match m with
          | bind ?s _ => destruct s as [sample|]
          end
      end; [|reflexivity].
      cbn [bind]. rewrite summary_ignores_rset by reflexivity. exact Hb.
    + cbn [bind]. rewrite summary_ignores_rset by reflexivity. exact Hb.
  - cbn [bind]. rewrite summary_ignores_rset by reflexivity. exact Hb.
Qed.

Lemma collection_summary_witness :
  summarize_one _format_summary "lst" range_100 20 (Some 60)
  = Ok "lst: list len=100".
Proof.
  rewrite (@collection_summary "lst" range_100 20 (Some 60)).
  - reflexivity.
  - repeat split; reflexivity.
  - discriminate.
  - reflexivity.
Defined.

Lemma lazy_columns_texts (schema : pyobj) (mnl : option Z) (names : list pyobj) :
  mapM (fun c => n <- rv_item c "name" ;; ns <- rv_str n ;;
                 d <- rv_item c "dtype" ;; ds <- rv_str d ;;
                 Ok (ns ++ ":" ++ ds))
       (lazy_columns schema mnl names)
  = Ok (column_texts schema mnl names).
Proof.
  induction names as [|n rest IH]; [reflexivity|].
  cbn [lazy_columns column_texts].
  destruct (_truncate_name n mnl) as [nm|]; cbn [bind]; [|exact IH].
  destruct (py_getitem schema n) as [v|]; cbn [bind]; [|exact IH].
  destruct (py_str v) as [dt|]; cbn [bind]; [|exact IH].
  cbn [mapM rv_item assoc String.eqb Ascii.eqb Bool.eqb bind rv_str].
  rewrite IH. reflexivity.
Qed.

(** X20.  A LazyFrame is always summarised; the summary never raises.  When
    the schema can be listed (the calls [collect_schema()], [names()], the
    slice to [max_items] and [len] all succeed) the line is the name,
    [polars.LazyFrame] and, in brackets, [name:dtype] for every listed
    column that can be rendered, followed by [", ..."] exactly when the
    schema has more than [max_items] columns.  When any of those calls
    fails the line is the name and [polars.LazyFrame] alone. *)
Theorem lazyframe_always_summarised (name : string) (o : pyobj) (mi : Z)
    (mnl : option Z) :
  is_lazyframe o ->
  summarize_one _format_summary name o mi mnl
  = Ok match schema_listing o mi with
       | Ok (schema, names, total) =>
           name ++ ": polars.LazyFrame ["
           ++ join ", " (column_texts schema mnl names)
           ++ (if mi <? total then ", ..." else "") ++ "]"
       | Raise => name ++ ": polars.LazyFrame"
       end.
Proof.
  intros Hl. unfold summarize_one.
  rewrite (inspect_one_lazyframe name mi mnl Hl). cbn [bind].
  unfold _inspect_polars_lazyframe, schema_listing.
  destruct (py_method o "collect_schema") as [schema|]; cbn [bind try_except];
    [|reflexivity].
  destruct (py_method schema "names") as [all|]; cbn [bind try_except];
    [|reflexivity].
  destruct (islice all mi) as [names|] eqn:Hs; cbn [bind try_except];
    [|reflexivity].
  destruct (py_len all) as [total|]; cbn [bind try_except]; [|reflexivity].
  apply islice_bound in Hs.
  pose proof (lazy_columns_length schema mnl names) as Hc.
  destruct (mi <? total) eqn:E; cbn [rset_if];
    unfold _format_summary, rsub, rget_or;
    cbn [rset rget assoc String.eqb Ascii.eqb Bool.eqb has_key bind
         rv_iter rv_truth rv_len rv_gt rv_int rv_str];
    rewrite lazy_columns_texts; cbn [bind].
  - apply Z.ltb_lt in E.
    assert (Hnz : (total =? 0) = false) by (apply Z.eqb_neq; lia).
    assert (Hgt : (Z.of_nat (length (lazy_columns schema mnl names)) <? total)
                  = true) by (apply Z.ltb_lt; lia).
    rewrite Hnz, Hgt. reflexivity.
  - reflexivity.
Qed.

Lemma lazyframe_always_summarised_witness :
  summarize_one _format_summary "lf" bad_column_lazyframe 1 (Some 60)
  = Ok "lf: polars.LazyFrame [id:Int64, ...]".
Proof.
  apply (@lazyframe_always_summarised "lf" bad_column_lazyframe 1 (Some 60)).
  repeat split; reflexivity.
Defined.

Lemma inspect_one_ndarray (name : string) (o : pyobj) (mi : Z) (mnl : option Z) :
  is_ndarray o -> inspect_one name o mi mnl = _inspect_numpy name o.
Proof.
  intros (Hs & Hp & Hc). unfold inspect_one, _module, _type_name.
  rewrite Hs, Hp, Hc.
  rewrite (not_other_library (cls_module o) (p := "numpy") (q := "pandas"));
    [| simpl; tauto | simpl; tauto | discriminate | exact Hp].
  rewrite (not_other_library (cls_module o) (p := "numpy") (q := "polars"));
    [| simpl; tauto | simpl; tauto | discriminate | exact Hp].
  reflexivity.
Qed.

Lemma safe_attr_present (o : pyobj) (a : string) (d v : pyobj) :
  py_getattr o a = Ok v -> _safe_attr o a d = v.
Proof.
  unfold py_getattr, _safe_attr.
  destruct (assoc a (attrs o)) as [[w|]|]; congruence.
Qed.

Lemma tuple_text_ints (shape : list Z) :
  rv_tuple_text (RList (map reify (map mk_int shape))) = Ok (tuple_text shape).
Proof.
  unfold rv_tuple_text. cbn [rv_iter bind].
  rewrite (mapM_pure rv_repr (fun v => match v with
                                       | RInt z => dec z
                                       | _ => ""
                                       end)).
  - cbn [bind]. rewrite !map_map. unfold tuple_text.
    destruct shape as [|a [|b l]]; reflexivity.
  - intros v Hv. rewrite map_map in Hv.
    apply in_map_iff in Hv as (z & <- & _). reflexivity.
Qed.

(** X21.  A numpy array whose [shape] is a tuple of ints and whose [nbytes]
    is an int is summarised as its name, [ndarray], the dtype, the shape
    printed as a tuple and the memory; an array of 0 bytes gets no memory
    part. *)
Theorem ndarray_summary (name : string) (o d : pyobj) (mi : Z)
    (mnl : option Z) (shape : list Z) (dtype : string) (nbytes : Z) :
  is_ndarray o ->
  py_getattr o "shape" = Ok (mk_tuple (map mk_int shape)) ->
  py_getattr o "dtype" = Ok d ->
  py_str d = Ok dtype ->
  py_getattr o "nbytes" = Ok (mk_int nbytes) ->
  summarize_one _format_summary name o mi mnl
  = (mem <- (if nbytes =? 0 then Ok "" else _format_mem (RInt nbytes)) ;;
     Ok (name ++ ": ndarray " ++ dtype ++ " " ++ tuple_text shape ++ mem)).
Proof.
  intros Ha Hshape Hd Hdt Hn. unfold summarize_one.
  rewrite (inspect_one_ndarray name mi mnl Ha). unfold _inspect_numpy.
  rewrite (@safe_attr_present _ _ _ _ Hshape), (@safe_attr_present _ _ _ _ Hd),
    (@safe_attr_present _ _ _ _ Hn), Hdt.
  cbn [py_iter_all mk_tuple mk_seq dunder_iter bind].
  unfold _format_summary, rsub, rget_or, rv_eq_str.
  cbn [rget assoc String.eqb Ascii.eqb Bool.eqb has_key bind rv_text rv_str].
  rewrite tuple_text_ints. cbn [bind].
  change (reify (mk_int nbytes)) with (RInt nbytes). cbn [rv_truth bind].
  destruct (nbytes =? 0); cbn [negb bind]; [reflexivity|].
  destruct (_format_mem (RInt nbytes)); reflexivity.
Qed.

Lemma ndarray_summary_witness :
  summarize_one _format_summary "a" float_array 20 (Some 60)
  = Ok "a: ndarray float64 (100, 3) 2.3KB".
Proof.
  apply (@ndarray_summary "a" float_array (mk_dtype 38 "float64") 20 (Some 60)
           [100; 3] "float64" 2400).
  - repeat split; reflexivity.
  - reflexivity.
  - reflexivity.
  - reflexivity.
  - reflexivity.
Defined.

(** X22.  Sizes just under one mebibyte, from 1048525 to 1048575 bytes, are
    below the [MB] threshold and round up in the [KB] format: they print as
    [1024.0KB]. *)
Theorem format_mem_rounds_up_to_1024KB (z : Z) :
  1048525 <= z < 1048576 -> _format_mem (RInt z) = Ok " 1024.0KB".
Proof.
  intros Hz.
  assert (H : exists k : nat, (k <= 50)%nat /\ z = 1048525 + Z.of_nat k).
  { exists (Z.to_nat (z - 1048525)). split; lia. }
  destruct H as (k & Hk & ->). clear Hz.
  do 51 (destruct k as [|k]; [vm_compute; reflexivity|]).
  lia.
Qed.

Lemma format_mem_rounds_up_to_1024KB_witness :
  _format_mem (RInt 1048575) = Ok " 1024.0KB".
Proof.
  apply (@format_mem_rounds_up_to_1024KB 1048575). lia.
Defined.
